(** * Order validation and placement of the Binance futures trading bot

    A shallow embedding of [src/basic_bot.py], [src/market_orders.py],
    [src/limit_orders.py] and [src/main.py].

    - Python [float] is IEEE 754 binary64.  It is modelled by the Standard
      Library's [spec_float] with precision 53 and maximal exponent 1024, and
      every arithmetic operation of the source is the corresponding
      correctly rounded [SF*] operation.
    - The exchange client ([binance.Client]) is an external collaborator.  It
      is modelled as a record of oracles: each oracle maps the calls made so
      far to a value or to a raised exception, so a client may answer
      differently on every call.
    - Python code with side effects (calls to the client, log records) and
      exceptions runs in a state-and-exception monad [M] over a [World] made of
      the list of client calls and the list of log records.
    - The command line of [src/main.py] runs in a second monad [IO] over a
      [Session]: the world above, the calls to three more methods of the
      client, and the lines printed on standard output; it may also end by
      leaving the interpreter.
    - A Python [str] is modelled by its UTF-8 encoding, a string of bytes
      (a lone surrogate by its three bytes); [str.upper] applies the
      upper-case mappings of the Unicode Character Database 14.0.0, the
      version of CPython 3.11, to every code point. *)

From Stdlib Require Import ZArith NArith List String Ascii Bool Lia.
From Stdlib Require Import SpecFloat.
Import ListNotations.
Open Scope Z_scope.

(** ** Python floats *)

Module Float64.

Definition prec : Z := 53.
Definition emax : Z := 1024.

Definition float : Type := spec_float.

Definition zero : float := S754_zero false.

Definition div : float -> float -> float := SFdiv prec emax.
Definition mul : float -> float -> float := SFmul prec emax.
Definition sub : float -> float -> float := SFsub prec emax.
Definition abs : float -> float := SFabs.

(** [x <= y], [x < y], [x == y] and [x >= y]; all are false on a NaN. *)
Definition leb : float -> float -> bool := SFleb.
Definition ltb : float -> float -> bool := SFltb.
Definition eqb : float -> float -> bool := SFeqb.
Definition geb (x y : float) : bool := SFleb y x.

(** The binary64 nearest to an integer (ties to even); an infinity when the
    integer is beyond the largest finite binary64. *)
Definition of_Z (z : Z) : float := binary_normalize prec emax z 0 false.

Definition is_zero (x : float) : bool :=
  match x with S754_zero _ => true | _ => false end.

(** A finite number of the binary64 format (not an infinity, not a NaN). *)
Definition is_finite (x : float) : bool :=
  match x with
  | S754_zero _ => true
  | S754_finite _ m e => bounded prec emax m e
  | _ => false
  end.

(** The literal [1e-10] of the source: 0x1.b7cdfd9d7bdbbp-34. *)
Definition lit_1e_10 : float := S754_finite false 7737125245533627 (-86).

(** The binary64 nearest to the decimal [n / 10^k], for [n] and [10^k] that
    are themselves binary64 numbers (a correctly rounded quotient of two
    exact operands): how a decimal literal such as [100.005] reads. *)
Definition decimal (n : Z) (k : Z) : float := div (of_Z n) (of_Z (10 ^ k)).

End Float64.

Definition float : Type := Float64.float.

(** ** Exceptions and the monad of Python computations *)

Inductive Exc : Type :=
| GatewayError (msg : string)    (* anything the exchange client raises *)
| KeyError (key : string)
| ValueError
| TypeError
| OverflowError
| ZeroDivisionError
| OSError (msg : string).        (* a file that cannot be opened *)

Inductive PyResult (A : Type) : Type :=
| Ok (a : A)
| Raise (e : Exc).

Arguments Ok {A} a.
Arguments Raise {A} e.

(** ** Values of the gateway's responses *)

(** A leaf value of a response, as the built-in [float()] sees it: [PyNum x]
    is any value on which [float()] returns [x] (a float, an int, or a numeric
    string such as ['0.01'], whose correctly rounded value is [x]); [PyNonNum e]
    is any value on which [float()] raises [e] ([None], ['N/A'], ...). *)
Inductive PyVal : Type :=
| PyNum (x : float)
| PyNonNum (e : Exc).

Definition py_float (v : PyVal) : PyResult float :=
  match v with
  | PyNum x => Ok x
  | PyNonNum e => Raise e
  end.

(** The dictionaries of the responses, one record field per key the source
    reads.  Keys every element carries by the gateway's contract are plain
    fields; the others are optional, and reading an absent one with [d[key]]
    raises [KeyError]. *)
Module Api.

(** One element of [s['filters']]. *)
Record Filter : Type := {
  filterType : string;
  minQty : option PyVal;
  tickSize : option PyVal
}.

(** One element of [exchange_info['symbols']]. *)
Record SymbolInfo : Type := {
  symbol : string;
  status : string;
  filters : list Filter
}.

Record ExchangeInfo : Type := {
  symbols : list SymbolInfo
}.

(** The response of [futures_account()]. *)
Record AccountInfo : Type := {
  totalWalletBalance : option PyVal;
  totalUnrealizedPnL : option PyVal;
  totalMarginBalance : option PyVal;
  availableBalance : option PyVal
}.

(** An order as the exchange reports it: the response of
    [futures_create_order] and of [futures_get_order] ([order_status] is
    the key ['status']). *)
Record Order : Type := {
  orderId : option Z;
  order_status : option string
}.

End Api.

(** The keyword arguments of [futures_create_order]. *)
Record OrderRequest : Type := {
  req_symbol : string;
  req_side : string;
  req_type : string;
  req_timeInForce : option string;
  req_quantity : float;
  req_price : option float
}.

(** The constants of the library module [binance.enums] that the source
    uses. *)
Definition ORDER_TYPE_MARKET : string := "MARKET".
Definition ORDER_TYPE_LIMIT : string := "LIMIT".
Definition TIME_IN_FORCE_GTC : string := "GTC".

(** ** The world: client calls and log records *)

Inductive GwCall : Type :=
| CallExchangeInfo
| CallAccount
| CallCreateOrder (req : OrderRequest)
| CallGetOrder (sym : string) (oid : Z).

Definition is_create_order (c : GwCall) : bool :=
  match c with CallCreateOrder _ => true | _ => false end.

Definition is_get_order (c : GwCall) : bool :=
  match c with CallGetOrder _ _ => true | _ => false end.

Inductive Level : Type := INFO | WARNING | ERROR.

(** The balance record built by [get_account_balance]. *)
Record BalanceInfo : Type := {
  total_wallet_balance : float;
  total_unrealized_pnl : float;
  total_margin_balance : float;
  available_balance : float
}.

(** One constructor per message of the source, with the values the message
    interpolates. *)
Inductive Msg : Type :=
| BotInitialized (testnet : bool)
| FailedToInitializeBot (e : Exc)
| ConnectionSuccessful
| AccountBalanceUSDT (balance : option PyVal)
| ConnectionTestFailed (e : Exc)
| SymbolIsValid (sym : string)
| SymbolNotValidOrNotTrading (sym : string)
| ErrorValidatingSymbol (sym : string) (e : Exc)
| QuantityIsValid (quantity : float) (sym : string)
| QuantityBelowMinimum (quantity min_qty : float) (sym : string)
| CouldNotFindQuantityInfo (sym : string)
| ErrorValidatingQuantity (sym : string) (e : Exc)
| ErrorGettingSymbolInfo (sym : string) (e : Exc)
| AccountBalanceRetrieved (b : BalanceInfo)
| ErrorGettingAccountBalance (e : Exc)
| InvalidSymbol (sym : string)
| InvalidOrderSide (side : string)
| InvalidQuantityMustBePositive (quantity : float)
| InvalidPriceMustBePositive (price : float)
| PriceDoesNotMatchTickSize (price tick_size : float) (sym : string)
                            (rounded_price : float)
| ErrorValidatingPricePrecision (e : Exc)
| PlacingMarketOrder (side : string) (quantity : float) (sym : string)
| MarketOrderPlaced (order : Api.Order)
| FailedToPlaceMarketOrder (e : Exc)
| PlacingLimitOrder (side : string) (quantity : float) (sym : string)
                    (price : float)
| LimitOrderPlaced (order : Api.Order)
| FailedToPlaceLimitOrder (e : Exc)
| FailedToGetOrderStatus (e : Exc).

Record World : Type := {
  trace : list GwCall;     (* the client calls made so far, oldest first *)
  log : list (Level * Msg) (* the log records written so far, oldest first *)
}.

Definition empty_world : World := {| trace := []; log := [] |}.

Definition M (A : Type) : Type := World -> PyResult A * World.

Definition ret {A} (a : A) : M A := fun w => (Ok a, w).

Definition raise {A} (e : Exc) : M A := fun w => (Raise e, w).

Definition bind {A B} (m : M A) (k : A -> M B) : M B :=
  fun w =>
    match m w with
    | (Ok a, w') => k a w'
    | (Raise e, w') => (Raise e, w')
    end.

(** [try: body except Exception as e: handler e]. *)
Definition try_except {A} (body : M A) (handler : Exc -> M A) : M A :=
  fun w =>
    match body w with
    | (Ok a, w') => (Ok a, w')
    | (Raise e, w') => handler e w'
    end.

(** A pure computation that may raise. *)
Definition lift {A} (r : PyResult A) : M A := fun w => (r, w).

Notation "x <- m ;; k" := (bind m (fun x => k))
  (at level 61, m at next level, right associativity).
Notation "m ;;; k" := (bind m (fun _ => k))
  (at level 61, right associativity).

Definition logger (lvl : Level) (msg : Msg) : M unit :=
  fun w => (Ok tt, {| trace := trace w; log := log w ++ [(lvl, msg)] |}).

Definition record_call (c : GwCall) (w : World) : World :=
  {| trace := trace w ++ [c]; log := log w |}.

(** The number of order submissions among the client calls. *)
Definition create_order_calls (w : World) : nat :=
  List.length (filter is_create_order (trace w)).

Definition get_order_calls (w : World) : nat :=
  List.length (filter is_get_order (trace w)).

(** ** The exchange client *)

(** Each method is an oracle: given the calls made before this one (and the
    arguments), it returns a response or raises. *)
Record Client : Type := {
  API_URL : string;
  futures_exchange_info : list GwCall -> PyResult Api.ExchangeInfo;
  futures_account : list GwCall -> PyResult Api.AccountInfo;
  futures_create_order : list GwCall -> OrderRequest -> PyResult Api.Order;
  futures_get_order : list GwCall -> string -> Z -> PyResult Api.Order
}.

Definition set_API_URL (c : Client) (url : string) : Client :=
  {| API_URL := url;
     futures_exchange_info := futures_exchange_info c;
     futures_account := futures_account c;
     futures_create_order := futures_create_order c;
     futures_get_order := futures_get_order c |}.

Definition call_futures_exchange_info (c : Client) : M Api.ExchangeInfo :=
  fun w => (futures_exchange_info c (trace w), record_call CallExchangeInfo w).

Definition call_futures_account (c : Client) : M Api.AccountInfo :=
  fun w => (futures_account c (trace w), record_call CallAccount w).

Definition call_futures_create_order (c : Client) (req : OrderRequest)
  : M Api.Order :=
  fun w => (futures_create_order c (trace w) req,
            record_call (CallCreateOrder req) w).

Definition call_futures_get_order (c : Client) (sym : string) (oid : Z)
  : M Api.Order :=
  fun w => (futures_get_order c (trace w) sym oid,
            record_call (CallGetOrder sym oid) w).

(** ** Python built-ins used by the source *)

(** [str.upper] on an ASCII character. *)
Definition upper_ascii (c : ascii) : ascii :=
  let n := nat_of_ascii c in
  if ((97 <=? n) && (n <=? 122))%nat then ascii_of_nat (n - 32) else c.

(** The UTF-8 encoding of a code point. *)
Definition utf8 (c : N) : string :=
  let byte (n : N) := ascii_of_N n in
  let cont (n : N) := byte (128 + n mod 64)%N in
  if (c <? 128)%N then String (byte c) EmptyString
  else if (c <? 2048)%N then
    String (byte (192 + c / 64)%N) (String (cont c) EmptyString)
  else if (c <? 65536)%N then
    String (byte (224 + c / 4096)%N)
           (String (cont (c / 64)%N) (String (cont c) EmptyString))
  else
    String (byte (240 + c / 262144)%N)
           (String (cont (c / 4096)%N)
                   (String (cont (c / 64)%N) (String (cont c) EmptyString))).

(** The code points beyond ASCII that [str.upper] changes, each with the
    code points of its upper-case form (the simple upper-case mappings of
    UnicodeData.txt and the unconditional ones of SpecialCasing.txt, version
    14.0.0): U+00B5 gives U+039C, U+00DF (sharp s) gives "SS", U+017F (long
    s) gives "S". *)
Definition case_mappings : list (N * list N) :=
  [(0xb5, [0x39c]); (0xdf, [0x53; 0x53]); (0xe0, [0xc0]); (0xe1, [0xc1]);
    (0xe2, [0xc2]); (0xe3, [0xc3]); (0xe4, [0xc4]); (0xe5, [0xc5]);
    (0xe6, [0xc6]); (0xe7, [0xc7]); (0xe8, [0xc8]); (0xe9, [0xc9]);
    (0xea, [0xca]); (0xeb, [0xcb]); (0xec, [0xcc]); (0xed, [0xcd]);
    (0xee, [0xce]); (0xef, [0xcf]); (0xf0, [0xd0]); (0xf1, [0xd1]);
    (0xf2, [0xd2]); (0xf3, [0xd3]); (0xf4, [0xd4]); (0xf5, [0xd5]);
    (0xf6, [0xd6]); (0xf8, [0xd8]); (0xf9, [0xd9]); (0xfa, [0xda]);
    (0xfb, [0xdb]); (0xfc, [0xdc]); (0xfd, [0xdd]); (0xfe, [0xde]);
    (0xff, [0x178]); (0x101, [0x100]); (0x103, [0x102]); (0x105, [0x104]);
    (0x107, [0x106]); (0x109, [0x108]); (0x10b, [0x10a]); (0x10d, [0x10c]);
    (0x10f, [0x10e]); (0x111, [0x110]); (0x113, [0x112]); (0x115, [0x114]);
    (0x117, [0x116]); (0x119, [0x118]); (0x11b, [0x11a]); (0x11d, [0x11c]);
    (0x11f, [0x11e]); (0x121, [0x120]); (0x123, [0x122]); (0x125, [0x124]);
    (0x127, [0x126]); (0x129, [0x128]); (0x12b, [0x12a]); (0x12d, [0x12c]);
    (0x12f, [0x12e]); (0x131, [0x49]); (0x133, [0x132]); (0x135, [0x134]);
    (0x137, [0x136]); (0x13a, [0x139]); (0x13c, [0x13b]); (0x13e, [0x13d]);
    (0x140, [0x13f]); (0x142, [0x141]); (0x144, [0x143]); (0x146, [0x145]);
    (0x148, [0x147]); (0x149, [0x2bc; 0x4e]); (0x14b, [0x14a]);
    (0x14d, [0x14c]); (0x14f, [0x14e]); (0x151, [0x150]); (0x153, [0x152]);
    (0x155, [0x154]); (0x157, [0x156]); (0x159, [0x158]); (0x15b, [0x15a]);
    (0x15d, [0x15c]); (0x15f, [0x15e]); (0x161, [0x160]); (0x163, [0x162]);
    (0x165, [0x164]); (0x167, [0x166]); (0x169, [0x168]); (0x16b, [0x16a]);
    (0x16d, [0x16c]); (0x16f, [0x16e]); (0x171, [0x170]); (0x173, [0x172]);
    (0x175, [0x174]); (0x177, [0x176]); (0x17a, [0x179]); (0x17c, [0x17b]);
    (0x17e, [0x17d]); (0x17f, [0x53]); (0x180, [0x243]); (0x183, [0x182]);
    (0x185, [0x184]); (0x188, [0x187]); (0x18c, [0x18b]); (0x192, [0x191]);
    (0x195, [0x1f6]); (0x199, [0x198]); (0x19a, [0x23d]); (0x19e, [0x220]);
    (0x1a1, [0x1a0]); (0x1a3, [0x1a2]); (0x1a5, [0x1a4]); (0x1a8, [0x1a7]);
    (0x1ad, [0x1ac]); (0x1b0, [0x1af]); (0x1b4, [0x1b3]); (0x1b6, [0x1b5]);
    (0x1b9, [0x1b8]); (0x1bd, [0x1bc]); (0x1bf, [0x1f7]); (0x1c5, [0x1c4]);
    (0x1c6, [0x1c4]); (0x1c8, [0x1c7]); (0x1c9, [0x1c7]); (0x1cb, [0x1ca]);
    (0x1cc, [0x1ca]); (0x1ce, [0x1cd]); (0x1d0, [0x1cf]); (0x1d2, [0x1d1]);
    (0x1d4, [0x1d3]); (0x1d6, [0x1d5]); (0x1d8, [0x1d7]); (0x1da, [0x1d9]);
    (0x1dc, [0x1db]); (0x1dd, [0x18e]); (0x1df, [0x1de]); (0x1e1, [0x1e0]);
    (0x1e3, [0x1e2]); (0x1e5, [0x1e4]); (0x1e7, [0x1e6]); (0x1e9, [0x1e8]);
    (0x1eb, [0x1ea]); (0x1ed, [0x1ec]); (0x1ef, [0x1ee]);
    (0x1f0, [0x4a; 0x30c]); (0x1f2, [0x1f1]); (0x1f3, [0x1f1]);
    (0x1f5, [0x1f4]); (0x1f9, [0x1f8]); (0x1fb, [0x1fa]); (0x1fd, [0x1fc]);
    (0x1ff, [0x1fe]); (0x201, [0x200]); (0x203, [0x202]); (0x205, [0x204]);
    (0x207, [0x206]); (0x209, [0x208]); (0x20b, [0x20a]); (0x20d, [0x20c]);
    (0x20f, [0x20e]); (0x211, [0x210]); (0x213, [0x212]); (0x215, [0x214]);
    (0x217, [0x216]); (0x219, [0x218]); (0x21b, [0x21a]); (0x21d, [0x21c]);
    (0x21f, [0x21e]); (0x223, [0x222]); (0x225, [0x224]); (0x227, [0x226]);
    (0x229, [0x228]); (0x22b, [0x22a]); (0x22d, [0x22c]); (0x22f, [0x22e]);
    (0x231, [0x230]); (0x233, [0x232]); (0x23c, [0x23b]); (0x23f, [0x2c7e]);
    (0x240, [0x2c7f]); (0x242, [0x241]); (0x247, [0x246]); (0x249, [0x248]);
    (0x24b, [0x24a]); (0x24d, [0x24c]); (0x24f, [0x24e]); (0x250, [0x2c6f]);
    (0x251, [0x2c6d]); (0x252, [0x2c70]); (0x253, [0x181]); (0x254, [0x186]);
    (0x256, [0x189]); (0x257, [0x18a]); (0x259, [0x18f]); (0x25b, [0x190]);
    (0x25c, [0xa7ab]); (0x260, [0x193]); (0x261, [0xa7ac]); (0x263, [0x194]);
    (0x265, [0xa78d]); (0x266, [0xa7aa]); (0x268, [0x197]); (0x269, [0x196]);
    (0x26a, [0xa7ae]); (0x26b, [0x2c62]); (0x26c, [0xa7ad]); (0x26f, [0x19c]);
    (0x271, [0x2c6e]); (0x272, [0x19d]); (0x275, [0x19f]); (0x27d, [0x2c64]);
    (0x280, [0x1a6]); (0x282, [0xa7c5]); (0x283, [0x1a9]); (0x287, [0xa7b1]);
    (0x288, [0x1ae]); (0x289, [0x244]); (0x28a, [0x1b1]); (0x28b, [0x1b2]);
    (0x28c, [0x245]); (0x292, [0x1b7]); (0x29d, [0xa7b2]); (0x29e, [0xa7b0]);
    (0x345, [0x399]); (0x371, [0x370]); (0x373, [0x372]); (0x377, [0x376]);
    (0x37b, [0x3fd]); (0x37c, [0x3fe]); (0x37d, [0x3ff]);
    (0x390, [0x399; 0x308; 0x301]); (0x3ac, [0x386]); (0x3ad, [0x388]);
    (0x3ae, [0x389]); (0x3af, [0x38a]); (0x3b0, [0x3a5; 0x308; 0x301]);
    (0x3b1, [0x391]); (0x3b2, [0x392]); (0x3b3, [0x393]); (0x3b4, [0x394]);
    (0x3b5, [0x395]); (0x3b6, [0x396]); (0x3b7, [0x397]); (0x3b8, [0x398]);
    (0x3b9, [0x399]); (0x3ba, [0x39a]); (0x3bb, [0x39b]); (0x3bc, [0x39c]);
    (0x3bd, [0x39d]); (0x3be, [0x39e]); (0x3bf, [0x39f]); (0x3c0, [0x3a0]);
    (0x3c1, [0x3a1]); (0x3c2, [0x3a3]); (0x3c3, [0x3a3]); (0x3c4, [0x3a4]);
    (0x3c5, [0x3a5]); (0x3c6, [0x3a6]); (0x3c7, [0x3a7]); (0x3c8, [0x3a8]);
    (0x3c9, [0x3a9]); (0x3ca, [0x3aa]); (0x3cb, [0x3ab]); (0x3cc, [0x38c]);
    (0x3cd, [0x38e]); (0x3ce, [0x38f]); (0x3d0, [0x392]); (0x3d1, [0x398]);
    (0x3d5, [0x3a6]); (0x3d6, [0x3a0]); (0x3d7, [0x3cf]); (0x3d9, [0x3d8]);
    (0x3db, [0x3da]); (0x3dd, [0x3dc]); (0x3df, [0x3de]); (0x3e1, [0x3e0]);
    (0x3e3, [0x3e2]); (0x3e5, [0x3e4]); (0x3e7, [0x3e6]); (0x3e9, [0x3e8]);
    (0x3eb, [0x3ea]); (0x3ed, [0x3ec]); (0x3ef, [0x3ee]); (0x3f0, [0x39a]);
    (0x3f1, [0x3a1]); (0x3f2, [0x3f9]); (0x3f3, [0x37f]); (0x3f5, [0x395]);
    (0x3f8, [0x3f7]); (0x3fb, [0x3fa]); (0x430, [0x410]); (0x431, [0x411]);
    (0x432, [0x412]); (0x433, [0x413]); (0x434, [0x414]); (0x435, [0x415]);
    (0x436, [0x416]); (0x437, [0x417]); (0x438, [0x418]); (0x439, [0x419]);
    (0x43a, [0x41a]); (0x43b, [0x41b]); (0x43c, [0x41c]); (0x43d, [0x41d]);
    (0x43e, [0x41e]); (0x43f, [0x41f]); (0x440, [0x420]); (0x441, [0x421]);
    (0x442, [0x422]); (0x443, [0x423]); (0x444, [0x424]); (0x445, [0x425]);
    (0x446, [0x426]); (0x447, [0x427]); (0x448, [0x428]); (0x449, [0x429]);
    (0x44a, [0x42a]); (0x44b, [0x42b]); (0x44c, [0x42c]); (0x44d, [0x42d]);
    (0x44e, [0x42e]); (0x44f, [0x42f]); (0x450, [0x400]); (0x451, [0x401]);
    (0x452, [0x402]); (0x453, [0x403]); (0x454, [0x404]); (0x455, [0x405]);
    (0x456, [0x406]); (0x457, [0x407]); (0x458, [0x408]); (0x459, [0x409]);
    (0x45a, [0x40a]); (0x45b, [0x40b]); (0x45c, [0x40c]); (0x45d, [0x40d]);
    (0x45e, [0x40e]); (0x45f, [0x40f]); (0x461, [0x460]); (0x463, [0x462]);
    (0x465, [0x464]); (0x467, [0x466]); (0x469, [0x468]); (0x46b, [0x46a]);
    (0x46d, [0x46c]); (0x46f, [0x46e]); (0x471, [0x470]); (0x473, [0x472]);
    (0x475, [0x474]); (0x477, [0x476]); (0x479, [0x478]); (0x47b, [0x47a]);
    (0x47d, [0x47c]); (0x47f, [0x47e]); (0x481, [0x480]); (0x48b, [0x48a]);
    (0x48d, [0x48c]); (0x48f, [0x48e]); (0x491, [0x490]); (0x493, [0x492]);
    (0x495, [0x494]); (0x497, [0x496]); (0x499, [0x498]); (0x49b, [0x49a]);
    (0x49d, [0x49c]); (0x49f, [0x49e]); (0x4a1, [0x4a0]); (0x4a3, [0x4a2]);
    (0x4a5, [0x4a4]); (0x4a7, [0x4a6]); (0x4a9, [0x4a8]); (0x4ab, [0x4aa]);
    (0x4ad, [0x4ac]); (0x4af, [0x4ae]); (0x4b1, [0x4b0]); (0x4b3, [0x4b2]);
    (0x4b5, [0x4b4]); (0x4b7, [0x4b6]); (0x4b9, [0x4b8]); (0x4bb, [0x4ba]);
    (0x4bd, [0x4bc]); (0x4bf, [0x4be]); (0x4c2, [0x4c1]); (0x4c4, [0x4c3]);
    (0x4c6, [0x4c5]); (0x4c8, [0x4c7]); (0x4ca, [0x4c9]); (0x4cc, [0x4cb]);
    (0x4ce, [0x4cd]); (0x4cf, [0x4c0]); (0x4d1, [0x4d0]); (0x4d3, [0x4d2]);
    (0x4d5, [0x4d4]); (0x4d7, [0x4d6]); (0x4d9, [0x4d8]); (0x4db, [0x4da]);
    (0x4dd, [0x4dc]); (0x4df, [0x4de]); (0x4e1, [0x4e0]); (0x4e3, [0x4e2]);
    (0x4e5, [0x4e4]); (0x4e7, [0x4e6]); (0x4e9, [0x4e8]); (0x4eb, [0x4ea]);
    (0x4ed, [0x4ec]); (0x4ef, [0x4ee]); (0x4f1, [0x4f0]); (0x4f3, [0x4f2]);
    (0x4f5, [0x4f4]); (0x4f7, [0x4f6]); (0x4f9, [0x4f8]); (0x4fb, [0x4fa]);
    (0x4fd, [0x4fc]); (0x4ff, [0x4fe]); (0x501, [0x500]); (0x503, [0x502]);
    (0x505, [0x504]); (0x507, [0x506]); (0x509, [0x508]); (0x50b, [0x50a]);
    (0x50d, [0x50c]); (0x50f, [0x50e]); (0x511, [0x510]); (0x513, [0x512]);
    (0x515, [0x514]); (0x517, [0x516]); (0x519, [0x518]); (0x51b, [0x51a]);
    (0x51d, [0x51c]); (0x51f, [0x51e]); (0x521, [0x520]); (0x523, [0x522]);
    (0x525, [0x524]); (0x527, [0x526]); (0x529, [0x528]); (0x52b, [0x52a]);
    (0x52d, [0x52c]); (0x52f, [0x52e]); (0x561, [0x531]); (0x562, [0x532]);
    (0x563, [0x533]); (0x564, [0x534]); (0x565, [0x535]); (0x566, [0x536]);
    (0x567, [0x537]); (0x568, [0x538]); (0x569, [0x539]); (0x56a, [0x53a]);
    (0x56b, [0x53b]); (0x56c, [0x53c]); (0x56d, [0x53d]); (0x56e, [0x53e]);
    (0x56f, [0x53f]); (0x570, [0x540]); (0x571, [0x541]); (0x572, [0x542]);
    (0x573, [0x543]); (0x574, [0x544]); (0x575, [0x545]); (0x576, [0x546]);
    (0x577, [0x547]); (0x578, [0x548]); (0x579, [0x549]); (0x57a, [0x54a]);
    (0x57b, [0x54b]); (0x57c, [0x54c]); (0x57d, [0x54d]); (0x57e, [0x54e]);
    (0x57f, [0x54f]); (0x580, [0x550]); (0x581, [0x551]); (0x582, [0x552]);
    (0x583, [0x553]); (0x584, [0x554]); (0x585, [0x555]); (0x586, [0x556]);
    (0x587, [0x535; 0x552]); (0x10d0, [0x1c90]); (0x10d1, [0x1c91]);
    (0x10d2, [0x1c92]); (0x10d3, [0x1c93]); (0x10d4, [0x1c94]);
    (0x10d5, [0x1c95]); (0x10d6, [0x1c96]); (0x10d7, [0x1c97]);
    (0x10d8, [0x1c98]); (0x10d9, [0x1c99]); (0x10da, [0x1c9a]);
    (0x10db, [0x1c9b]); (0x10dc, [0x1c9c]); (0x10dd, [0x1c9d]);
    (0x10de, [0x1c9e]); (0x10df, [0x1c9f]); (0x10e0, [0x1ca0]);
    (0x10e1, [0x1ca1]); (0x10e2, [0x1ca2]); (0x10e3, [0x1ca3]);
    (0x10e4, [0x1ca4]); (0x10e5, [0x1ca5]); (0x10e6, [0x1ca6]);
    (0x10e7, [0x1ca7]); (0x10e8, [0x1ca8]); (0x10e9, [0x1ca9]);
    (0x10ea, [0x1caa]); (0x10eb, [0x1cab]); (0x10ec, [0x1cac]);
    (0x10ed, [0x1cad]); (0x10ee, [0x1cae]); (0x10ef, [0x1caf]);
    (0x10f0, [0x1cb0]); (0x10f1, [0x1cb1]); (0x10f2, [0x1cb2]);
    (0x10f3, [0x1cb3]); (0x10f4, [0x1cb4]); (0x10f5, [0x1cb5]);
    (0x10f6, [0x1cb6]); (0x10f7, [0x1cb7]); (0x10f8, [0x1cb8]);
    (0x10f9, [0x1cb9]); (0x10fa, [0x1cba]); (0x10fd, [0x1cbd]);
    (0x10fe, [0x1cbe]); (0x10ff, [0x1cbf]); (0x13f8, [0x13f0]);
    (0x13f9, [0x13f1]); (0x13fa, [0x13f2]); (0x13fb, [0x13f3]);
    (0x13fc, [0x13f4]); (0x13fd, [0x13f5]); (0x1c80, [0x412]);
    (0x1c81, [0x414]); (0x1c82, [0x41e]); (0x1c83, [0x421]);
    (0x1c84, [0x422]); (0x1c85, [0x422]); (0x1c86, [0x42a]);
    (0x1c87, [0x462]); (0x1c88, [0xa64a]); (0x1d79, [0xa77d]);
    (0x1d7d, [0x2c63]); (0x1d8e, [0xa7c6]); (0x1e01, [0x1e00]);
    (0x1e03, [0x1e02]); (0x1e05, [0x1e04]); (0x1e07, [0x1e06]);
    (0x1e09, [0x1e08]); (0x1e0b, [0x1e0a]); (0x1e0d, [0x1e0c]);
    (0x1e0f, [0x1e0e]); (0x1e11, [0x1e10]); (0x1e13, [0x1e12]);
    (0x1e15, [0x1e14]); (0x1e17, [0x1e16]); (0x1e19, [0x1e18]);
    (0x1e1b, [0x1e1a]); (0x1e1d, [0x1e1c]); (0x1e1f, [0x1e1e]);
    (0x1e21, [0x1e20]); (0x1e23, [0x1e22]); (0x1e25, [0x1e24]);
    (0x1e27, [0x1e26]); (0x1e29, [0x1e28]); (0x1e2b, [0x1e2a]);
    (0x1e2d, [0x1e2c]); (0x1e2f, [0x1e2e]); (0x1e31, [0x1e30]);
    (0x1e33, [0x1e32]); (0x1e35, [0x1e34]); (0x1e37, [0x1e36]);
    (0x1e39, [0x1e38]); (0x1e3b, [0x1e3a]); (0x1e3d, [0x1e3c]);
    (0x1e3f, [0x1e3e]); (0x1e41, [0x1e40]); (0x1e43, [0x1e42]);
    (0x1e45, [0x1e44]); (0x1e47, [0x1e46]); (0x1e49, [0x1e48]);
    (0x1e4b, [0x1e4a]); (0x1e4d, [0x1e4c]); (0x1e4f, [0x1e4e]);
    (0x1e51, [0x1e50]); (0x1e53, [0x1e52]); (0x1e55, [0x1e54]);
    (0x1e57, [0x1e56]); (0x1e59, [0x1e58]); (0x1e5b, [0x1e5a]);
    (0x1e5d, [0x1e5c]); (0x1e5f, [0x1e5e]); (0x1e61, [0x1e60]);
    (0x1e63, [0x1e62]); (0x1e65, [0x1e64]); (0x1e67, [0x1e66]);
    (0x1e69, [0x1e68]); (0x1e6b, [0x1e6a]); (0x1e6d, [0x1e6c]);
    (0x1e6f, [0x1e6e]); (0x1e71, [0x1e70]); (0x1e73, [0x1e72]);
    (0x1e75, [0x1e74]); (0x1e77, [0x1e76]); (0x1e79, [0x1e78]);
    (0x1e7b, [0x1e7a]); (0x1e7d, [0x1e7c]); (0x1e7f, [0x1e7e]);
    (0x1e81, [0x1e80]); (0x1e83, [0x1e82]); (0x1e85, [0x1e84]);
    (0x1e87, [0x1e86]); (0x1e89, [0x1e88]); (0x1e8b, [0x1e8a]);
    (0x1e8d, [0x1e8c]); (0x1e8f, [0x1e8e]); (0x1e91, [0x1e90]);
    (0x1e93, [0x1e92]); (0x1e95, [0x1e94]); (0x1e96, [0x48; 0x331]);
    (0x1e97, [0x54; 0x308]); (0x1e98, [0x57; 0x30a]); (0x1e99, [0x59; 0x30a]);
    (0x1e9a, [0x41; 0x2be]); (0x1e9b, [0x1e60]); (0x1ea1, [0x1ea0]);
    (0x1ea3, [0x1ea2]); (0x1ea5, [0x1ea4]); (0x1ea7, [0x1ea6]);
    (0x1ea9, [0x1ea8]); (0x1eab, [0x1eaa]); (0x1ead, [0x1eac]);
    (0x1eaf, [0x1eae]); (0x1eb1, [0x1eb0]); (0x1eb3, [0x1eb2]);
    (0x1eb5, [0x1eb4]); (0x1eb7, [0x1eb6]); (0x1eb9, [0x1eb8]);
    (0x1ebb, [0x1eba]); (0x1ebd, [0x1ebc]); (0x1ebf, [0x1ebe]);
    (0x1ec1, [0x1ec0]); (0x1ec3, [0x1ec2]); (0x1ec5, [0x1ec4]);
    (0x1ec7, [0x1ec6]); (0x1ec9, [0x1ec8]); (0x1ecb, [0x1eca]);
    (0x1ecd, [0x1ecc]); (0x1ecf, [0x1ece]); (0x1ed1, [0x1ed0]);
    (0x1ed3, [0x1ed2]); (0x1ed5, [0x1ed4]); (0x1ed7, [0x1ed6]);
    (0x1ed9, [0x1ed8]); (0x1edb, [0x1eda]); (0x1edd, [0x1edc]);
    (0x1edf, [0x1ede]); (0x1ee1, [0x1ee0]); (0x1ee3, [0x1ee2]);
    (0x1ee5, [0x1ee4]); (0x1ee7, [0x1ee6]); (0x1ee9, [0x1ee8]);
    (0x1eeb, [0x1eea]); (0x1eed, [0x1eec]); (0x1eef, [0x1eee]);
    (0x1ef1, [0x1ef0]); (0x1ef3, [0x1ef2]); (0x1ef5, [0x1ef4]);
    (0x1ef7, [0x1ef6]); (0x1ef9, [0x1ef8]); (0x1efb, [0x1efa]);
    (0x1efd, [0x1efc]); (0x1eff, [0x1efe]); (0x1f00, [0x1f08]);
    (0x1f01, [0x1f09]); (0x1f02, [0x1f0a]); (0x1f03, [0x1f0b]);
    (0x1f04, [0x1f0c]); (0x1f05, [0x1f0d]); (0x1f06, [0x1f0e]);
    (0x1f07, [0x1f0f]); (0x1f10, [0x1f18]); (0x1f11, [0x1f19]);
    (0x1f12, [0x1f1a]); (0x1f13, [0x1f1b]); (0x1f14, [0x1f1c]);
    (0x1f15, [0x1f1d]); (0x1f20, [0x1f28]); (0x1f21, [0x1f29]);
    (0x1f22, [0x1f2a]); (0x1f23, [0x1f2b]); (0x1f24, [0x1f2c]);
    (0x1f25, [0x1f2d]); (0x1f26, [0x1f2e]); (0x1f27, [0x1f2f]);
    (0x1f30, [0x1f38]); (0x1f31, [0x1f39]); (0x1f32, [0x1f3a]);
    (0x1f33, [0x1f3b]); (0x1f34, [0x1f3c]); (0x1f35, [0x1f3d]);
    (0x1f36, [0x1f3e]); (0x1f37, [0x1f3f]); (0x1f40, [0x1f48]);
    (0x1f41, [0x1f49]); (0x1f42, [0x1f4a]); (0x1f43, [0x1f4b]);
    (0x1f44, [0x1f4c]); (0x1f45, [0x1f4d]); (0x1f50, [0x3a5; 0x313]);
    (0x1f51, [0x1f59]); (0x1f52, [0x3a5; 0x313; 0x300]); (0x1f53, [0x1f5b]);
    (0x1f54, [0x3a5; 0x313; 0x301]); (0x1f55, [0x1f5d]);
    (0x1f56, [0x3a5; 0x313; 0x342]); (0x1f57, [0x1f5f]); (0x1f60, [0x1f68]);
    (0x1f61, [0x1f69]); (0x1f62, [0x1f6a]); (0x1f63, [0x1f6b]);
    (0x1f64, [0x1f6c]); (0x1f65, [0x1f6d]); (0x1f66, [0x1f6e]);
    (0x1f67, [0x1f6f]); (0x1f70, [0x1fba]); (0x1f71, [0x1fbb]);
    (0x1f72, [0x1fc8]); (0x1f73, [0x1fc9]); (0x1f74, [0x1fca]);
    (0x1f75, [0x1fcb]); (0x1f76, [0x1fda]); (0x1f77, [0x1fdb]);
    (0x1f78, [0x1ff8]); (0x1f79, [0x1ff9]); (0x1f7a, [0x1fea]);
    (0x1f7b, [0x1feb]); (0x1f7c, [0x1ffa]); (0x1f7d, [0x1ffb]);
    (0x1f80, [0x1f08; 0x399]); (0x1f81, [0x1f09; 0x399]);
    (0x1f82, [0x1f0a; 0x399]); (0x1f83, [0x1f0b; 0x399]);
    (0x1f84, [0x1f0c; 0x399]); (0x1f85, [0x1f0d; 0x399]);
    (0x1f86, [0x1f0e; 0x399]); (0x1f87, [0x1f0f; 0x399]);
    (0x1f88, [0x1f08; 0x399]); (0x1f89, [0x1f09; 0x399]);
    (0x1f8a, [0x1f0a; 0x399]); (0x1f8b, [0x1f0b; 0x399]);
    (0x1f8c, [0x1f0c; 0x399]); (0x1f8d, [0x1f0d; 0x399]);
    (0x1f8e, [0x1f0e; 0x399]); (0x1f8f, [0x1f0f; 0x399]);
    (0x1f90, [0x1f28; 0x399]); (0x1f91, [0x1f29; 0x399]);
    (0x1f92, [0x1f2a; 0x399]); (0x1f93, [0x1f2b; 0x399]);
    (0x1f94, [0x1f2c; 0x399]); (0x1f95, [0x1f2d; 0x399]);
    (0x1f96, [0x1f2e; 0x399]); (0x1f97, [0x1f2f; 0x399]);
    (0x1f98, [0x1f28; 0x399]); (0x1f99, [0x1f29; 0x399]);
    (0x1f9a, [0x1f2a; 0x399]); (0x1f9b, [0x1f2b; 0x399]);
    (0x1f9c, [0x1f2c; 0x399]); (0x1f9d, [0x1f2d; 0x399]);
    (0x1f9e, [0x1f2e; 0x399]); (0x1f9f, [0x1f2f; 0x399]);
    (0x1fa0, [0x1f68; 0x399]); (0x1fa1, [0x1f69; 0x399]);
    (0x1fa2, [0x1f6a; 0x399]); (0x1fa3, [0x1f6b; 0x399]);
    (0x1fa4, [0x1f6c; 0x399]); (0x1fa5, [0x1f6d; 0x399]);
    (0x1fa6, [0x1f6e; 0x399]); (0x1fa7, [0x1f6f; 0x399]);
    (0x1fa8, [0x1f68; 0x399]); (0x1fa9, [0x1f69; 0x399]);
    (0x1faa, [0x1f6a; 0x399]); (0x1fab, [0x1f6b; 0x399]);
    (0x1fac, [0x1f6c; 0x399]); (0x1fad, [0x1f6d; 0x399]);
    (0x1fae, [0x1f6e; 0x399]); (0x1faf, [0x1f6f; 0x399]); (0x1fb0, [0x1fb8]);
    (0x1fb1, [0x1fb9]); (0x1fb2, [0x1fba; 0x399]); (0x1fb3, [0x391; 0x399]);
    (0x1fb4, [0x386; 0x399]); (0x1fb6, [0x391; 0x342]);
    (0x1fb7, [0x391; 0x342; 0x399]); (0x1fbc, [0x391; 0x399]);
    (0x1fbe, [0x399]); (0x1fc2, [0x1fca; 0x399]); (0x1fc3, [0x397; 0x399]);
    (0x1fc4, [0x389; 0x399]); (0x1fc6, [0x397; 0x342]);
    (0x1fc7, [0x397; 0x342; 0x399]); (0x1fcc, [0x397; 0x399]);
    (0x1fd0, [0x1fd8]); (0x1fd1, [0x1fd9]); (0x1fd2, [0x399; 0x308; 0x300]);
    (0x1fd3, [0x399; 0x308; 0x301]); (0x1fd6, [0x399; 0x342]);
    (0x1fd7, [0x399; 0x308; 0x342]); (0x1fe0, [0x1fe8]); (0x1fe1, [0x1fe9]);
    (0x1fe2, [0x3a5; 0x308; 0x300]); (0x1fe3, [0x3a5; 0x308; 0x301]);
    (0x1fe4, [0x3a1; 0x313]); (0x1fe5, [0x1fec]); (0x1fe6, [0x3a5; 0x342]);
    (0x1fe7, [0x3a5; 0x308; 0x342]); (0x1ff2, [0x1ffa; 0x399]);
    (0x1ff3, [0x3a9; 0x399]); (0x1ff4, [0x38f; 0x399]);
    (0x1ff6, [0x3a9; 0x342]); (0x1ff7, [0x3a9; 0x342; 0x399]);
    (0x1ffc, [0x3a9; 0x399]); (0x214e, [0x2132]); (0x2170, [0x2160]);
    (0x2171, [0x2161]); (0x2172, [0x2162]); (0x2173, [0x2163]);
    (0x2174, [0x2164]); (0x2175, [0x2165]); (0x2176, [0x2166]);
    (0x2177, [0x2167]); (0x2178, [0x2168]); (0x2179, [0x2169]);
    (0x217a, [0x216a]); (0x217b, [0x216b]); (0x217c, [0x216c]);
    (0x217d, [0x216d]); (0x217e, [0x216e]); (0x217f, [0x216f]);
    (0x2184, [0x2183]); (0x24d0, [0x24b6]); (0x24d1, [0x24b7]);
    (0x24d2, [0x24b8]); (0x24d3, [0x24b9]); (0x24d4, [0x24ba]);
    (0x24d5, [0x24bb]); (0x24d6, [0x24bc]); (0x24d7, [0x24bd]);
    (0x24d8, [0x24be]); (0x24d9, [0x24bf]); (0x24da, [0x24c0]);
    (0x24db, [0x24c1]); (0x24dc, [0x24c2]); (0x24dd, [0x24c3]);
    (0x24de, [0x24c4]); (0x24df, [0x24c5]); (0x24e0, [0x24c6]);
    (0x24e1, [0x24c7]); (0x24e2, [0x24c8]); (0x24e3, [0x24c9]);
    (0x24e4, [0x24ca]); (0x24e5, [0x24cb]); (0x24e6, [0x24cc]);
    (0x24e7, [0x24cd]); (0x24e8, [0x24ce]); (0x24e9, [0x24cf]);
    (0x2c30, [0x2c00]); (0x2c31, [0x2c01]); (0x2c32, [0x2c02]);
    (0x2c33, [0x2c03]); (0x2c34, [0x2c04]); (0x2c35, [0x2c05]);
    (0x2c36, [0x2c06]); (0x2c37, [0x2c07]); (0x2c38, [0x2c08]);
    (0x2c39, [0x2c09]); (0x2c3a, [0x2c0a]); (0x2c3b, [0x2c0b]);
    (0x2c3c, [0x2c0c]); (0x2c3d, [0x2c0d]); (0x2c3e, [0x2c0e]);
    (0x2c3f, [0x2c0f]); (0x2c40, [0x2c10]); (0x2c41, [0x2c11]);
    (0x2c42, [0x2c12]); (0x2c43, [0x2c13]); (0x2c44, [0x2c14]);
    (0x2c45, [0x2c15]); (0x2c46, [0x2c16]); (0x2c47, [0x2c17]);
    (0x2c48, [0x2c18]); (0x2c49, [0x2c19]); (0x2c4a, [0x2c1a]);
    (0x2c4b, [0x2c1b]); (0x2c4c, [0x2c1c]); (0x2c4d, [0x2c1d]);
    (0x2c4e, [0x2c1e]); (0x2c4f, [0x2c1f]); (0x2c50, [0x2c20]);
    (0x2c51, [0x2c21]); (0x2c52, [0x2c22]); (0x2c53, [0x2c23]);
    (0x2c54, [0x2c24]); (0x2c55, [0x2c25]); (0x2c56, [0x2c26]);
    (0x2c57, [0x2c27]); (0x2c58, [0x2c28]); (0x2c59, [0x2c29]);
    (0x2c5a, [0x2c2a]); (0x2c5b, [0x2c2b]); (0x2c5c, [0x2c2c]);
    (0x2c5d, [0x2c2d]); (0x2c5e, [0x2c2e]); (0x2c5f, [0x2c2f]);
    (0x2c61, [0x2c60]); (0x2c65, [0x23a]); (0x2c66, [0x23e]);
    (0x2c68, [0x2c67]); (0x2c6a, [0x2c69]); (0x2c6c, [0x2c6b]);
    (0x2c73, [0x2c72]); (0x2c76, [0x2c75]); (0x2c81, [0x2c80]);
    (0x2c83, [0x2c82]); (0x2c85, [0x2c84]); (0x2c87, [0x2c86]);
    (0x2c89, [0x2c88]); (0x2c8b, [0x2c8a]); (0x2c8d, [0x2c8c]);
    (0x2c8f, [0x2c8e]); (0x2c91, [0x2c90]); (0x2c93, [0x2c92]);
    (0x2c95, [0x2c94]); (0x2c97, [0x2c96]); (0x2c99, [0x2c98]);
    (0x2c9b, [0x2c9a]); (0x2c9d, [0x2c9c]); (0x2c9f, [0x2c9e]);
    (0x2ca1, [0x2ca0]); (0x2ca3, [0x2ca2]); (0x2ca5, [0x2ca4]);
    (0x2ca7, [0x2ca6]); (0x2ca9, [0x2ca8]); (0x2cab, [0x2caa]);
    (0x2cad, [0x2cac]); (0x2caf, [0x2cae]); (0x2cb1, [0x2cb0]);
    (0x2cb3, [0x2cb2]); (0x2cb5, [0x2cb4]); (0x2cb7, [0x2cb6]);
    (0x2cb9, [0x2cb8]); (0x2cbb, [0x2cba]); (0x2cbd, [0x2cbc]);
    (0x2cbf, [0x2cbe]); (0x2cc1, [0x2cc0]); (0x2cc3, [0x2cc2]);
    (0x2cc5, [0x2cc4]); (0x2cc7, [0x2cc6]); (0x2cc9, [0x2cc8]);
    (0x2ccb, [0x2cca]); (0x2ccd, [0x2ccc]); (0x2ccf, [0x2cce]);
    (0x2cd1, [0x2cd0]); (0x2cd3, [0x2cd2]); (0x2cd5, [0x2cd4]);
    (0x2cd7, [0x2cd6]); (0x2cd9, [0x2cd8]); (0x2cdb, [0x2cda]);
    (0x2cdd, [0x2cdc]); (0x2cdf, [0x2cde]); (0x2ce1, [0x2ce0]);
    (0x2ce3, [0x2ce2]); (0x2cec, [0x2ceb]); (0x2cee, [0x2ced]);
    (0x2cf3, [0x2cf2]); (0x2d00, [0x10a0]); (0x2d01, [0x10a1]);
    (0x2d02, [0x10a2]); (0x2d03, [0x10a3]); (0x2d04, [0x10a4]);
    (0x2d05, [0x10a5]); (0x2d06, [0x10a6]); (0x2d07, [0x10a7]);
    (0x2d08, [0x10a8]); (0x2d09, [0x10a9]); (0x2d0a, [0x10aa]);
    (0x2d0b, [0x10ab]); (0x2d0c, [0x10ac]); (0x2d0d, [0x10ad]);
    (0x2d0e, [0x10ae]); (0x2d0f, [0x10af]); (0x2d10, [0x10b0]);
    (0x2d11, [0x10b1]); (0x2d12, [0x10b2]); (0x2d13, [0x10b3]);
    (0x2d14, [0x10b4]); (0x2d15, [0x10b5]); (0x2d16, [0x10b6]);
    (0x2d17, [0x10b7]); (0x2d18, [0x10b8]); (0x2d19, [0x10b9]);
    (0x2d1a, [0x10ba]); (0x2d1b, [0x10bb]); (0x2d1c, [0x10bc]);
    (0x2d1d, [0x10bd]); (0x2d1e, [0x10be]); (0x2d1f, [0x10bf]);
    (0x2d20, [0x10c0]); (0x2d21, [0x10c1]); (0x2d22, [0x10c2]);
    (0x2d23, [0x10c3]); (0x2d24, [0x10c4]); (0x2d25, [0x10c5]);
    (0x2d27, [0x10c7]); (0x2d2d, [0x10cd]); (0xa641, [0xa640]);
    (0xa643, [0xa642]); (0xa645, [0xa644]); (0xa647, [0xa646]);
    (0xa649, [0xa648]); (0xa64b, [0xa64a]); (0xa64d, [0xa64c]);
    (0xa64f, [0xa64e]); (0xa651, [0xa650]); (0xa653, [0xa652]);
    (0xa655, [0xa654]); (0xa657, [0xa656]); (0xa659, [0xa658]);
    (0xa65b, [0xa65a]); (0xa65d, [0xa65c]); (0xa65f, [0xa65e]);
    (0xa661, [0xa660]); (0xa663, [0xa662]); (0xa665, [0xa664]);
    (0xa667, [0xa666]); (0xa669, [0xa668]); (0xa66b, [0xa66a]);
    (0xa66d, [0xa66c]); (0xa681, [0xa680]); (0xa683, [0xa682]);
    (0xa685, [0xa684]); (0xa687, [0xa686]); (0xa689, [0xa688]);
    (0xa68b, [0xa68a]); (0xa68d, [0xa68c]); (0xa68f, [0xa68e]);
    (0xa691, [0xa690]); (0xa693, [0xa692]); (0xa695, [0xa694]);
    (0xa697, [0xa696]); (0xa699, [0xa698]); (0xa69b, [0xa69a]);
    (0xa723, [0xa722]); (0xa725, [0xa724]); (0xa727, [0xa726]);
    (0xa729, [0xa728]); (0xa72b, [0xa72a]); (0xa72d, [0xa72c]);
    (0xa72f, [0xa72e]); (0xa733, [0xa732]); (0xa735, [0xa734]);
    (0xa737, [0xa736]); (0xa739, [0xa738]); (0xa73b, [0xa73a]);
    (0xa73d, [0xa73c]); (0xa73f, [0xa73e]); (0xa741, [0xa740]);
    (0xa743, [0xa742]); (0xa745, [0xa744]); (0xa747, [0xa746]);
    (0xa749, [0xa748]); (0xa74b, [0xa74a]); (0xa74d, [0xa74c]);
    (0xa74f, [0xa74e]); (0xa751, [0xa750]); (0xa753, [0xa752]);
    (0xa755, [0xa754]); (0xa757, [0xa756]); (0xa759, [0xa758]);
    (0xa75b, [0xa75a]); (0xa75d, [0xa75c]); (0xa75f, [0xa75e]);
    (0xa761, [0xa760]); (0xa763, [0xa762]); (0xa765, [0xa764]);
    (0xa767, [0xa766]); (0xa769, [0xa768]); (0xa76b, [0xa76a]);
    (0xa76d, [0xa76c]); (0xa76f, [0xa76e]); (0xa77a, [0xa779]);
    (0xa77c, [0xa77b]); (0xa77f, [0xa77e]); (0xa781, [0xa780]);
    (0xa783, [0xa782]); (0xa785, [0xa784]); (0xa787, [0xa786]);
    (0xa78c, [0xa78b]); (0xa791, [0xa790]); (0xa793, [0xa792]);
    (0xa794, [0xa7c4]); (0xa797, [0xa796]); (0xa799, [0xa798]);
    (0xa79b, [0xa79a]); (0xa79d, [0xa79c]); (0xa79f, [0xa79e]);
    (0xa7a1, [0xa7a0]); (0xa7a3, [0xa7a2]); (0xa7a5, [0xa7a4]);
    (0xa7a7, [0xa7a6]); (0xa7a9, [0xa7a8]); (0xa7b5, [0xa7b4]);
    (0xa7b7, [0xa7b6]); (0xa7b9, [0xa7b8]); (0xa7bb, [0xa7ba]);
    (0xa7bd, [0xa7bc]); (0xa7bf, [0xa7be]); (0xa7c1, [0xa7c0]);
    (0xa7c3, [0xa7c2]); (0xa7c8, [0xa7c7]); (0xa7ca, [0xa7c9]);
    (0xa7d1, [0xa7d0]); (0xa7d7, [0xa7d6]); (0xa7d9, [0xa7d8]);
    (0xa7f6, [0xa7f5]); (0xab53, [0xa7b3]); (0xab70, [0x13a0]);
    (0xab71, [0x13a1]); (0xab72, [0x13a2]); (0xab73, [0x13a3]);
    (0xab74, [0x13a4]); (0xab75, [0x13a5]); (0xab76, [0x13a6]);
    (0xab77, [0x13a7]); (0xab78, [0x13a8]); (0xab79, [0x13a9]);
    (0xab7a, [0x13aa]); (0xab7b, [0x13ab]); (0xab7c, [0x13ac]);
    (0xab7d, [0x13ad]); (0xab7e, [0x13ae]); (0xab7f, [0x13af]);
    (0xab80, [0x13b0]); (0xab81, [0x13b1]); (0xab82, [0x13b2]);
    (0xab83, [0x13b3]); (0xab84, [0x13b4]); (0xab85, [0x13b5]);
    (0xab86, [0x13b6]); (0xab87, [0x13b7]); (0xab88, [0x13b8]);
    (0xab89, [0x13b9]); (0xab8a, [0x13ba]); (0xab8b, [0x13bb]);
    (0xab8c, [0x13bc]); (0xab8d, [0x13bd]); (0xab8e, [0x13be]);
    (0xab8f, [0x13bf]); (0xab90, [0x13c0]); (0xab91, [0x13c1]);
    (0xab92, [0x13c2]); (0xab93, [0x13c3]); (0xab94, [0x13c4]);
    (0xab95, [0x13c5]); (0xab96, [0x13c6]); (0xab97, [0x13c7]);
    (0xab98, [0x13c8]); (0xab99, [0x13c9]); (0xab9a, [0x13ca]);
    (0xab9b, [0x13cb]); (0xab9c, [0x13cc]); (0xab9d, [0x13cd]);
    (0xab9e, [0x13ce]); (0xab9f, [0x13cf]); (0xaba0, [0x13d0]);
    (0xaba1, [0x13d1]); (0xaba2, [0x13d2]); (0xaba3, [0x13d3]);
    (0xaba4, [0x13d4]); (0xaba5, [0x13d5]); (0xaba6, [0x13d6]);
    (0xaba7, [0x13d7]); (0xaba8, [0x13d8]); (0xaba9, [0x13d9]);
    (0xabaa, [0x13da]); (0xabab, [0x13db]); (0xabac, [0x13dc]);
    (0xabad, [0x13dd]); (0xabae, [0x13de]); (0xabaf, [0x13df]);
    (0xabb0, [0x13e0]); (0xabb1, [0x13e1]); (0xabb2, [0x13e2]);
    (0xabb3, [0x13e3]); (0xabb4, [0x13e4]); (0xabb5, [0x13e5]);
    (0xabb6, [0x13e6]); (0xabb7, [0x13e7]); (0xabb8, [0x13e8]);
    (0xabb9, [0x13e9]); (0xabba, [0x13ea]); (0xabbb, [0x13eb]);
    (0xabbc, [0x13ec]); (0xabbd, [0x13ed]); (0xabbe, [0x13ee]);
    (0xabbf, [0x13ef]); (0xfb00, [0x46; 0x46]); (0xfb01, [0x46; 0x49]);
    (0xfb02, [0x46; 0x4c]); (0xfb03, [0x46; 0x46; 0x49]);
    (0xfb04, [0x46; 0x46; 0x4c]); (0xfb05, [0x53; 0x54]);
    (0xfb06, [0x53; 0x54]); (0xfb13, [0x544; 0x546]);
    (0xfb14, [0x544; 0x535]); (0xfb15, [0x544; 0x53b]);
    (0xfb16, [0x54e; 0x546]); (0xfb17, [0x544; 0x53d]); (0xff41, [0xff21]);
    (0xff42, [0xff22]); (0xff43, [0xff23]); (0xff44, [0xff24]);
    (0xff45, [0xff25]); (0xff46, [0xff26]); (0xff47, [0xff27]);
    (0xff48, [0xff28]); (0xff49, [0xff29]); (0xff4a, [0xff2a]);
    (0xff4b, [0xff2b]); (0xff4c, [0xff2c]); (0xff4d, [0xff2d]);
    (0xff4e, [0xff2e]); (0xff4f, [0xff2f]); (0xff50, [0xff30]);
    (0xff51, [0xff31]); (0xff52, [0xff32]); (0xff53, [0xff33]);
    (0xff54, [0xff34]); (0xff55, [0xff35]); (0xff56, [0xff36]);
    (0xff57, [0xff37]); (0xff58, [0xff38]); (0xff59, [0xff39]);
    (0xff5a, [0xff3a]); (0x10428, [0x10400]); (0x10429, [0x10401]);
    (0x1042a, [0x10402]); (0x1042b, [0x10403]); (0x1042c, [0x10404]);
    (0x1042d, [0x10405]); (0x1042e, [0x10406]); (0x1042f, [0x10407]);
    (0x10430, [0x10408]); (0x10431, [0x10409]); (0x10432, [0x1040a]);
    (0x10433, [0x1040b]); (0x10434, [0x1040c]); (0x10435, [0x1040d]);
    (0x10436, [0x1040e]); (0x10437, [0x1040f]); (0x10438, [0x10410]);
    (0x10439, [0x10411]); (0x1043a, [0x10412]); (0x1043b, [0x10413]);
    (0x1043c, [0x10414]); (0x1043d, [0x10415]); (0x1043e, [0x10416]);
    (0x1043f, [0x10417]); (0x10440, [0x10418]); (0x10441, [0x10419]);
    (0x10442, [0x1041a]); (0x10443, [0x1041b]); (0x10444, [0x1041c]);
    (0x10445, [0x1041d]); (0x10446, [0x1041e]); (0x10447, [0x1041f]);
    (0x10448, [0x10420]); (0x10449, [0x10421]); (0x1044a, [0x10422]);
    (0x1044b, [0x10423]); (0x1044c, [0x10424]); (0x1044d, [0x10425]);
    (0x1044e, [0x10426]); (0x1044f, [0x10427]); (0x104d8, [0x104b0]);
    (0x104d9, [0x104b1]); (0x104da, [0x104b2]); (0x104db, [0x104b3]);
    (0x104dc, [0x104b4]); (0x104dd, [0x104b5]); (0x104de, [0x104b6]);
    (0x104df, [0x104b7]); (0x104e0, [0x104b8]); (0x104e1, [0x104b9]);
    (0x104e2, [0x104ba]); (0x104e3, [0x104bb]); (0x104e4, [0x104bc]);
    (0x104e5, [0x104bd]); (0x104e6, [0x104be]); (0x104e7, [0x104bf]);
    (0x104e8, [0x104c0]); (0x104e9, [0x104c1]); (0x104ea, [0x104c2]);
    (0x104eb, [0x104c3]); (0x104ec, [0x104c4]); (0x104ed, [0x104c5]);
    (0x104ee, [0x104c6]); (0x104ef, [0x104c7]); (0x104f0, [0x104c8]);
    (0x104f1, [0x104c9]); (0x104f2, [0x104ca]); (0x104f3, [0x104cb]);
    (0x104f4, [0x104cc]); (0x104f5, [0x104cd]); (0x104f6, [0x104ce]);
    (0x104f7, [0x104cf]); (0x104f8, [0x104d0]); (0x104f9, [0x104d1]);
    (0x104fa, [0x104d2]); (0x104fb, [0x104d3]); (0x10597, [0x10570]);
    (0x10598, [0x10571]); (0x10599, [0x10572]); (0x1059a, [0x10573]);
    (0x1059b, [0x10574]); (0x1059c, [0x10575]); (0x1059d, [0x10576]);
    (0x1059e, [0x10577]); (0x1059f, [0x10578]); (0x105a0, [0x10579]);
    (0x105a1, [0x1057a]); (0x105a3, [0x1057c]); (0x105a4, [0x1057d]);
    (0x105a5, [0x1057e]); (0x105a6, [0x1057f]); (0x105a7, [0x10580]);
    (0x105a8, [0x10581]); (0x105a9, [0x10582]); (0x105aa, [0x10583]);
    (0x105ab, [0x10584]); (0x105ac, [0x10585]); (0x105ad, [0x10586]);
    (0x105ae, [0x10587]); (0x105af, [0x10588]); (0x105b0, [0x10589]);
    (0x105b1, [0x1058a]); (0x105b3, [0x1058c]); (0x105b4, [0x1058d]);
    (0x105b5, [0x1058e]); (0x105b6, [0x1058f]); (0x105b7, [0x10590]);
    (0x105b8, [0x10591]); (0x105b9, [0x10592]); (0x105bb, [0x10594]);
    (0x105bc, [0x10595]); (0x10cc0, [0x10c80]); (0x10cc1, [0x10c81]);
    (0x10cc2, [0x10c82]); (0x10cc3, [0x10c83]); (0x10cc4, [0x10c84]);
    (0x10cc5, [0x10c85]); (0x10cc6, [0x10c86]); (0x10cc7, [0x10c87]);
    (0x10cc8, [0x10c88]); (0x10cc9, [0x10c89]); (0x10cca, [0x10c8a]);
    (0x10ccb, [0x10c8b]); (0x10ccc, [0x10c8c]); (0x10ccd, [0x10c8d]);
    (0x10cce, [0x10c8e]); (0x10ccf, [0x10c8f]); (0x10cd0, [0x10c90]);
    (0x10cd1, [0x10c91]); (0x10cd2, [0x10c92]); (0x10cd3, [0x10c93]);
    (0x10cd4, [0x10c94]); (0x10cd5, [0x10c95]); (0x10cd6, [0x10c96]);
    (0x10cd7, [0x10c97]); (0x10cd8, [0x10c98]); (0x10cd9, [0x10c99]);
    (0x10cda, [0x10c9a]); (0x10cdb, [0x10c9b]); (0x10cdc, [0x10c9c]);
    (0x10cdd, [0x10c9d]); (0x10cde, [0x10c9e]); (0x10cdf, [0x10c9f]);
    (0x10ce0, [0x10ca0]); (0x10ce1, [0x10ca1]); (0x10ce2, [0x10ca2]);
    (0x10ce3, [0x10ca3]); (0x10ce4, [0x10ca4]); (0x10ce5, [0x10ca5]);
    (0x10ce6, [0x10ca6]); (0x10ce7, [0x10ca7]); (0x10ce8, [0x10ca8]);
    (0x10ce9, [0x10ca9]); (0x10cea, [0x10caa]); (0x10ceb, [0x10cab]);
    (0x10cec, [0x10cac]); (0x10ced, [0x10cad]); (0x10cee, [0x10cae]);
    (0x10cef, [0x10caf]); (0x10cf0, [0x10cb0]); (0x10cf1, [0x10cb1]);
    (0x10cf2, [0x10cb2]); (0x118c0, [0x118a0]); (0x118c1, [0x118a1]);
    (0x118c2, [0x118a2]); (0x118c3, [0x118a3]); (0x118c4, [0x118a4]);
    (0x118c5, [0x118a5]); (0x118c6, [0x118a6]); (0x118c7, [0x118a7]);
    (0x118c8, [0x118a8]); (0x118c9, [0x118a9]); (0x118ca, [0x118aa]);
    (0x118cb, [0x118ab]); (0x118cc, [0x118ac]); (0x118cd, [0x118ad]);
    (0x118ce, [0x118ae]); (0x118cf, [0x118af]); (0x118d0, [0x118b0]);
    (0x118d1, [0x118b1]); (0x118d2, [0x118b2]); (0x118d3, [0x118b3]);
    (0x118d4, [0x118b4]); (0x118d5, [0x118b5]); (0x118d6, [0x118b6]);
    (0x118d7, [0x118b7]); (0x118d8, [0x118b8]); (0x118d9, [0x118b9]);
    (0x118da, [0x118ba]); (0x118db, [0x118bb]); (0x118dc, [0x118bc]);
    (0x118dd, [0x118bd]); (0x118de, [0x118be]); (0x118df, [0x118bf]);
    (0x16e60, [0x16e40]); (0x16e61, [0x16e41]); (0x16e62, [0x16e42]);
    (0x16e63, [0x16e43]); (0x16e64, [0x16e44]); (0x16e65, [0x16e45]);
    (0x16e66, [0x16e46]); (0x16e67, [0x16e47]); (0x16e68, [0x16e48]);
    (0x16e69, [0x16e49]); (0x16e6a, [0x16e4a]); (0x16e6b, [0x16e4b]);
    (0x16e6c, [0x16e4c]); (0x16e6d, [0x16e4d]); (0x16e6e, [0x16e4e]);
    (0x16e6f, [0x16e4f]); (0x16e70, [0x16e50]); (0x16e71, [0x16e51]);
    (0x16e72, [0x16e52]); (0x16e73, [0x16e53]); (0x16e74, [0x16e54]);
    (0x16e75, [0x16e55]); (0x16e76, [0x16e56]); (0x16e77, [0x16e57]);
    (0x16e78, [0x16e58]); (0x16e79, [0x16e59]); (0x16e7a, [0x16e5a]);
    (0x16e7b, [0x16e5b]); (0x16e7c, [0x16e5c]); (0x16e7d, [0x16e5d]);
    (0x16e7e, [0x16e5e]); (0x16e7f, [0x16e5f]); (0x1e922, [0x1e900]);
    (0x1e923, [0x1e901]); (0x1e924, [0x1e902]); (0x1e925, [0x1e903]);
    (0x1e926, [0x1e904]); (0x1e927, [0x1e905]); (0x1e928, [0x1e906]);
    (0x1e929, [0x1e907]); (0x1e92a, [0x1e908]); (0x1e92b, [0x1e909]);
    (0x1e92c, [0x1e90a]); (0x1e92d, [0x1e90b]); (0x1e92e, [0x1e90c]);
    (0x1e92f, [0x1e90d]); (0x1e930, [0x1e90e]); (0x1e931, [0x1e90f]);
    (0x1e932, [0x1e910]); (0x1e933, [0x1e911]); (0x1e934, [0x1e912]);
    (0x1e935, [0x1e913]); (0x1e936, [0x1e914]); (0x1e937, [0x1e915]);
    (0x1e938, [0x1e916]); (0x1e939, [0x1e917]); (0x1e93a, [0x1e918]);
    (0x1e93b, [0x1e919]); (0x1e93c, [0x1e91a]); (0x1e93d, [0x1e91b]);
    (0x1e93e, [0x1e91c]); (0x1e93f, [0x1e91d]); (0x1e940, [0x1e91e]);
    (0x1e941, [0x1e91f]); (0x1e942, [0x1e920]); (0x1e943, [0x1e921]) ]%N.

(** The same table on UTF-8 sequences. *)
Definition upper_table : list (string * string) := Eval vm_compute in
  map (fun e => (utf8 (fst e), String.concat "" (map utf8 (snd e))))
      case_mappings.

(** The number of bytes of the UTF-8 sequence that a byte starts: 2, 3 or 4
    for a lead byte, 1 for every other byte. *)
Definition seq_length (b : ascii) : nat :=
  match b with
  | Ascii _ _ _ b3 b4 b5 b6 b7 =>
      match b7, b6, b5, b4, b3 with
      | true, true, false, _, _ => 2
      | true, true, true, false, _ => 3
      | true, true, true, true, false => 4
      | _, _, _, _, _ => 1
      end
  end%nat.

(** [str.upper] on one code point beyond ASCII, given as its sequence. *)
Definition upper_point (u : string) : string :=
  match find (fun e => String.eqb (fst e) u) upper_table with
  | Some e => snd e
  | None => u
  end.

(** [str.upper]: every code point is replaced by its upper-case form, which
    may be longer.  A string that ends inside a sequence is not the encoding
    of a [str]; its end is left as it is. *)
Fixpoint upper (s : string) : string :=
  match s with
  | EmptyString => EmptyString
  | String b0 s1 =>
      match seq_length b0, s1 with
      | 1%nat, _ => String (upper_ascii b0) (upper s1)
      | 2%nat, String b1 s2 =>
          String.append (upper_point (String b0 (String b1 EmptyString)))
                        (upper s2)
      | 3%nat, String b1 (String b2 s3) =>
          String.append
            (upper_point (String b0 (String b1 (String b2 EmptyString))))
            (upper s3)
      | 4%nat, String b1 (String b2 (String b3 s4)) =>
          String.append
            (upper_point
               (String b0 (String b1 (String b2 (String b3 EmptyString)))))
            (upper s4)
      | _, _ => s
      end
  end.

(** A string of whole sequences, each of which [str.upper] leaves as it
    is. *)
Fixpoint stable (v : string) : bool :=
  match v with
  | EmptyString => true
  | String b0 v1 =>
      match seq_length b0, v1 with
      | 1%nat, _ => Ascii.eqb (upper_ascii b0) b0 && stable v1
      | 2%nat, String b1 v2 =>
          String.eqb (upper_point (String b0 (String b1 EmptyString)))
                     (String b0 (String b1 EmptyString))
          && stable v2
      | 3%nat, String b1 (String b2 v3) =>
          String.eqb
            (upper_point (String b0 (String b1 (String b2 EmptyString))))
            (String b0 (String b1 (String b2 EmptyString)))
          && stable v3
      | 4%nat, String b1 (String b2 (String b3 v4)) =>
          String.eqb
            (upper_point
               (String b0 (String b1 (String b2 (String b3 EmptyString)))))
            (String b0 (String b1 (String b2 (String b3 EmptyString))))
          && stable v4
      | _, _ => false
      end
  end.

(** The shapes of a string, as [upper] reads it: empty, or starting with a
    sequence of 1, 2, 3 or 4 bytes, or ending inside a sequence. *)
Inductive Shape : string -> Prop :=
| ShapeEmpty : Shape EmptyString
| Shape1 b s : seq_length b = 1%nat -> Shape (String b s)
| Shape2 b0 b1 s : seq_length b0 = 2%nat -> Shape (String b0 (String b1 s))
| Shape3 b0 b1 b2 s :
    seq_length b0 = 3%nat -> Shape (String b0 (String b1 (String b2 s)))
| Shape4 b0 b1 b2 b3 s :
    seq_length b0 = 4%nat ->
    Shape (String b0 (String b1 (String b2 (String b3 s))))
| ShapeCut s : upper s = s -> stable s = false -> Shape s.

(** [x in xs] on a list of strings. *)
Fixpoint str_in (x : string) (xs : list string) : bool :=
  match xs with
  | [] => false
  | y :: ys => String.eqb x y || str_in x ys
  end.

(** [d[key]] on an optional field. *)
Definition getitem {A} (key : string) (o : option A) : PyResult A :=
  match o with
  | Some v => Ok v
  | None => Raise (KeyError key)
  end.

(** [x / y] on floats. *)
Definition truediv (x y : float) : PyResult float :=
  if Float64.is_zero y then Raise ZeroDivisionError else Ok (Float64.div x y).

(** The integer nearest to [m * 2^e], ties to the even one. *)
Definition round_half_even (m : positive) (e : Z) : Z :=
  match e with
  | Z0 => Zpos m
  | Zpos _ => Zpos m * 2 ^ e
  | Zneg _ =>
      let d := 2 ^ (- e) in
      let q := Zpos m / d in
      let r := Zpos m mod d in
      match 2 * r ?= d with
      | Lt => q
      | Gt => q + 1
      | Eq => if Z.even q then q else q + 1
      end
  end.

(** [round(x)] with one argument: an int, or an error on an infinity or a
    NaN. *)
Definition round (x : float) : PyResult Z :=
  match x with
  | S754_zero _ => Ok 0
  | S754_finite s m e => Ok (cond_Zopp s (round_half_even m e))
  | S754_infinity _ => Raise OverflowError
  | S754_nan => Raise ValueError
  end.

(** The conversion of an int operand to float; it raises when the int is too
    large. *)
Definition int_to_float (k : Z) : PyResult float :=
  match Float64.of_Z k with
  | S754_infinity _ => Raise OverflowError
  | x => Ok x
  end.

(** [k * y] for an int [k] and a float [y]. *)
Definition int_mul_float (k : Z) (y : float) : PyResult float :=
  match int_to_float k with
  | Ok x => Ok (Float64.mul x y)
  | Raise e => Raise e
  end.

(** ** [src/basic_bot.py] *)

Module BasicBot.

Record BasicBot : Type := {
  api_key : string;
  api_secret : string;
  testnet : bool;
  client : Client
}.

Definition _test_connection (self : BasicBot) : M bool :=
  try_except
    (account_info <- call_futures_account (client self) ;;
     logger INFO ConnectionSuccessful ;;;
     logger INFO (AccountBalanceUSDT (Api.totalWalletBalance account_info)) ;;;
     ret true)
    (fun e =>
       logger ERROR (ConnectionTestFailed e) ;;;
       ret false).

(** [FileHandler] is [logging.FileHandler], which opens the file and may
    raise; it is called on every run of [_setup_logging], before the test on
    the handlers that the logger has.  The other steps (the logger, the
    console handler, the formatter) do not fail.  The logger that
    [_setup_logging] returns writes to the [log] of the world. *)
Definition _setup_logging (FileHandler : string -> PyResult unit) : M unit :=
  lift (FileHandler "bot.log"%string).

(** [Client_] is the constructor [binance.Client], which may raise. *)
Definition __init__ (FileHandler : string -> PyResult unit)
           (Client_ : string -> string -> bool -> PyResult Client)
           (api_key api_secret : string) (testnet : bool) : M BasicBot :=
  _setup_logging FileHandler ;;;
  try_except
    (c <- lift (Client_ api_key api_secret testnet) ;;
     let c := if testnet
              then set_API_URL c "https://testnet.binancefuture.com"
              else c in
     let self := {| api_key := api_key; api_secret := api_secret;
                    testnet := testnet; client := c |} in
     logger INFO (BotInitialized testnet) ;;;
     _test_connection self ;;;
     ret self)
    (fun e =>
       logger ERROR (FailedToInitializeBot e) ;;;
       raise e).

Definition validate_symbol (self : BasicBot) (symbol : string) : M bool :=
  try_except
    (exchange_info <- call_futures_exchange_info (client self) ;;
     let symbols :=
       map Api.symbol
           (filter (fun s => String.eqb (Api.status s) "TRADING")
                   (Api.symbols exchange_info)) in
     let is_valid := str_in (upper symbol) symbols in
     (if is_valid
      then logger INFO (SymbolIsValid symbol)
      else logger WARNING (SymbolNotValidOrNotTrading symbol)) ;;;
     ret is_valid)
    (fun e =>
       logger ERROR (ErrorValidatingSymbol symbol e) ;;;
       ret false).

(** The inner loop of [validate_quantity] over [s['filters']]: [Some b] when
    the loop returns [b], [None] when it runs to its end. *)
Fixpoint validate_quantity_filters (symbol : string) (quantity : float)
         (fs : list Api.Filter) : M (option bool) :=
  match fs with
  | [] => ret None
  | filter_item :: fs' =>
      if String.eqb (Api.filterType filter_item) "LOT_SIZE" then
        v <- lift (getitem "minQty" (Api.minQty filter_item)) ;;
        min_qty <- lift (py_float v) ;;
        if Float64.geb quantity min_qty then
          logger INFO (QuantityIsValid quantity symbol) ;;;
          ret (Some true)
        else
          logger WARNING (QuantityBelowMinimum quantity min_qty symbol) ;;;
          ret (Some false)
      else validate_quantity_filters symbol quantity fs'
  end.

(** The outer loop of [validate_quantity] over [exchange_info['symbols']]. *)
Fixpoint validate_quantity_symbols (symbol : string) (quantity : float)
         (ss : list Api.SymbolInfo) : M (option bool) :=
  match ss with
  | [] => ret None
  | s :: ss' =>
      if String.eqb (Api.symbol s) (upper symbol) then
        r <- validate_quantity_filters symbol quantity (Api.filters s) ;;
        match r with
        | Some b => ret (Some b)
        | None => validate_quantity_symbols symbol quantity ss'
        end
      else validate_quantity_symbols symbol quantity ss'
  end.

Definition validate_quantity (self : BasicBot) (symbol : string)
           (quantity : float) : M bool :=
  try_except
    (exchange_info <- call_futures_exchange_info (client self) ;;
     r <- validate_quantity_symbols symbol quantity
            (Api.symbols exchange_info) ;;
     match r with
     | Some b => ret b
     | None =>
         logger WARNING (CouldNotFindQuantityInfo symbol) ;;;
         ret false
     end)
    (fun e =>
       logger ERROR (ErrorValidatingQuantity symbol e) ;;;
       ret false).

(** The loop of [get_symbol_info]: the first element whose symbol is the
    upper-cased argument. *)
Fixpoint find_symbol (symbol : string) (ss : list Api.SymbolInfo)
  : option Api.SymbolInfo :=
  match ss with
  | [] => None
  | s :: ss' =>
      if String.eqb (Api.symbol s) (upper symbol) then Some s
      else find_symbol symbol ss'
  end.

Definition get_symbol_info (self : BasicBot) (symbol : string)
  : M (option Api.SymbolInfo) :=
  try_except
    (exchange_info <- call_futures_exchange_info (client self) ;;
     ret (find_symbol symbol (Api.symbols exchange_info)))
    (fun e =>
       logger ERROR (ErrorGettingSymbolInfo symbol e) ;;;
       ret None).

(** [float(account_info.get(key, 0))]. *)
Definition float_get_or_0 (o : option PyVal) : PyResult float :=
  match o with
  | Some v => py_float v
  | None => Ok (Float64.of_Z 0)
  end.

Definition get_account_balance (self : BasicBot) : M (option BalanceInfo) :=
  try_except
    (account_info <- call_futures_account (client self) ;;
     w <- lift (float_get_or_0 (Api.totalWalletBalance account_info)) ;;
     u <- lift (float_get_or_0 (Api.totalUnrealizedPnL account_info)) ;;
     m <- lift (float_get_or_0 (Api.totalMarginBalance account_info)) ;;
     a <- lift (float_get_or_0 (Api.availableBalance account_info)) ;;
     let balance_info :=
       {| total_wallet_balance := w; total_unrealized_pnl := u;
          total_margin_balance := m; available_balance := a |} in
     logger INFO (AccountBalanceRetrieved balance_info) ;;;
     ret (Some balance_info))
    (fun e =>
       logger ERROR (ErrorGettingAccountBalance e) ;;;
       ret None).

End BasicBot.

(** ** [src/market_orders.py] *)

Module MarketOrderManager.

Record MarketOrderManager : Type := {
  bot : BasicBot.BasicBot
}.

(** The dictionary returned by [place_market_order]. *)
Record OrderResult : Type := {
  order_id : Z;
  symbol : string;
  side : string;
  quantity : float;
  type : string;
  status : option string;
  raw_response : Api.Order
}.

Definition _get_order_status (self : MarketOrderManager) (symbol : string)
           (order_id : Z) : M (option string) :=
  try_except
    (order_info <- call_futures_get_order (BasicBot.client (bot self))
                     (upper symbol) order_id ;;
     ret (Api.order_status order_info))
    (fun e =>
       logger ERROR (FailedToGetOrderStatus e) ;;;
       ret None).

Definition _validate_market_order_inputs (self : MarketOrderManager)
           (symbol side : string) (quantity : float) : M bool :=
  symbol_ok <- BasicBot.validate_symbol (bot self) symbol ;;
  if negb symbol_ok then
    logger ERROR (InvalidSymbol symbol) ;;;
    ret false
  else if negb (str_in (upper side) ["BUY"; "SELL"]%string) then
    logger ERROR (InvalidOrderSide side) ;;;
    ret false
  else if Float64.leb quantity (Float64.of_Z 0) then
    logger ERROR (InvalidQuantityMustBePositive quantity) ;;;
    ret false
  else
    quantity_ok <- BasicBot.validate_quantity (bot self) symbol quantity ;;
    if negb quantity_ok then ret false
    else ret true.

Definition place_market_order (self : MarketOrderManager)
           (symbol side : string) (quantity : float)
  : M (option OrderResult) :=
  try_except
    (valid <- _validate_market_order_inputs self symbol side quantity ;;
     if negb valid then ret None
     else
       logger INFO (PlacingMarketOrder side quantity symbol) ;;;
       order <- call_futures_create_order (BasicBot.client (bot self))
                  {| req_symbol := upper symbol;
                     req_side := upper side;
                     req_type := ORDER_TYPE_MARKET;
                     req_timeInForce := None;
                     req_quantity := quantity;
                     req_price := None |} ;;
       logger INFO (MarketOrderPlaced order) ;;;
       oid <- lift (getitem "orderId" (Api.orderId order)) ;;
       order_status <- _get_order_status self symbol oid ;;
       ret (Some {| order_id := oid;
                    symbol := symbol;
                    side := side;
                    quantity := quantity;
                    type := "MARKET";
                    status := order_status;
                    raw_response := order |}))
    (fun e =>
       logger ERROR (FailedToPlaceMarketOrder e) ;;;
       ret None).

End MarketOrderManager.

(** ** [src/limit_orders.py] *)

Module LimitOrderManager.

Record LimitOrderManager : Type := {
  bot : BasicBot.BasicBot
}.

(** The dictionary returned by [place_limit_order]. *)
Record OrderResult : Type := {
  order_id : Z;
  symbol : string;
  side : string;
  quantity : float;
  price : float;
  type : string;
  status : option string;
  raw_response : Api.Order
}.

Definition _get_order_status (self : LimitOrderManager) (symbol : string)
           (order_id : Z) : M (option string) :=
  try_except
    (order_info <- call_futures_get_order (BasicBot.client (bot self))
                     (upper symbol) order_id ;;
     ret (Api.order_status order_info))
    (fun e =>
       logger ERROR (FailedToGetOrderStatus e) ;;;
       ret None).

(** [round(price / tick_size) * tick_size]. *)
Definition rounded_price (price tick_size : float) : PyResult float :=
  match truediv price tick_size with
  | Ok q =>
      match round q with
      | Ok k => int_mul_float k tick_size
      | Raise e => Raise e
      end
  | Raise e => Raise e
  end.

(** [tick_size * 1e-10]. *)
Definition tolerance (tick_size : float) : float :=
  Float64.mul tick_size Float64.lit_1e_10.

(** The loop of [_validate_price_precision] over [symbol_info['filters']];
    it returns at the first [PRICE_FILTER], and [True] follows the loop. *)
Fixpoint validate_price_filters (symbol : string) (price : float)
         (fs : list Api.Filter) : M bool :=
  match fs with
  | [] => ret true
  | filter_item :: fs' =>
      if String.eqb (Api.filterType filter_item) "PRICE_FILTER" then
        v <- lift (getitem "tickSize" (Api.tickSize filter_item)) ;;
        tick_size <- lift (py_float v) ;;
        rounded <- lift (rounded_price price tick_size) ;;
        if Float64.leb (Float64.abs (Float64.sub price rounded))
                       (tolerance tick_size)
        then ret true
        else
          logger ERROR
                 (PriceDoesNotMatchTickSize price tick_size symbol rounded) ;;;
          ret false
      else validate_price_filters symbol price fs'
  end.

Definition _validate_price_precision (self : LimitOrderManager)
           (symbol : string) (price : float) : M bool :=
  try_except
    (symbol_info <- BasicBot.get_symbol_info (bot self) symbol ;;
     match symbol_info with
     | None => ret false
     | Some info => validate_price_filters symbol price (Api.filters info)
     end)
    (fun e =>
       logger ERROR (ErrorValidatingPricePrecision e) ;;;
       ret false).

Definition _validate_limit_order_inputs (self : LimitOrderManager)
           (symbol side : string) (quantity price : float) : M bool :=
  symbol_ok <- BasicBot.validate_symbol (bot self) symbol ;;
  if negb symbol_ok then
    logger ERROR (InvalidSymbol symbol) ;;;
    ret false
  else if negb (str_in (upper side) ["BUY"; "SELL"]%string) then
    logger ERROR (InvalidOrderSide side) ;;;
    ret false
  else if Float64.leb quantity (Float64.of_Z 0) then
    logger ERROR (InvalidQuantityMustBePositive quantity) ;;;
    ret false
  else
    quantity_ok <- BasicBot.validate_quantity (bot self) symbol quantity ;;
    if negb quantity_ok then ret false
    else if Float64.leb price (Float64.of_Z 0) then
      logger ERROR (InvalidPriceMustBePositive price) ;;;
      ret false
    else
      price_ok <- _validate_price_precision self symbol price ;;
      if negb price_ok then ret false
      else ret true.

Definition place_limit_order (self : LimitOrderManager)
           (symbol side : string) (quantity price : float)
  : M (option OrderResult) :=
  try_except
    (valid <- _validate_limit_order_inputs self symbol side quantity price ;;
     if negb valid then ret None
     else
       logger INFO (PlacingLimitOrder side quantity symbol price) ;;;
       order <- call_futures_create_order (BasicBot.client (bot self))
                  {| req_symbol := upper symbol;
                     req_side := upper side;
                     req_type := ORDER_TYPE_LIMIT;
                     req_timeInForce := Some TIME_IN_FORCE_GTC;
                     req_quantity := quantity;
                     req_price := Some price |} ;;
       logger INFO (LimitOrderPlaced order) ;;;
       oid <- lift (getitem "orderId" (Api.orderId order)) ;;
       order_status <- _get_order_status self symbol oid ;;
       ret (Some {| order_id := oid;
                    symbol := symbol;
                    side := side;
                    quantity := quantity;
                    price := price;
                    type := "LIMIT";
                    status := order_status;
                    raw_response := order |}))
    (fun e =>
       logger ERROR (FailedToPlaceLimitOrder e) ;;;
       ret None).

End LimitOrderManager.

(** ** Mocked gateways

    The exchange metadata of the test scenario has one symbol, BTCUSDT,
    trading, with minimum quantity 0.001 and a given tick size. *)

Definition mock_exchange_info (tick_size : PyVal) : Api.ExchangeInfo :=
  {| Api.symbols :=
       [ {| Api.symbol := "BTCUSDT";
            Api.status := "TRADING";
            Api.filters :=
              [ {| Api.filterType := "LOT_SIZE";
                   Api.minQty := Some (PyNum (Float64.decimal 1 3));
                   Api.tickSize := None |};
                {| Api.filterType := "PRICE_FILTER";
                   Api.minQty := None;
                   Api.tickSize := Some tick_size |} ] |} ] |}.

(** Exchange metadata whose only symbol has no filter at all. *)
Definition bare_exchange_info : Api.ExchangeInfo :=
  {| Api.symbols :=
       [ {| Api.symbol := "BTCUSDT"; Api.status := "TRADING";
            Api.filters := [] |} ] |}.

Definition mock_order : Api.Order :=
  {| Api.orderId := Some 12345; Api.order_status := Some "NEW"%string |}.

Definition mock_account : Api.AccountInfo :=
  {| Api.totalWalletBalance := Some (PyNum (Float64.decimal 10000 0));
     Api.totalUnrealizedPnL := None;
     Api.totalMarginBalance := Some (PyNum (Float64.decimal 10000 0));
     Api.availableBalance := Some (PyNum (Float64.decimal 95005 1)) |}.

(** An account response whose wallet balance is not a number (JSON null). *)
Definition null_balance_account : Api.AccountInfo :=
  {| Api.totalWalletBalance := Some (PyNonNum TypeError);
     Api.totalUnrealizedPnL := None;
     Api.totalMarginBalance := None;
     Api.availableBalance := None |}.

(** The tick size 0.01 of the scenario. *)
Definition tick_0_01 : PyVal := PyNum (Float64.decimal 1 2).

(** A client that serves the metadata above and accepts every order. *)
Definition mock_client (tick_size : PyVal) : Client :=
  {| API_URL := "https://fapi.binance.com";
     futures_exchange_info := fun _ => Ok (mock_exchange_info tick_size);
     futures_account := fun _ => Ok mock_account;
     futures_create_order := fun _ _ => Ok mock_order;
     futures_get_order := fun _ _ _ => Ok mock_order |}.

(** A client whose every call raises. *)
Definition down_client : Client :=
  {| API_URL := "https://fapi.binance.com";
     futures_exchange_info := fun _ => Raise (GatewayError "unreachable");
     futures_account := fun _ => Raise (GatewayError "unreachable");
     futures_create_order := fun _ _ => Raise (GatewayError "unreachable");
     futures_get_order := fun _ _ _ => Raise (GatewayError "unreachable") |}.

(** The mocked client, except that every submission is refused. *)
Definition reject_client (tick_size : PyVal) : Client :=
  {| API_URL := "https://fapi.binance.com";
     futures_exchange_info := fun _ => Ok (mock_exchange_info tick_size);
     futures_account := fun _ => Ok mock_account;
     futures_create_order := fun _ _ => Raise (GatewayError "rejected");
     futures_get_order := fun _ _ _ => Ok mock_order |}.

(** The mocked client, except that the order status cannot be fetched. *)
Definition no_status_client (tick_size : PyVal) : Client :=
  {| API_URL := "https://fapi.binance.com";
     futures_exchange_info := fun _ => Ok (mock_exchange_info tick_size);
     futures_account := fun _ => Ok mock_account;
     futures_create_order := fun _ _ => Ok mock_order;
     futures_get_order := fun _ _ _ => Raise (GatewayError "timeout") |}.

Definition null_balance_client : Client :=
  {| API_URL := "https://fapi.binance.com";
     futures_exchange_info := fun _ => Ok (mock_exchange_info tick_0_01);
     futures_account := fun _ => Ok null_balance_account;
     futures_create_order := fun _ _ => Ok mock_order;
     futures_get_order := fun _ _ _ => Ok mock_order |}.

Definition bare_client : Client :=
  {| API_URL := "https://fapi.binance.com";
     futures_exchange_info := fun _ => Ok bare_exchange_info;
     futures_account := fun _ => Ok mock_account;
     futures_create_order := fun _ _ => Ok mock_order;
     futures_get_order := fun _ _ _ => Ok mock_order |}.

(** A log file that can be opened, and one that cannot. *)
Definition writable : string -> PyResult unit := fun _ => Ok tt.

Definition read_only : string -> PyResult unit :=
  fun _ => Raise (OSError "Permission denied").

Definition bot_of (c : Client) : BasicBot.BasicBot :=
  {| BasicBot.api_key := "key"; BasicBot.api_secret := "secret";
     BasicBot.testnet := true; BasicBot.client := c |}.

Definition market_of (c : Client) : MarketOrderManager.MarketOrderManager :=
  {| MarketOrderManager.bot := bot_of c |}.

Definition limit_of (c : Client) : LimitOrderManager.LimitOrderManager :=
  {| LimitOrderManager.bot := bot_of c |}.

(** The binary64 numbers [2^-1000] and [2^1000]. *)
Definition tick_2_pow_minus_1000 : float :=
  S754_finite false 4503599627370496 (-1052).

Definition price_2_pow_1000 : float :=
  S754_finite false 4503599627370496 948.

(** ** Notions used in the statements *)

(** The trading symbols that [validate_symbol] searches. *)
Definition trading_symbols (ei : Api.ExchangeInfo) : list string :=
  map Api.symbol
      (filter (fun s => String.eqb (Api.status s) "TRADING") (Api.symbols ei)).

(** The first filter of a given type among a symbol's filters. *)
Definition filter_of_type (ty : string) (info : Api.SymbolInfo)
  : option Api.Filter :=
  find (fun f => String.eqb (Api.filterType f) ty) (Api.filters info).

(** The metadata of a symbol: the first entry of the exchange metadata
    whose name is the upper-cased symbol. *)
Definition metadata_of (symbol : string) (ei : Api.ExchangeInfo)
  : option Api.SymbolInfo :=
  BasicBot.find_symbol symbol (Api.symbols ei).

(** The minimum-quantity filter value of a symbol: the [minQty] of the
    LOT_SIZE filter of its metadata. *)
Definition min_qty_of (symbol : string) (ei : Api.ExchangeInfo)
  : option PyVal :=
  match metadata_of symbol ei with
  | Some info =>
      match filter_of_type "LOT_SIZE" info with
      | Some f => Api.minQty f
      | None => None
      end
  | None => None
  end.

(** The tick size of a symbol: the [tickSize] of the PRICE_FILTER of its
    metadata. *)
Definition tick_size_of (symbol : string) (ei : Api.ExchangeInfo)
  : option PyVal :=
  match metadata_of symbol ei with
  | Some info =>
      match filter_of_type "PRICE_FILTER" info with
      | Some f => Api.tickSize f
      | None => None
      end
  | None => None
  end.

(** No entry of the exchange metadata for the symbol has a LOT_SIZE filter
    (in particular when the metadata has no entry for the symbol). *)
Definition no_lot_size (symbol : string) (ei : Api.ExchangeInfo) : Prop :=
  forall info,
    In info (Api.symbols ei) ->
    Api.symbol info = upper symbol ->
    filter_of_type "LOT_SIZE" info = None.

(** A balance field of the account response is absent or numeric. *)
Definition absent_or_numeric (o : option PyVal) : Prop :=
  match o with
  | Some (PyNonNum _) => False
  | _ => True
  end.

(** The reported balance: the field's numeric value, zero when absent. *)
Definition value_or_zero (o : option PyVal) : float :=
  match o with
  | Some (PyNum x) => x
  | _ => Float64.zero
  end.

(** The requests that [place_market_order] and [place_limit_order] submit. *)
Definition market_request (symbol side : string) (quantity : float)
  : OrderRequest :=
  {| req_symbol := upper symbol;
     req_side := upper side;
     req_type := ORDER_TYPE_MARKET;
     req_timeInForce := None;
     req_quantity := quantity;
     req_price := None |}.

Definition limit_request (symbol side : string) (quantity price : float)
  : OrderRequest :=
  {| req_symbol := upper symbol;
     req_side := upper side;
     req_type := ORDER_TYPE_LIMIT;
     req_timeInForce := Some TIME_IN_FORCE_GTC;
     req_quantity := quantity;
     req_price := Some price |}.

(** The order submissions among the client calls. *)
Definition submissions (w : World) : list GwCall :=
  filter is_create_order (trace w).

(** The outcome of the tick test on a price and a tick size: the verdict, or
    the exception that ends the test. *)
Definition tick_test (price tick_size : float) : PyResult bool :=
  match LimitOrderManager.rounded_price price tick_size with
  | Ok rounded =>
      Ok (Float64.leb (Float64.abs (Float64.sub price rounded))
                      (LimitOrderManager.tolerance tick_size))
  | Raise e => Raise e
  end.

(** The reasons for which the validation of a market order fails, against
    the exchange metadata [ei]: the symbol is not a trading one, the side is
    neither BUY nor SELL, the quantity is not positive, or it is below the
    symbol's numeric minimum. *)
Definition market_rejection_reason (ei : Api.ExchangeInfo)
           (symbol side : string) (quantity : float) : Prop :=
  str_in (upper symbol) (trading_symbols ei) = false
  \/ str_in (upper side) ["BUY"; "SELL"]%string = false
  \/ Float64.leb quantity Float64.zero = true
  \/ (exists m, min_qty_of symbol ei = Some (PyNum m)
                /\ Float64.ltb quantity m = true).

(** For a limit order there are two more: the price is not positive, or the
    tick test against the symbol's numeric tick size does not pass. *)
Definition limit_rejection_reason (ei : Api.ExchangeInfo)
           (symbol side : string) (quantity price : float) : Prop :=
  market_rejection_reason ei symbol side quantity
  \/ Float64.leb price Float64.zero = true
  \/ (exists t, tick_size_of symbol ei = Some (PyNum t)
                /\ tick_test price t <> Ok true).

(** [m * 2^n] on positive mantissas. *)
Definition shl (m : positive) (n : Z) : positive :=
  match n with
  | Zpos p => Pos.iter xO m p
  | _ => m
  end.

(** [p = k * t] on finite floats, where the float of sign [s], mantissa [m]
    and exponent [e] is the number [(-1)^s * m * 2^e]; both sides are scaled
    by the smaller of the two exponents, which keeps them integers. *)
Definition exact_multiple (p t : float) (k : Z) : Prop :=
  match p, t with
  | S754_finite sp mp ep, S754_finite st mt et =>
      let e0 := Z.min ep et in
      cond_Zopp sp (Zpos mp) * 2 ^ (ep - e0) =
      k * (cond_Zopp st (Zpos mt) * 2 ^ (et - e0))
  | _, _ => False
  end.

(** Every multiple [k * t] of [t] is farther from [p] than the real number
    [t * 10^-10], on finite floats (both sides are scaled as in
    [exact_multiple], and by [10^10]). *)
Definition off_every_multiple (p t : float) : Prop :=
  match p, t with
  | S754_finite sp mp ep, S754_finite st mt et =>
      let e0 := Z.min ep et in
      forall k : Z,
        Z.abs (cond_Zopp st (Zpos mt) * 2 ^ (et - e0)) <
        10 ^ 10 * Z.abs (cond_Zopp sp (Zpos mp) * 2 ^ (ep - e0)
                         - k * (cond_Zopp st (Zpos mt) * 2 ^ (et - e0)))
  | _, _ => False
  end.

(** ** Further notions: what decides the two filter checks *)

(** The entries of the exchange metadata named like the symbol, in the
    metadata's order. *)
Definition entries_of (symbol : string) (ei : Api.ExchangeInfo)
  : list Api.SymbolInfo :=
  filter (fun s => String.eqb (Api.symbol s) (upper symbol)) (Api.symbols ei).

(** The first LOT_SIZE filter among the filters of all these entries. *)
Definition lot_size_of (symbol : string) (ei : Api.ExchangeInfo)
  : option Api.Filter :=
  find (fun f => String.eqb (Api.filterType f) "LOT_SIZE")
       (flat_map Api.filters (entries_of symbol ei)).

(** The quantity is at least the numeric [minQty] of that filter. *)
Definition quantity_verdict (symbol : string) (quantity : float)
           (ei : Api.ExchangeInfo) : bool :=
  match lot_size_of symbol ei with
  | Some f =>
      match Api.minQty f with
      | Some (PyNum m) => Float64.geb quantity m
      | _ => false
      end
  | None => false
  end.

(** The symbol has metadata, and either no PRICE_FILTER or one whose numeric
    [tickSize] passes the tick test. *)
Definition price_verdict (symbol : string) (price : float)
           (ei : Api.ExchangeInfo) : bool :=
  match metadata_of symbol ei with
  | Some info =>
      match filter_of_type "PRICE_FILTER" info with
      | Some f =>
          match Api.tickSize f with
          | Some (PyNum t) =>
              match tick_test price t with
              | Ok b => b
              | Raise _ => false
              end
          | _ => false
          end
      | None => true
      end
  | None => false
  end.

(** Not an infinity and not a NaN. *)
Definition is_number (x : float) : bool :=
  match x with
  | S754_zero _ | S754_finite _ _ _ => true
  | _ => false
  end.

(** Exchange metadata with two entries for BTCUSDT: the first one is halted
    and has a PRICE_FILTER only, the second one has a LOT_SIZE filter. *)
Definition split_exchange_info : Api.ExchangeInfo :=
  {| Api.symbols :=
       [ {| Api.symbol := "BTCUSDT"; Api.status := "BREAK";
            Api.filters :=
              [ {| Api.filterType := "PRICE_FILTER";
                   Api.minQty := None;
                   Api.tickSize := Some tick_0_01 |} ] |};
         {| Api.symbol := "BTCUSDT"; Api.status := "BREAK";
            Api.filters :=
              [ {| Api.filterType := "LOT_SIZE";
                   Api.minQty := Some (PyNum (Float64.decimal 1 3));
                   Api.tickSize := None |} ] |} ] |}.

(** Exchange metadata whose LOT_SIZE and PRICE_FILTER filters lack their
    [minQty] and [tickSize] keys. *)
Definition keyless_exchange_info : Api.ExchangeInfo :=
  {| Api.symbols :=
       [ {| Api.symbol := "BTCUSDT"; Api.status := "TRADING";
            Api.filters :=
              [ {| Api.filterType := "LOT_SIZE";
                   Api.minQty := None; Api.tickSize := None |};
                {| Api.filterType := "PRICE_FILTER";
                   Api.minQty := None; Api.tickSize := None |} ] |} ] |}.

(** Exchange metadata whose only symbol has a LOT_SIZE filter and no
    PRICE_FILTER. *)
Definition lot_only_exchange_info : Api.ExchangeInfo :=
  {| Api.symbols :=
       [ {| Api.symbol := "BTCUSDT"; Api.status := "TRADING";
            Api.filters :=
              [ {| Api.filterType := "LOT_SIZE";
                   Api.minQty := Some (PyNum (Float64.decimal 1 3));
                   Api.tickSize := None |} ] |} ] |}.

Definition metadata_client (ei : Api.ExchangeInfo) : Client :=
  {| API_URL := "https://fapi.binance.com";
     futures_exchange_info := fun _ => Ok ei;
     futures_account := fun _ => Ok mock_account;
     futures_create_order := fun _ _ => Ok mock_order;
     futures_get_order := fun _ _ _ => Ok mock_order |}.

(** The mocked client, except that the accepted order comes back without an
    [orderId]. *)
Definition no_id_order : Api.Order :=
  {| Api.orderId := None; Api.order_status := Some "NEW"%string |}.

Definition no_id_client (tick_size : PyVal) : Client :=
  {| API_URL := "https://fapi.binance.com";
     futures_exchange_info := fun _ => Ok (mock_exchange_info tick_size);
     futures_account := fun _ => Ok mock_account;
     futures_create_order := fun _ _ => Ok no_id_order;
     futures_get_order := fun _ _ _ => Ok mock_order |}.

(** ** Further notions: the checks of a validation

    A validation that starts after the client calls [tr] requests the
    exchange metadata up to three times, and each check reads the response to
    its own request: the symbol check the one made after [tr], the quantity
    check the next one, the price check the third one. *)

Definition symbol_checked (c : Client) (tr : list GwCall) (symbol : string)
  : bool :=
  match futures_exchange_info c tr with
  | Ok ei => str_in (upper symbol) (trading_symbols ei)
  | Raise _ => false
  end.

Definition side_checked (side : string) : bool :=
  str_in (upper side) ["BUY"; "SELL"]%string.

Definition quantity_checked (c : Client) (tr : list GwCall) (symbol : string)
           (quantity : float) : bool :=
  match futures_exchange_info c (tr ++ [CallExchangeInfo]) with
  | Ok ei => quantity_verdict symbol quantity ei
  | Raise _ => false
  end.

Definition price_checked (c : Client) (tr : list GwCall) (symbol : string)
           (price : float) : bool :=
  match futures_exchange_info c (tr ++ [CallExchangeInfo; CallExchangeInfo])
  with
  | Ok ei => price_verdict symbol price ei
  | Raise _ => false
  end.

(** The checks made before the quantity's minimum is looked up. *)
Definition first_checks (c : Client) (tr : list GwCall)
           (symbol side : string) (quantity : float) : bool :=
  symbol_checked c tr symbol
  && side_checked side
  && negb (Float64.leb quantity Float64.zero).

Definition market_validated (c : Client) (tr : list GwCall)
           (symbol side : string) (quantity : float) : bool :=
  first_checks c tr symbol side quantity
  && quantity_checked c tr symbol quantity.

Definition limit_validated (c : Client) (tr : list GwCall)
           (symbol side : string) (quantity price : float) : bool :=
  market_validated c tr symbol side quantity
  && negb (Float64.leb price Float64.zero)
  && price_checked c tr symbol price.

(** The number of metadata requests of a validation. *)
Definition market_validation_requests (c : Client) (tr : list GwCall)
           (symbol side : string) (quantity : float) : nat :=
  if first_checks c tr symbol side quantity then 2%nat else 1%nat.

Definition limit_validation_requests (c : Client) (tr : list GwCall)
           (symbol side : string) (quantity price : float) : nat :=
  if market_validated c tr symbol side quantity
     && negb (Float64.leb price Float64.zero)
  then 3%nat
  else market_validation_requests c tr symbol side quantity.

(** The client calls that follow an accepted validation: the submission,
    then the status query when the accepted order has an [orderId]. *)
Definition calls_of_order (c : Client) (tr : list GwCall) (symbol : string)
           (req : OrderRequest) : list GwCall :=
  CallCreateOrder req ::
  match futures_create_order c tr req with
  | Ok order =>
      match Api.orderId order with
      | Some oid => [CallGetOrder (upper symbol) oid]
      | None => []
      end
  | Raise _ => []
  end.

(** ** The other methods of the exchange client

    [cancel_order], [get_open_orders] and [get_recent_trades] call three more
    methods of the same client object.  Their calls and log records are kept
    beside the [World] of the part above, in a [Session], together with the
    lines printed on standard output by [src/main.py]. *)

(** A value of a response that the source only interpolates in a message. *)
Inductive Leaf : Type :=
| LNull
| LBool (b : bool)
| LInt (z : Z)
| LFloat (x : float)
| LStr (s : string).

(** A dictionary of a response (an order, a trade): its items; the keys of a
    dictionary are distinct. *)
Definition RawDict : Type := list (string * Leaf).

Fixpoint dict_get (key : string) (d : RawDict) : option Leaf :=
  match d with
  | [] => None
  | (k, v) :: d' => if String.eqb k key then Some v else dict_get key d'
  end.

(** [d[key]]. *)
Definition subscript (d : RawDict) (key : string) : PyResult Leaf :=
  getitem key (dict_get key d).

Inductive MoreCall : Type :=
| CallCancelOrder (sym : string) (oid : Z)
| CallGetOpenOrders (sym : option string)   (* [None]: without [symbol=] *)
| CallAccountTrades (sym : string) (limit : Z).

Inductive MoreMsg : Type :=
| OrderCancelled (order_id : Z) (result : RawDict)
| FailedToCancelOrder (order_id : Z) (e : Exc)
| RetrievedOpenOrders (n : nat)
| FailedToGetOpenOrders (e : Exc)
| RetrievedRecentTrades (n : nat) (sym : string)
| FailedToGetRecentTrades (e : Exc).

(** One constructor per [print] of [src/main.py]: [Line] for a constant
    text, the others with the values the text interpolates. *)
Inductive Out : Type :=
| Line (text : string)
| HelpText                                 (* [parser.print_help()] *)
| SubcommandHelpText (name : string)       (* the help of a subcommand *)
| PlacingMarketLine (side : string) (quantity : float) (sym : string)
| PlacingLimitLine (side : string) (quantity : float) (sym : string)
                   (price : float)
| OrderIdLine (order_id : Z)
| SymbolLine (sym : string)
| SideLine (side : string)
| QuantityLine (quantity : float)
| PriceLine (price : float)
| StatusLine (status : option string)
| TotalWalletBalanceLine (x : float)
| AvailableBalanceLine (x : float)
| TotalUnrealizedPnLLine (x : float)
| TotalMarginBalanceLine (x : float)
| GettingOpenOrdersLine (suffix : string)
| FoundOpenOrdersLine (n : nat)
| OpenOrderLine (orderId sym side origQty price status : Leaf)
| ErrorLine (e : Exc).

Record Session : Type := {
  world : World;                       (* the calls and records of the part above *)
  more_calls : list MoreCall;          (* the calls to the three other methods *)
  more_log : list (Level * MoreMsg);   (* the records of the three functions *)
  stdout : list Out                    (* the lines printed, oldest first *)
}.

Definition empty_session : Session :=
  {| world := empty_world; more_calls := []; more_log := []; stdout := [] |}.

(** How a computation ends: it returns, it raises an [Exception], or it
    leaves the interpreter through [sys.exit] (a [SystemExit], which
    [except Exception] does not catch). *)
Inductive Outcome (A : Type) : Type :=
| Returned (a : A)
| Raised (e : Exc)
| Exited (code : Z).

Arguments Returned {A} a.
Arguments Raised {A} e.
Arguments Exited {A} code.

Definition IO (A : Type) : Type := Session -> Outcome A * Session.

Definition io_ret {A} (a : A) : IO A := fun s => (Returned a, s).

Definition io_bind {A B} (m : IO A) (k : A -> IO B) : IO B :=
  fun s =>
    match m s with
    | (Returned a, s') => k a s'
    | (Raised e, s') => (Raised e, s')
    | (Exited code, s') => (Exited code, s')
    end.

(** [try: body except Exception as e: handler e]. *)
Definition io_try {A} (body : IO A) (handler : Exc -> IO A) : IO A :=
  fun s =>
    match body s with
    | (Raised e, s') => handler e s'
    | r => r
    end.

Definition outcome_of {A} (r : PyResult A) : Outcome A :=
  match r with
  | Ok a => Returned a
  | Raise e => Raised e
  end.

(** A pure computation that may raise. *)
Definition io_lift {A} (r : PyResult A) : IO A := fun s => (outcome_of r, s).

(** [sys.exit(code)]. *)
Definition sys_exit {A} (code : Z) : IO A := fun s => (Exited code, s).

Declare Scope io_scope.
Delimit Scope io_scope with io.
Notation "x <- m ;; k" := (io_bind m (fun x => k))
  (at level 61, m at next level, right associativity) : io_scope.
Notation "m ;;; k" := (io_bind m (fun _ => k))
  (at level 61, right associativity) : io_scope.

(** A computation of the part above, run on the session's [world]. *)
Definition run_bot {A} (m : M A) : IO A :=
  fun s =>
    let (r, w) := m (world s) in
    (outcome_of r,
     {| world := w; more_calls := more_calls s; more_log := more_log s;
        stdout := stdout s |}).

(** [print]: the event is appended to the standard output, which is taken
    to accept it. *)
Definition print (o : Out) : IO unit :=
  fun s =>
    (Returned tt,
     {| world := world s; more_calls := more_calls s; more_log := more_log s;
        stdout := stdout s ++ [o] |}).

Definition more_logger (lvl : Level) (msg : MoreMsg) : IO unit :=
  fun s =>
    (Returned tt,
     {| world := world s; more_calls := more_calls s;
        more_log := more_log s ++ [(lvl, msg)]; stdout := stdout s |}).

Definition record_more_call (c : MoreCall) (s : Session) : Session :=
  {| world := world s; more_calls := more_calls s ++ [c];
     more_log := more_log s; stdout := stdout s |}.

(** The three methods, as oracles: given the calls made before this one (to
    the methods of [Client], and to these three) and the arguments, a
    response or an exception. *)
Record ClientRest : Type := {
  futures_cancel_order :
    list GwCall -> list MoreCall -> string -> Z -> PyResult RawDict;
  futures_get_open_orders :
    list GwCall -> list MoreCall -> option string -> PyResult (list RawDict);
  futures_account_trades :
    list GwCall -> list MoreCall -> string -> Z -> PyResult (list RawDict)
}.

Definition call_futures_cancel_order (c : ClientRest) (sym : string)
           (oid : Z) : IO RawDict :=
  fun s =>
    (outcome_of (futures_cancel_order c (trace (world s)) (more_calls s)
                                      sym oid),
     record_more_call (CallCancelOrder sym oid) s).

Definition call_futures_get_open_orders (c : ClientRest)
           (sym : option string) : IO (list RawDict) :=
  fun s =>
    (outcome_of (futures_get_open_orders c (trace (world s)) (more_calls s)
                                         sym),
     record_more_call (CallGetOpenOrders sym) s).

Definition call_futures_account_trades (c : ClientRest) (sym : string)
           (limit : Z) : IO (list RawDict) :=
  fun s =>
    (outcome_of (futures_account_trades c (trace (world s)) (more_calls s)
                                        sym limit),
     record_more_call (CallAccountTrades sym limit) s).

(** The truth value of an optional string: [None] and the empty string are
    false. *)
Definition truthy (o : option string) : bool :=
  match o with
  | Some s => negb (String.eqb s "")
  | None => false
  end.

(** The string that a true optional string is. *)
Definition str_of (o : option string) : string :=
  match o with
  | Some s => s
  | None => ""
  end.

(** [a or b]. *)
Definition py_or (a b : option string) : option string :=
  if truthy a then a else b.

(** ** The other functions of [src/limit_orders.py] and
    [src/market_orders.py]

    [client] is the client object [self.bot.client], seen through its three
    other methods. *)

Definition cancel_order (self : LimitOrderManager.LimitOrderManager)
           (client : ClientRest) (symbol : string) (order_id : Z) : IO bool :=
  io_try
    (result <- call_futures_cancel_order client (upper symbol) order_id ;;
     more_logger INFO (OrderCancelled order_id result) ;;;
     io_ret true)%io
    (fun e =>
       more_logger ERROR (FailedToCancelOrder order_id e) ;;;
       io_ret false)%io.

(** [symbol] is [None] when the argument is omitted or [None]. *)
Definition get_open_orders (self : LimitOrderManager.LimitOrderManager)
           (client : ClientRest) (symbol : option string)
  : IO (list RawDict) :=
  io_try
    (orders <- (if truthy symbol
                then call_futures_get_open_orders client
                       (Some (upper (str_of symbol)))
                else call_futures_get_open_orders client None) ;;
     more_logger INFO (RetrievedOpenOrders (List.length orders)) ;;;
     io_ret orders)%io
    (fun e =>
       more_logger ERROR (FailedToGetOpenOrders e) ;;;
       io_ret [])%io.

(** [limit] is [None] when the argument is omitted: its default is 10. *)
Definition get_recent_trades (self : MarketOrderManager.MarketOrderManager)
           (client : ClientRest) (symbol : string) (limit : option Z)
  : IO (list RawDict) :=
  let limit := match limit with Some n => n | None => 10 end in
  io_try
    (trades <- call_futures_account_trades client (upper symbol) limit ;;
     more_logger INFO (RetrievedRecentTrades (List.length trades) symbol) ;;;
     io_ret trades)%io
    (fun e =>
       more_logger ERROR (FailedToGetRecentTrades e) ;;;
       io_ret [])%io.

(** ** [src/main.py]

    The parser that [setup_cli] builds belongs to the library [argparse];
    what [parser.parse_args()] does with the command line is given, as a
    [Parse]: it returns a [Namespace] whose [command] is one of the five
    subcommands with its arguments, or [None] when no subcommand is given,
    or it leaves the interpreter itself.  The environment is the function
    [getenv].

    An interrupt from the keyboard can reach the program at any instruction.
    It is not modelled: [main] is described on the runs that no interrupt
    reaches, and the clause [except KeyboardInterrupt] of [main], which
    prints one line and returns, is not part of the model. *)

Module Main.

Inductive Command : Type :=
| Market (symbol side : string) (quantity : float)
| Limit (symbol side : string) (quantity price : float)
| Balance
| Orders (symbol : option string)
| Demo.

Record Namespace : Type := {
  command : option Command;
  api_key : option string;
  api_secret : option string;
  testnet : bool;
  verbose : bool
}.

(** What [parser.parse_args()] does: it returns the parsed arguments; or it
    writes the usage and an error on standard error and leaves with status 2
    (an unknown subcommand or option, a side other than buy and sell, a
    quantity or a price that [float] refuses, a missing argument); or, for
    [-h], it prints the help of the parser ([None]) or of a subcommand and
    leaves with status 0. *)
Inductive Parse : Type :=
| Parsed (args : Namespace)
| UsageError
| HelpRequested (subcommand : option string).

Definition parse_args (argv : Parse) : IO Namespace :=
  match argv with
  | Parsed args => io_ret args
  | UsageError => sys_exit 2
  | HelpRequested None => (print HelpText ;;; sys_exit 0)%io
  | HelpRequested (Some name) =>
      (print (SubcommandHelpText name) ;;; sys_exit 0)%io
  end.

Definition get_credentials (getenv : string -> option string)
           (args : Namespace) : IO (string * string) :=
  let api_key := py_or (api_key args) (getenv "BINANCE_API_KEY"%string) in
  let api_secret := py_or (api_secret args) (getenv "BINANCE_API_SECRET"%string) in
  if negb (truthy api_key) || negb (truthy api_secret) then
    (print (Line "Error: API credentials required!") ;;;
     print (Line "Provide --api-key and --api-secret arguments") ;;;
     print (Line "Or set BINANCE_API_KEY and BINANCE_API_SECRET environment variables") ;;;
     sys_exit 1)%io
  else io_ret (str_of api_key, str_of api_secret).

(** The lines of [handle_demo]. *)
Definition demo_lines : list string :=
  [ "🤖 Binance Futures Trading Bot - Demo Mode";
    "==================================================";
    "";
    "This bot supports the following features:";
    "";
    "📈 Market Orders:";
    "  - Place immediate buy/sell orders at current market price";
    "  - Example: python main.py market BTCUSDT buy 0.001";
    "";
    "📊 Limit Orders:";
    "  - Place orders at specific price levels";
    "  - Example: python main.py limit ETHUSDT sell 0.01 --price 2500.0";
    "";
    "💰 Account Balance:";
    "  - Check your USDT-M Futures account balance";
    "  - Example: python main.py balance";
    "";
    "📋 Open Orders:";
    "  - View current open orders";
    "  - Example: python main.py orders";
    "";
    "🔧 Configuration:";
    "  - Uses Binance Testnet by default for safe testing";
    "  - Comprehensive logging to bot.log file";
    "  - Input validation for symbols, quantities, and prices";
    "";
    "To use with real API credentials:";
    "1. Get testnet credentials from https://testnet.binancefuture.com";
    "2. Run: python main.py [command] --api-key YOUR_KEY --api-secret YOUR_SECRET";
    "";
    "Demo completed! ✨" ]%string.

Fixpoint print_lines (lines : list string) : IO unit :=
  match lines with
  | [] => io_ret tt
  | l :: lines' => (print (Line l) ;;; print_lines lines')%io
  end.

Definition handle_demo : IO unit := print_lines demo_lines.

Definition handle_market_order (bot : BasicBot.BasicBot)
           (market_manager : MarketOrderManager.MarketOrderManager)
           (symbol side : string) (quantity : float) : IO unit :=
  (print (PlacingMarketLine side quantity symbol) ;;;
   result <- run_bot (MarketOrderManager.place_market_order
                        market_manager symbol side quantity) ;;
   match result with
   | Some result =>
       print (Line "✅ Market order placed successfully!") ;;;
       print (OrderIdLine (MarketOrderManager.order_id result)) ;;;
       print (SymbolLine (MarketOrderManager.symbol result)) ;;;
       print (SideLine (MarketOrderManager.side result)) ;;;
       print (QuantityLine (MarketOrderManager.quantity result)) ;;;
       print (StatusLine (MarketOrderManager.status result))
   | None =>
       print (Line "❌ Failed to place market order. Check logs for details.")
   end)%io.

Definition handle_limit_order (bot : BasicBot.BasicBot)
           (limit_manager : LimitOrderManager.LimitOrderManager)
           (symbol side : string) (quantity price : float) : IO unit :=
  (print (PlacingLimitLine side quantity symbol price) ;;;
   result <- run_bot (LimitOrderManager.place_limit_order
                        limit_manager symbol side quantity price) ;;
   match result with
   | Some result =>
       print (Line "✅ Limit order placed successfully!") ;;;
       print (OrderIdLine (LimitOrderManager.order_id result)) ;;;
       print (SymbolLine (LimitOrderManager.symbol result)) ;;;
       print (SideLine (LimitOrderManager.side result)) ;;;
       print (QuantityLine (LimitOrderManager.quantity result)) ;;;
       print (PriceLine (LimitOrderManager.price result)) ;;;
       print (StatusLine (LimitOrderManager.status result))
   | None =>
       print (Line "❌ Failed to place limit order. Check logs for details.")
   end)%io.

Definition handle_balance (bot : BasicBot.BasicBot) : IO unit :=
  (print (Line "Getting account balance...") ;;;
   balance <- run_bot (BasicBot.get_account_balance bot) ;;
   match balance with
   | Some balance =>
       print (Line "💰 Account Balance:") ;;;
       print (TotalWalletBalanceLine (total_wallet_balance balance)) ;;;
       print (AvailableBalanceLine (available_balance balance)) ;;;
       print (TotalUnrealizedPnLLine (total_unrealized_pnl balance)) ;;;
       print (TotalMarginBalanceLine (total_margin_balance balance))
   | None =>
       print (Line "❌ Failed to get account balance. Check logs for details.")
   end)%io.

(** The loop of [handle_orders]: the six keys are read in the order of the
    text, then the line is printed. *)
Fixpoint print_orders (orders : list RawDict) : IO unit :=
  match orders with
  | [] => io_ret tt
  | order :: orders' =>
      (order_id <- io_lift (subscript order "orderId") ;;
       sym <- io_lift (subscript order "symbol") ;;
       side <- io_lift (subscript order "side") ;;
       orig_qty <- io_lift (subscript order "origQty") ;;
       price <- io_lift (subscript order "price") ;;
       status <- io_lift (subscript order "status") ;;
       print (OpenOrderLine order_id sym side orig_qty price status) ;;;
       print_orders orders')%io
  end.

Definition handle_orders (limit_manager : LimitOrderManager.LimitOrderManager)
           (client : ClientRest) (symbol : option string) : IO unit :=
  (print (GettingOpenOrdersLine
            (if truthy symbol
             then String.append " for " (str_of symbol)
             else ""%string)) ;;;
   orders <- get_open_orders limit_manager client symbol ;;
   match orders with
   | _ :: _ =>
       print (FoundOpenOrdersLine (List.length orders)) ;;;
       print_orders orders
   | [] => print (Line "No open orders found.")
   end)%io.

(** [argv] is the command line as [parse_args] reads it, [FileHandler] is
    [logging.FileHandler], [Client_] is the constructor [binance.Client], and
    [rest] the three other methods of the client it builds. *)
Definition main (argv : Parse) (FileHandler : string -> PyResult unit)
           (Client_ : string -> string -> bool -> PyResult Client)
           (rest : ClientRest) (getenv : string -> option string)
  : IO unit :=
  (args <- parse_args argv ;;
   match command args with
   | None => print HelpText ;;; sys_exit 1
   | Some cmd =>
       io_try
         (match cmd with
          | Demo => handle_demo
          | _ =>
              credentials <- get_credentials getenv args ;;
              let (api_key, api_secret) := credentials in
              print (Line "🤖 Initializing Binance Futures Trading Bot...") ;;;
              bot <- run_bot (BasicBot.__init__ FileHandler Client_
                                                api_key api_secret
                                                (testnet args)) ;;
              let market_manager := {| MarketOrderManager.bot := bot |} in
              let limit_manager := {| LimitOrderManager.bot := bot |} in
              match cmd with
              | Market symbol side quantity =>
                  handle_market_order bot market_manager symbol side quantity
              | Limit symbol side quantity price =>
                  handle_limit_order bot limit_manager symbol side quantity
                                     price
              | Balance => handle_balance bot
              | Orders symbol => handle_orders limit_manager rest symbol
              | Demo => io_ret tt
              end
          end)
         (fun e => print (ErrorLine e) ;;; sys_exit 1)
   end)%io.

End Main.

(** ** Notions used in the statements about the session *)

(** The symbol that [get_open_orders] passes to the client: the upper-cased
    argument, or none when the argument is omitted, [None] or empty. *)
Definition open_orders_query (symbol : option string) : option string :=
  if truthy symbol then Some (upper (str_of symbol)) else None.

(** The credentials in force: the argument of the command line, or else the
    variable of the environment. *)
Definition effective_key (getenv : string -> option string)
           (args : Main.Namespace) : option string :=
  py_or (Main.api_key args) (getenv "BINANCE_API_KEY"%string).

Definition effective_secret (getenv : string -> option string)
           (args : Main.Namespace) : option string :=
  py_or (Main.api_secret args) (getenv "BINANCE_API_SECRET"%string).

Definition credentials_given (getenv : string -> option string)
           (args : Main.Namespace) : bool :=
  truthy (effective_key getenv args) && truthy (effective_secret getenv args).

(** The six keys that [handle_orders] reads in an open order. *)
Definition printed_keys : list string :=
  ["orderId"; "symbol"; "side"; "origQty"; "price"; "status"]%string.

Definition printable (order : RawDict) : bool :=
  forallb (fun key => match dict_get key order with
                      | Some _ => true
                      | None => false
                      end) printed_keys.

(** The session with another world. *)
Definition with_world (s : Session) (w : World) : Session :=
  {| world := w; more_calls := more_calls s; more_log := more_log s;
     stdout := stdout s |}.

(** ** Mocked sessions *)

Definition mock_open_order : RawDict :=
  [ ("orderId", LInt 12345); ("symbol", LStr "BTCUSDT"); ("side", LStr "BUY");
    ("origQty", LStr "0.001"); ("price", LStr "100.00");
    ("status", LStr "NEW") ]%string.

(** An open order as above, without its price. *)
Definition priceless_open_order : RawDict :=
  [ ("orderId", LInt 12346); ("symbol", LStr "BTCUSDT"); ("side", LStr "BUY");
    ("origQty", LStr "0.001"); ("status", LStr "NEW") ]%string.

Definition mock_rest (orders : list RawDict) : ClientRest :=
  {| futures_cancel_order := fun _ _ _ _ => Ok mock_open_order;
     futures_get_open_orders := fun _ _ _ => Ok orders;
     futures_account_trades := fun _ _ _ _ => Ok [] |}.

Definition down_rest : ClientRest :=
  {| futures_cancel_order := fun _ _ _ _ => Raise (GatewayError "unreachable");
     futures_get_open_orders := fun _ _ _ => Raise (GatewayError "unreachable");
     futures_account_trades :=
       fun _ _ _ _ => Raise (GatewayError "unreachable") |}.


Definition mock_environment : string -> option string :=
  fun name =>
    if String.eqb name "BINANCE_API_KEY" then Some "key"%string
    else if String.eqb name "BINANCE_API_SECRET" then Some "secret"%string
    else None.

Definition args_of (cmd : Main.Command) : Main.Namespace :=
  {| Main.command := Some cmd; Main.api_key := None; Main.api_secret := None;
     Main.testnet := true; Main.verbose := false |}.


(** * Properties *)

(** ** Strings *)

Lemma upper_ascii_idempotent (c : ascii) :
  upper_ascii (upper_ascii c) = upper_ascii c.
Proof.
  destruct c as [[] [] [] [] [] [] [] []]; reflexivity.
Qed.

Lemma seq_length_upper_ascii (c : ascii) :
  seq_length c = 1%nat -> seq_length (upper_ascii c) = 1%nat.
Proof.
  destruct c as [[] [] [] [] [] [] [] []]; intros H; try discriminate H;
    reflexivity.
Qed.

(** The upper-case forms of the table are left as they are by [upper]. *)
Lemma upper_table_stable :
  forallb (fun e => stable (snd e)) upper_table = true.
Proof. vm_compute. reflexivity. Qed.

Lemma upper_point_cases (u : string) :
  upper_point u = u \/ stable (upper_point u) = true.
Proof.
  unfold upper_point.
  destruct (find (fun e => String.eqb (fst e) u) upper_table) as [e|] eqn:F;
    [right|now left].
  apply find_some in F. destruct F as [F _].
  exact (proj1 (forallb_forall _ _) upper_table_stable e F).
Qed.

Lemma shape (s : string) : Shape s.
Proof.
  destruct s as [|b0 s1]; [constructor|].
  destruct (seq_length b0) as [|[|[|[|[|n]]]]] eqn:H.
  - apply ShapeCut; simpl; rewrite H; reflexivity.
  - now apply Shape1.
  - destruct s1 as [|b1 s2]; [|now apply Shape2].
    apply ShapeCut; simpl; rewrite H; reflexivity.
  - destruct s1 as [|b1 [|b2 s3]]; [| |now apply Shape3];
      apply ShapeCut; simpl; rewrite H; reflexivity.
  - destruct s1 as [|b1 [|b2 [|b3 s4]]]; [| | |now apply Shape4];
      apply ShapeCut; simpl; rewrite H; reflexivity.
  - apply ShapeCut; simpl; rewrite H; destruct s1 as [|b1 [|b2 [|b3 s4]]];
      reflexivity.
Qed.

Lemma stable_upper (n : nat) :
  forall v, (String.length v <= n)%nat -> stable v = true ->
            forall t, upper (String.append v t) = String.append v (upper t).
Proof.
  induction n as [|n IH]; intros v Hn Hv t.
  - destruct v; [reflexivity|simpl in Hn; lia].
  - destruct (shape v) as [|b s H|b0 b1 s H|b0 b1 b2 s H|b0 b1 b2 b3 s H|s _ H];
      [reflexivity| | | | |congruence];
      simpl in Hv, Hn |- *; rewrite H in *;
      apply andb_prop in Hv as [Hb Hs].
    + apply Ascii.eqb_eq in Hb. rewrite Hb. f_equal. apply IH; [lia|exact Hs].
    + apply String.eqb_eq in Hb. rewrite Hb. simpl. do 2 f_equal.
      apply IH; [lia|exact Hs].
    + apply String.eqb_eq in Hb. rewrite Hb. simpl. do 3 f_equal.
      apply IH; [lia|exact Hs].
    + apply String.eqb_eq in Hb. rewrite Hb. simpl. do 4 f_equal.
      apply IH; [lia|exact Hs].
Qed.

Lemma upper_point_then_upper (u t : string) :
  (forall t', upper (String.append u t') =
              String.append (upper_point u) (upper t')) ->
  upper (String.append (upper_point u) t) =
  String.append (upper_point u) (upper t).
Proof.
  intros Hu. destruct (upper_point_cases u) as [H|H].
  - rewrite H at 1. rewrite Hu. reflexivity.
  - now apply (stable_upper (String.length (upper_point u))).
Qed.

Lemma upper_idempotent_bounded (n : nat) :
  forall s, (String.length s <= n)%nat -> upper (upper s) = upper s.
Proof.
  induction n as [|n IH]; intros s Hn.
  - destruct s; [reflexivity|simpl in Hn; lia].
  - destruct (shape s) as [|b s H|b0 b1 s H|b0 b1 b2 s H|b0 b1 b2 b3 s H|s H _];
      [reflexivity| | | | |now rewrite !H];
      simpl in Hn |- *; rewrite H.
    + simpl. rewrite (seq_length_upper_ascii b H), upper_ascii_idempotent.
      f_equal. apply IH. lia.
    + rewrite upper_point_then_upper.
      * f_equal. apply IH. lia.
      * intros t'. simpl. now rewrite H.
    + rewrite upper_point_then_upper.
      * f_equal. apply IH. lia.
      * intros t'. simpl. now rewrite H.
    + rewrite upper_point_then_upper.
      * f_equal. apply IH. lia.
      * intros t'. simpl. now rewrite H.
Qed.

(** [str.upper] is idempotent, on every string. *)
Lemma upper_idempotent (s : string) : upper (upper s) = upper s.
Proof. exact (upper_idempotent_bounded (String.length s) s (le_n _)). Qed.

(** Beyond ASCII: the long s (U+017F) has "S" as upper-case form, the sharp
    s (U+00DF) "SS", the digraph U+01C6 the digraph U+01C4, which is its own
    upper-case form; the Greek final sigma U+03C2 has U+03A3; a character
    without cases, U+4E2D, and a lone surrogate are left as they are. *)
Lemma upper_beyond_ascii :
  upper (String.append "btcu" (String.append (utf8 0x17f) "dt"))
  = "BTCUSDT"%string
  /\ upper (utf8 0xdf) = "SS"%string
  /\ upper (utf8 0x1c6) = utf8 0x1c4
  /\ upper (utf8 0x1c4) = utf8 0x1c4
  /\ upper (utf8 0x3c2) = utf8 0x3a3
  /\ upper (utf8 0x4e2d) = utf8 0x4e2d
  /\ upper (utf8 0xd800) = utf8 0xd800.
Proof. vm_compute. repeat split. Qed.

Lemma str_in_In (x : string) (xs : list string) :
  str_in x xs = true <-> In x xs.
Proof.
  induction xs as [|y ys IH]; simpl.
  - split; [discriminate | tauto].
  - rewrite orb_true_iff, IH, String.eqb_eq.
    split; intros [H|H]; auto.
Qed.

(** ** The monad *)

Ltac run :=
  unfold bind, try_except, ret, raise, lift, logger,
    call_futures_exchange_info, call_futures_account,
    call_futures_create_order, call_futures_get_order, record_call in *;
  simpl in *.

(** ** Symbol validation *)

Lemma validate_symbol_result (self : BasicBot.BasicBot) (s : string)
      (w : World) :
  fst (BasicBot.validate_symbol self s w) =
  match futures_exchange_info (BasicBot.client self) (trace w) with
  | Ok ei => Ok (str_in (upper s) (trading_symbols ei))
  | Raise _ => Ok false
  end.
Proof.
  unfold BasicBot.validate_symbol, trading_symbols. run.
  destruct (futures_exchange_info _ _) as [ei|e]; simpl; [|reflexivity].
  destruct (str_in _ _); reflexivity.
Qed.

(** C6: the symbol check gives the same outcome on a symbol and on its
    upper-cased form, so also on "btcusdt" and "BTCUSDT", and it accepts
    only a symbol whose upper-cased form is the name of an entry of the
    exchange metadata with trading status TRADING. *)
Theorem validate_symbol_case_insensitive (self : BasicBot.BasicBot)
        (s : string) (w : World) :
  fst (BasicBot.validate_symbol self s w) =
  fst (BasicBot.validate_symbol self (upper s) w)
  /\ fst (BasicBot.validate_symbol self "btcusdt" w) =
     fst (BasicBot.validate_symbol self "BTCUSDT" w)
  /\ (fst (BasicBot.validate_symbol self s w) = Ok true ->
      exists ei info,
        futures_exchange_info (BasicBot.client self) (trace w) = Ok ei
        /\ In info (Api.symbols ei)
        /\ Api.symbol info = upper s
        /\ Api.status info = "TRADING"%string).
Proof.
  rewrite !validate_symbol_result, upper_idempotent.
  split; [reflexivity|]. split; [reflexivity|].
  destruct (futures_exchange_info _ _) as [ei|e]; [|discriminate].
  intros H. injection H as H.
  apply str_in_In in H. unfold trading_symbols in H.
  apply in_map_iff in H. destruct H as (info & Hs & Hin).
  apply filter_In in Hin. destruct Hin as [Hin Hst].
  apply String.eqb_eq in Hst.
  exists ei, info. auto.
Qed.

(** The mocked gateway accepts "btcusdt", and BTCUSDT is a trading entry;
    it also accepts the symbol written with a long s (U+017F), whose
    upper-cased form is "BTCUSDT" too. *)
Lemma validate_symbol_case_insensitive_witness :
  fst (BasicBot.validate_symbol (bot_of (mock_client tick_0_01)) "btcusdt"
         empty_world) = Ok true
  /\ (exists ei info,
         futures_exchange_info (mock_client tick_0_01) [] = Ok ei
         /\ In info (Api.symbols ei)
         /\ Api.symbol info = "BTCUSDT"%string
         /\ Api.status info = "TRADING"%string)
  /\ fst (BasicBot.validate_symbol
            (bot_of (mock_client tick_0_01))
            (String.append "btcu" (String.append (utf8 0x17f) "dt"))
            empty_world) = Ok true.
Proof.
  split; [reflexivity|]. split.
  - apply (validate_symbol_case_insensitive
             (bot_of (mock_client tick_0_01)) "btcusdt" empty_world).
    reflexivity.
  - refine (eq_trans
              (proj1 (validate_symbol_case_insensitive
                        (bot_of (mock_client tick_0_01))
                        (String.append "btcu"
                                       (String.append (utf8 0x17f) "dt"))
                        empty_world)) _).
    vm_compute. reflexivity.
Defined.

(** ** Session construction *)

(** C7: when the client is constructed but the account query of the
    connectivity check raises, [__init__] does not raise: it returns the
    session, having made that one query and written two log records, the
    second of which reports the failed check.  (The check is made once the
    log file is open; when it cannot be opened, [__init__] raises before the
    client is built.) *)
Theorem init_survives_failed_connection_check
        (FileHandler : string -> PyResult unit)
        (Client_ : string -> string -> bool -> PyResult Client)
        (key secret : string) (testnet : bool) (c : Client) (e : Exc)
        (w : World) :
  Client_ key secret testnet = Ok c ->
  futures_account c (trace w) = Raise e ->
  match FileHandler "bot.log"%string with
  | Ok _ =>
      exists self,
        BasicBot.__init__ FileHandler Client_ key secret testnet w =
        (Ok self,
         {| trace := trace w ++ [CallAccount];
            log := log w ++ [(INFO, BotInitialized testnet);
                             (ERROR, ConnectionTestFailed e)] |})
        /\ BasicBot.api_key self = key
        /\ BasicBot.api_secret self = secret
        /\ BasicBot.testnet self = testnet
        /\ BasicBot.client self =
           (if testnet
            then set_API_URL c "https://testnet.binancefuture.com"
            else c)
  | Raise e' =>
      BasicBot.__init__ FileHandler Client_ key secret testnet w
      = (Raise e', w)
  end.
Proof.
  intros HC Hacc.
  unfold BasicBot.__init__, BasicBot._setup_logging.
  unfold bind at 1. unfold lift at 1.
  destruct (FileHandler "bot.log"%string) as [[]|e']; [|reflexivity].
  eexists. split.
  - unfold BasicBot._test_connection. run.
    rewrite HC. simpl.
    assert (Hacc' : futures_account
                      (if testnet
                       then set_API_URL c "https://testnet.binancefuture.com"
                       else c) (trace w) = Raise e)
      by (destruct testnet; exact Hacc).
    rewrite Hacc'. simpl. rewrite <- app_assoc. reflexivity.
  - simpl. auto.
Qed.

(** Constructing the session against a client whose every call raises. *)
Lemma init_survives_failed_connection_check_witness :
  exists self,
    BasicBot.__init__ writable (fun _ _ _ => Ok down_client) "key" "secret"
                      true empty_world =
    (Ok self,
     {| trace := [CallAccount];
        log := [(INFO, BotInitialized true);
                (ERROR, ConnectionTestFailed (GatewayError "unreachable"))] |})
    /\ BasicBot.api_key self = "key"%string
    /\ BasicBot.api_secret self = "secret"%string
    /\ BasicBot.testnet self = true
    /\ BasicBot.client self =
       set_API_URL down_client "https://testnet.binancefuture.com".
Proof.
  exact (init_survives_failed_connection_check
           writable (fun _ _ _ => Ok down_client) "key" "secret" true
           down_client (GatewayError "unreachable") empty_world
           eq_refl eq_refl).
Defined.

(** ** Account balance *)

Lemma float_get_or_0_numeric (o : option PyVal) :
  absent_or_numeric o -> BasicBot.float_get_or_0 o = Ok (value_or_zero o).
Proof.
  destruct o as [[x|e]|]; simpl; intros H; [reflexivity | contradiction |
                                            reflexivity].
Qed.

(** C8, as the code has it: when the account query answers and every balance
    field that is present is numeric, [get_account_balance] returns the record
    of the four fields, each the numeric value of the upstream field, or zero
    when the field is absent; when a field that is present is not numeric, and
    when the account query raises, it returns [None]. *)
Theorem get_account_balance_result (self : BasicBot.BasicBot) (w : World) :
  (forall ai,
      futures_account (BasicBot.client self) (trace w) = Ok ai ->
      absent_or_numeric (Api.totalWalletBalance ai) ->
      absent_or_numeric (Api.totalUnrealizedPnL ai) ->
      absent_or_numeric (Api.totalMarginBalance ai) ->
      absent_or_numeric (Api.availableBalance ai) ->
      fst (BasicBot.get_account_balance self w) =
      Ok (Some {| total_wallet_balance :=
                    value_or_zero (Api.totalWalletBalance ai);
                  total_unrealized_pnl :=
                    value_or_zero (Api.totalUnrealizedPnL ai);
                  total_margin_balance :=
                    value_or_zero (Api.totalMarginBalance ai);
                  available_balance :=
                    value_or_zero (Api.availableBalance ai) |}))
  /\ (forall ai,
         futures_account (BasicBot.client self) (trace w) = Ok ai ->
         ~ (absent_or_numeric (Api.totalWalletBalance ai)
            /\ absent_or_numeric (Api.totalUnrealizedPnL ai)
            /\ absent_or_numeric (Api.totalMarginBalance ai)
            /\ absent_or_numeric (Api.availableBalance ai)) ->
         fst (BasicBot.get_account_balance self w) = Ok None)
  /\ (forall e,
         futures_account (BasicBot.client self) (trace w) = Raise e ->
         fst (BasicBot.get_account_balance self w) = Ok None).
Proof.
  split; [|split].
  - intros ai Hai Hw Hu Hm Ha.
    unfold BasicBot.get_account_balance. run. rewrite Hai. simpl.
    rewrite (float_get_or_0_numeric _ Hw), (float_get_or_0_numeric _ Hu),
      (float_get_or_0_numeric _ Hm), (float_get_or_0_numeric _ Ha).
    reflexivity.
  - intros ai Hai Hnot.
    unfold BasicBot.get_account_balance. run. rewrite Hai. simpl.
    destruct (Api.totalWalletBalance ai) as [[x1|e1]|]; simpl;
      try reflexivity;
      (destruct (Api.totalUnrealizedPnL ai) as [[x2|e2]|]; simpl;
       try reflexivity;
       destruct (Api.totalMarginBalance ai) as [[x3|e3]|]; simpl;
       try reflexivity;
       destruct (Api.availableBalance ai) as [[x4|e4]|]; simpl;
       try reflexivity;
       exfalso; apply Hnot; simpl; auto).
  - intros e He.
    unfold BasicBot.get_account_balance. run. rewrite He. reflexivity.
Qed.

(** The mocked account, which has no unrealized-PnL field; the account
    whose wallet balance is not a number; and the client that is down. *)
Lemma get_account_balance_result_witness :
  fst (BasicBot.get_account_balance (bot_of (mock_client tick_0_01))
         empty_world) =
  Ok (Some {| total_wallet_balance := Float64.decimal 10000 0;
              total_unrealized_pnl := Float64.zero;
              total_margin_balance := Float64.decimal 10000 0;
              available_balance := Float64.decimal 95005 1 |})
  /\ fst (BasicBot.get_account_balance (bot_of null_balance_client)
            empty_world) = Ok None
  /\ fst (BasicBot.get_account_balance (bot_of down_client) empty_world) =
     Ok None.
Proof.
  split; [|split].
  - apply (proj1 (get_account_balance_result
                    (bot_of (mock_client tick_0_01)) empty_world)
                 mock_account); simpl; auto.
  - apply (proj1 (proj2 (get_account_balance_result
                           (bot_of null_balance_client) empty_world))
                 null_balance_account).
    + reflexivity.
    + simpl. tauto.
  - apply (proj2 (proj2 (get_account_balance_result (bot_of down_client)
                                                    empty_world))
                 (GatewayError "unreachable")).
    reflexivity.
Defined.

(** C8, as stated, fails: the account query answers, with a wallet balance
    that is not a number, and [get_account_balance] returns [None], not a
    record. *)
Lemma get_account_balance_non_numeric_field :
  futures_account null_balance_client [] = Ok null_balance_account
  /\ fst (BasicBot.get_account_balance (bot_of null_balance_client)
            empty_world) = Ok None.
Proof.
  split; reflexivity.
Qed.

(** ** Comparisons of floats *)

Lemma SFcompare_Lt_Gt (a b : float) :
  SFcompare a b = Some Lt -> SFcompare b a = Some Gt.
Proof.
  destruct a as [sa|sa| |sa ma ea], b as [sb|sb| |sb mb eb];
    try destruct sa; try destruct sb; simpl;
    try discriminate; try reflexivity.
  - rewrite (Z.compare_antisym ea eb).
    destruct (ea ?= eb); simpl; try discriminate; try reflexivity.
    pose proof (Pos.compare_cont_antisym ma mb Eq) as A; simpl in A.
    rewrite <- A.
    destruct (Pos.compare_cont Eq ma mb); simpl; try discriminate; reflexivity.
  - rewrite (Z.compare_antisym ea eb).
    destruct (ea ?= eb); simpl; try discriminate; try reflexivity.
    pose proof (Pos.compare_cont_antisym ma mb Eq) as A; simpl in A.
    rewrite <- A.
    destruct (Pos.compare_cont Eq ma mb); simpl; try discriminate; reflexivity.
Qed.

(** [a < b] excludes [b <= a]. *)
Lemma ltb_not_leb (a b : float) :
  Float64.ltb a b = true -> Float64.leb b a = false.
Proof.
  unfold Float64.ltb, Float64.leb, SFltb, SFleb.
  destruct (SFcompare a b) as [[| |]|] eqn:H; try discriminate.
  intros _. now rewrite (SFcompare_Lt_Gt _ _ H).
Qed.

(** [0 < m] and [m <= q] give [0 < q]. *)
Lemma positive_above (m q : float) :
  Float64.ltb Float64.zero m = true ->
  Float64.leb m q = true ->
  Float64.ltb Float64.zero q = true.
Proof.
  unfold Float64.ltb, Float64.leb, Float64.zero, SFltb, SFleb.
  destruct m as [sm|sm| |sm mm em], q as [sq|sq| |sq mq eq_];
    try destruct sm; try destruct sq; simpl; try discriminate; reflexivity.
Qed.

(** ** Quantity validation *)

Lemma validate_quantity_filters_none (s : string) (q : float)
      (fs : list Api.Filter) (w : World) :
  find (fun f => String.eqb (Api.filterType f) "LOT_SIZE") fs = None ->
  BasicBot.validate_quantity_filters s q fs w = (Ok None, w).
Proof.
  induction fs as [|f fs IH]; simpl; intros H.
  - reflexivity.
  - destruct (String.eqb (Api.filterType f) "LOT_SIZE"); [discriminate|].
    now apply IH.
Qed.

Lemma validate_quantity_filters_found (s : string) (q m : float)
      (fs : list Api.Filter) (f : Api.Filter) (w : World) :
  find (fun f => String.eqb (Api.filterType f) "LOT_SIZE") fs = Some f ->
  Api.minQty f = Some (PyNum m) ->
  BasicBot.validate_quantity_filters s q fs w =
  if Float64.geb q m
  then (Ok (Some true),
        {| trace := trace w; log := log w ++ [(INFO, QuantityIsValid q s)] |})
  else (Ok (Some false),
        {| trace := trace w;
           log := log w ++ [(WARNING, QuantityBelowMinimum q m s)] |}).
Proof.
  induction fs as [|g fs IH]; simpl; intros H Hm.
  - discriminate.
  - destruct (String.eqb (Api.filterType g) "LOT_SIZE").
    + injection H as ->. run. rewrite Hm. simpl.
      destruct (Float64.geb q m); reflexivity.
    + now apply IH.
Qed.

Lemma validate_quantity_symbols_none (s : string) (q : float)
      (ss : list Api.SymbolInfo) (w : World) :
  (forall info, In info ss -> Api.symbol info = upper s ->
                filter_of_type "LOT_SIZE" info = None) ->
  BasicBot.validate_quantity_symbols s q ss w = (Ok None, w).
Proof.
  induction ss as [|i ss IH]; simpl; intros H.
  - reflexivity.
  - destruct (String.eqb (Api.symbol i) (upper s)) eqn:E.
    + apply String.eqb_eq in E.
      unfold bind.
      rewrite (validate_quantity_filters_none s q _ w (H i (or_introl eq_refl) E)).
      apply IH. intros info Hin. apply H. now right.
    + apply IH. intros info Hin. apply H. now right.
Qed.

Lemma validate_quantity_symbols_found (s : string) (q m : float)
      (ss : list Api.SymbolInfo) (w : World) :
  min_qty_of s {| Api.symbols := ss |} = Some (PyNum m) ->
  BasicBot.validate_quantity_symbols s q ss w =
  if Float64.geb q m
  then (Ok (Some true),
        {| trace := trace w; log := log w ++ [(INFO, QuantityIsValid q s)] |})
  else (Ok (Some false),
        {| trace := trace w;
           log := log w ++ [(WARNING, QuantityBelowMinimum q m s)] |}).
Proof.
  unfold min_qty_of, metadata_of. simpl.
  induction ss as [|i ss IH]; simpl; intros H.
  - discriminate.
  - destruct (String.eqb (Api.symbol i) (upper s)).
    + unfold filter_of_type in H.
      destruct (find _ (Api.filters i)) as [f|] eqn:Hf; [|discriminate].
      unfold bind.
      rewrite (validate_quantity_filters_found s q m _ f w Hf H).
      destruct (Float64.geb q m); reflexivity.
    + now apply IH.
Qed.

(** What [validate_quantity] does for a symbol with a numeric minimum. *)
Lemma validate_quantity_found (self : BasicBot.BasicBot) (s : string)
      (q m : float) (ei : Api.ExchangeInfo) (tr : list GwCall)
      (lg : list (Level * Msg)) :
  futures_exchange_info (BasicBot.client self) tr = Ok ei ->
  min_qty_of s ei = Some (PyNum m) ->
  BasicBot.validate_quantity self s q {| trace := tr; log := lg |} =
  if Float64.geb q m
  then (Ok true,
        {| trace := tr ++ [CallExchangeInfo];
           log := lg ++ [(INFO, QuantityIsValid q s)] |})
  else (Ok false,
        {| trace := tr ++ [CallExchangeInfo];
           log := lg ++ [(WARNING, QuantityBelowMinimum q m s)] |}).
Proof.
  intros Hei Hm. destruct ei as [ss].
  unfold BasicBot.validate_quantity, try_except, bind,
    call_futures_exchange_info.
  simpl. rewrite Hei. simpl.
  rewrite (validate_quantity_symbols_found s q m ss _ Hm).
  destruct (Float64.geb q m); reflexivity.
Qed.

(** What [validate_symbol] does. *)
Lemma validate_symbol_run (self : BasicBot.BasicBot) (s : string) (w : World) :
  BasicBot.validate_symbol self s w =
  match futures_exchange_info (BasicBot.client self) (trace w) with
  | Ok ei =>
      if str_in (upper s) (trading_symbols ei)
      then (Ok true,
            {| trace := trace w ++ [CallExchangeInfo];
               log := log w ++ [(INFO, SymbolIsValid s)] |})
      else (Ok false,
            {| trace := trace w ++ [CallExchangeInfo];
               log := log w ++ [(WARNING, SymbolNotValidOrNotTrading s)] |})
  | Raise e =>
      (Ok false,
       {| trace := trace w ++ [CallExchangeInfo];
          log := log w ++ [(ERROR, ErrorValidatingSymbol s e)] |})
  end.
Proof.
  unfold BasicBot.validate_symbol, trading_symbols. run.
  destruct (futures_exchange_info _ _) as [ei|e]; simpl; [|reflexivity].
  destruct (str_in _ _); reflexivity.
Qed.

(** C4: for a symbol that is trading and whose minimum-quantity filter value
    is [m], with a valid side, the quantity check of the market-order
    validation rejects every [q <= 0] before it looks at [m], rejects every
    [0 < q < m], and accepts every positive [q >= m] (so every [q >= m] when
    [m] is positive); the two rejections are logged with different records:
    an error that the quantity must be positive, a warning that it is below
    the minimum. *)
Theorem quantity_check (self : MarketOrderManager.MarketOrderManager)
        (s side : string) (q m : float) (ei : Api.ExchangeInfo) (w : World) :
  futures_exchange_info
    (BasicBot.client (MarketOrderManager.bot self)) (trace w) = Ok ei ->
  futures_exchange_info
    (BasicBot.client (MarketOrderManager.bot self))
    (trace w ++ [CallExchangeInfo]) = Ok ei ->
  str_in (upper s) (trading_symbols ei) = true ->
  str_in (upper side) ["BUY"; "SELL"]%string = true ->
  min_qty_of s ei = Some (PyNum m) ->
  (Float64.leb q Float64.zero = true ->
   MarketOrderManager._validate_market_order_inputs self s side q w =
   (Ok false,
    {| trace := trace w ++ [CallExchangeInfo];
       log := log w ++ [(INFO, SymbolIsValid s);
                        (ERROR, InvalidQuantityMustBePositive q)] |}))
  /\ (Float64.ltb Float64.zero q = true -> Float64.ltb q m = true ->
      MarketOrderManager._validate_market_order_inputs self s side q w =
      (Ok false,
       {| trace := trace w ++ [CallExchangeInfo; CallExchangeInfo];
          log := log w ++ [(INFO, SymbolIsValid s);
                           (WARNING, QuantityBelowMinimum q m s)] |}))
  /\ (Float64.ltb Float64.zero q = true -> Float64.geb q m = true ->
      MarketOrderManager._validate_market_order_inputs self s side q w =
      (Ok true,
       {| trace := trace w ++ [CallExchangeInfo; CallExchangeInfo];
          log := log w ++ [(INFO, SymbolIsValid s);
                           (INFO, QuantityIsValid q s)] |}))
  /\ (Float64.ltb Float64.zero m = true -> Float64.geb q m = true ->
      MarketOrderManager._validate_market_order_inputs self s side q w =
      (Ok true,
       {| trace := trace w ++ [CallExchangeInfo; CallExchangeInfo];
          log := log w ++ [(INFO, SymbolIsValid s);
                           (INFO, QuantityIsValid q s)] |}))
  /\ (ERROR, InvalidQuantityMustBePositive q) <>
     (WARNING, QuantityBelowMinimum q m s).
Proof.
  intros Hei1 Hei2 Hsym Hside Hmin.
  assert (Hpos : Float64.ltb Float64.zero q = true -> Float64.geb q m = true ->
      MarketOrderManager._validate_market_order_inputs self s side q w =
      (Ok true,
       {| trace := trace w ++ [CallExchangeInfo; CallExchangeInfo];
          log := log w ++ [(INFO, SymbolIsValid s);
                           (INFO, QuantityIsValid q s)] |})).
  { intros H0 Hge.
    unfold MarketOrderManager._validate_market_order_inputs, bind.
    rewrite Hside. change (Float64.of_Z 0) with Float64.zero.
    rewrite validate_symbol_run, Hei1, Hsym. simpl.
    rewrite (ltb_not_leb _ _ H0). simpl.
    rewrite (validate_quantity_found _ s q m ei _ _ Hei2 Hmin), Hge. simpl.
    unfold ret. now rewrite <- !app_assoc. }
  repeat split.
  - intros H0.
    unfold MarketOrderManager._validate_market_order_inputs, bind.
    rewrite Hside. change (Float64.of_Z 0) with Float64.zero.
    rewrite validate_symbol_run, Hei1, Hsym. simpl.
    rewrite H0.
    unfold logger, ret. simpl. now rewrite <- app_assoc.
  - intros H0 Hlt.
    unfold MarketOrderManager._validate_market_order_inputs, bind.
    rewrite Hside. change (Float64.of_Z 0) with Float64.zero.
    rewrite validate_symbol_run, Hei1, Hsym. simpl.
    rewrite (ltb_not_leb _ _ H0). simpl.
    rewrite (validate_quantity_found _ s q m ei _ _ Hei2 Hmin).
    unfold Float64.geb. change SFleb with Float64.leb.
    rewrite (ltb_not_leb _ _ Hlt). simpl.
    unfold ret. now rewrite <- !app_assoc.
  - exact Hpos.
  - intros Hm Hge. apply Hpos; [|exact Hge].
    exact (positive_above m q Hm Hge).
  - discriminate.
Qed.

(** On the mocked gateway, whose minimum is 0.001: the quantity 0 is
    rejected as not positive, 0.0005 as below the minimum, and 0.001 is
    accepted. *)
Lemma quantity_check_witness :
  MarketOrderManager._validate_market_order_inputs
    (market_of (mock_client tick_0_01)) "BTCUSDT" "buy" Float64.zero
    empty_world =
  (Ok false,
   {| trace := [CallExchangeInfo];
      log := [(INFO, SymbolIsValid "BTCUSDT");
              (ERROR, InvalidQuantityMustBePositive Float64.zero)] |})
  /\ MarketOrderManager._validate_market_order_inputs
       (market_of (mock_client tick_0_01)) "BTCUSDT" "buy"
       (Float64.decimal 5 4) empty_world =
     (Ok false,
      {| trace := [CallExchangeInfo; CallExchangeInfo];
         log := [(INFO, SymbolIsValid "BTCUSDT");
                 (WARNING, QuantityBelowMinimum (Float64.decimal 5 4)
                                                (Float64.decimal 1 3)
                                                "BTCUSDT")] |})
  /\ MarketOrderManager._validate_market_order_inputs
       (market_of (mock_client tick_0_01)) "BTCUSDT" "buy"
       (Float64.decimal 1 3) empty_world =
     (Ok true,
      {| trace := [CallExchangeInfo; CallExchangeInfo];
         log := [(INFO, SymbolIsValid "BTCUSDT");
                 (INFO, QuantityIsValid (Float64.decimal 1 3) "BTCUSDT")] |}).
Proof.
  split; [|split].
  - apply (quantity_check (market_of (mock_client tick_0_01)) "BTCUSDT" "buy"
             Float64.zero (Float64.decimal 1 3)
             (mock_exchange_info tick_0_01) empty_world);
      reflexivity.
  - apply (quantity_check (market_of (mock_client tick_0_01)) "BTCUSDT" "buy"
             (Float64.decimal 5 4) (Float64.decimal 1 3)
             (mock_exchange_info tick_0_01) empty_world);
      reflexivity.
  - apply (quantity_check (market_of (mock_client tick_0_01)) "BTCUSDT" "buy"
             (Float64.decimal 1 3) (Float64.decimal 1 3)
             (mock_exchange_info tick_0_01) empty_world);
      reflexivity.
Defined.

(** ** Missing filters *)

Lemma validate_price_filters_none (s : string) (p : float)
      (fs : list Api.Filter) (w : World) :
  find (fun f => String.eqb (Api.filterType f) "PRICE_FILTER") fs = None ->
  LimitOrderManager.validate_price_filters s p fs w = (Ok true, w).
Proof.
  induction fs as [|f fs IH]; simpl; intros H.
  - reflexivity.
  - destruct (String.eqb (Api.filterType f) "PRICE_FILTER"); [discriminate|].
    now apply IH.
Qed.

Lemma find_symbol_none (s : string) (ss : list Api.SymbolInfo) :
  BasicBot.find_symbol s ss = None ->
  forall info, In info ss -> Api.symbol info <> upper s.
Proof.
  induction ss as [|i ss IH]; simpl; intros H info Hin.
  - contradiction.
  - destruct (String.eqb (Api.symbol i) (upper s)) eqn:E; [discriminate|].
    destruct Hin as [<-|Hin].
    + now apply String.eqb_neq.
    + now apply IH.
Qed.

Lemma validate_quantity_no_lot_size (self : BasicBot.BasicBot) (s : string)
      (q : float) (ei : Api.ExchangeInfo) (w : World) :
  futures_exchange_info (BasicBot.client self) (trace w) = Ok ei ->
  no_lot_size s ei ->
  BasicBot.validate_quantity self s q w =
  (Ok false,
   {| trace := trace w ++ [CallExchangeInfo];
      log := log w ++ [(WARNING, CouldNotFindQuantityInfo s)] |}).
Proof.
  intros Hei Hno.
  unfold BasicBot.validate_quantity, try_except, bind,
    call_futures_exchange_info.
  rewrite Hei. simpl.
  now rewrite (validate_quantity_symbols_none s q _ _ Hno).
Qed.

(** C9: when the metadata fetched for a symbol has no PRICE_FILTER, the
    price-precision check accepts every price, positive ones included, and
    applies no tick constraint; the quantity check rejects every quantity
    when the metadata has no entry for the symbol, and when no entry for the
    symbol has a LOT_SIZE filter. *)
Theorem checks_without_filters (self : LimitOrderManager.LimitOrderManager)
        (s : string) (ei : Api.ExchangeInfo) (w : World) :
  futures_exchange_info
    (BasicBot.client (LimitOrderManager.bot self)) (trace w) = Ok ei ->
  (forall info p,
      metadata_of s ei = Some info ->
      filter_of_type "PRICE_FILTER" info = None ->
      LimitOrderManager._validate_price_precision self s p w =
      (Ok true, {| trace := trace w ++ [CallExchangeInfo]; log := log w |}))
  /\ (forall q,
         metadata_of s ei = None ->
         BasicBot.validate_quantity (LimitOrderManager.bot self) s q w =
         (Ok false,
          {| trace := trace w ++ [CallExchangeInfo];
             log := log w ++ [(WARNING, CouldNotFindQuantityInfo s)] |}))
  /\ (forall q,
         no_lot_size s ei ->
         BasicBot.validate_quantity (LimitOrderManager.bot self) s q w =
         (Ok false,
          {| trace := trace w ++ [CallExchangeInfo];
             log := log w ++ [(WARNING, CouldNotFindQuantityInfo s)] |})).
Proof.
  intros Hei. split; [|split].
  - intros info p Hmeta Hnone.
    unfold LimitOrderManager._validate_price_precision,
      BasicBot.get_symbol_info, try_except, bind, call_futures_exchange_info.
    rewrite Hei. simpl. unfold ret.
    unfold metadata_of in Hmeta. rewrite Hmeta.
    now rewrite (validate_price_filters_none s p _ _ Hnone).
  - intros q Hmeta.
    apply (validate_quantity_no_lot_size _ s q ei w Hei).
    intros info Hin Hname.
    exfalso. exact (find_symbol_none s _ Hmeta info Hin Hname).
  - intros q Hno.
    exact (validate_quantity_no_lot_size _ s q ei w Hei Hno).
Qed.

(** On metadata whose BTCUSDT entry has no filter, the price 100.005 passes
    the precision check and the quantity 1 is rejected; ETHUSDT, which has
    no entry, has the quantity 1 rejected too. *)
Lemma checks_without_filters_witness :
  LimitOrderManager._validate_price_precision (limit_of bare_client)
    "BTCUSDT" (Float64.decimal 100005 3) empty_world =
  (Ok true, {| trace := [CallExchangeInfo]; log := [] |})
  /\ BasicBot.validate_quantity (bot_of bare_client) "ETHUSDT"
       (Float64.of_Z 1) empty_world =
     (Ok false,
      {| trace := [CallExchangeInfo];
         log := [(WARNING, CouldNotFindQuantityInfo "ETHUSDT")] |})
  /\ BasicBot.validate_quantity (bot_of bare_client) "BTCUSDT"
       (Float64.of_Z 1) empty_world =
     (Ok false,
      {| trace := [CallExchangeInfo];
         log := [(WARNING, CouldNotFindQuantityInfo "BTCUSDT")] |}).
Proof.
  split; [|split].
  - apply (proj1 (checks_without_filters (limit_of bare_client) "BTCUSDT"
                    bare_exchange_info empty_world eq_refl)
                 {| Api.symbol := "BTCUSDT"; Api.status := "TRADING";
                    Api.filters := [] |});
      reflexivity.
  - apply (proj1 (proj2 (checks_without_filters (limit_of bare_client)
                           "ETHUSDT" bare_exchange_info empty_world eq_refl))).
    reflexivity.
  - apply (proj2 (proj2 (checks_without_filters (limit_of bare_client)
                           "BTCUSDT" bare_exchange_info empty_world eq_refl))).
    intros info [<-|[]] _. reflexivity.
Defined.

(** ** Validation only reads metadata *)

Lemma submissions_snoc_metadata (tr : list GwCall) (lg lg' : list (Level * Msg)) :
  submissions {| trace := tr ++ [CallExchangeInfo]; log := lg |} =
  submissions {| trace := tr; log := lg' |}.
Proof.
  unfold submissions. simpl. rewrite filter_app. simpl. apply app_nil_r.
Qed.

Lemma validate_symbol_calls (self : BasicBot.BasicBot) (s : string) (w : World) :
  (exists b, fst (BasicBot.validate_symbol self s w) = Ok b)
  /\ trace (snd (BasicBot.validate_symbol self s w)) =
     trace w ++ [CallExchangeInfo].
Proof.
  rewrite validate_symbol_run.
  destruct (futures_exchange_info _ _) as [ei|e]; simpl; eauto.
  destruct (str_in _ _); simpl; eauto.
Qed.

Lemma validate_quantity_filters_trace (s : string) (q : float)
      (fs : list Api.Filter) (w : World) :
  trace (snd (BasicBot.validate_quantity_filters s q fs w)) = trace w.
Proof.
  induction fs as [|f fs IH]; simpl.
  - reflexivity.
  - destruct (String.eqb (Api.filterType f) "LOT_SIZE"); [|exact IH].
    run. destruct (Api.minQty f) as [[m|e]|]; simpl; try reflexivity.
    destruct (Float64.geb q m); reflexivity.
Qed.

Lemma validate_quantity_symbols_trace (s : string) (q : float)
      (ss : list Api.SymbolInfo) (w : World) :
  trace (snd (BasicBot.validate_quantity_symbols s q ss w)) = trace w.
Proof.
  revert w. induction ss as [|i ss IH]; simpl; intros w.
  - reflexivity.
  - destruct (String.eqb (Api.symbol i) (upper s)); [|apply IH].
    unfold bind.
    pose proof (validate_quantity_filters_trace s q (Api.filters i) w) as Hf.
    destruct (BasicBot.validate_quantity_filters s q (Api.filters i) w)
      as [[[b|]|e] w1]; simpl in *; try exact Hf.
    rewrite IH. exact Hf.
Qed.

Lemma validate_quantity_calls (self : BasicBot.BasicBot) (s : string)
      (q : float) (w : World) :
  (exists b, fst (BasicBot.validate_quantity self s q w) = Ok b)
  /\ trace (snd (BasicBot.validate_quantity self s q w)) =
     trace w ++ [CallExchangeInfo].
Proof.
  unfold BasicBot.validate_quantity, try_except, bind,
    call_futures_exchange_info.
  destruct (futures_exchange_info _ _) as [ei|e]; simpl; [|eauto].
  pose proof (validate_quantity_symbols_trace s q (Api.symbols ei)
                (record_call CallExchangeInfo w)) as Ht.
  destruct (BasicBot.validate_quantity_symbols s q (Api.symbols ei) _)
    as [[[b|]|e] w1]; simpl in *; eauto.
Qed.

Lemma validate_price_filters_trace (s : string) (p : float)
      (fs : list Api.Filter) (w : World) :
  trace (snd (LimitOrderManager.validate_price_filters s p fs w)) = trace w.
Proof.
  induction fs as [|f fs IH]; simpl.
  - reflexivity.
  - destruct (String.eqb (Api.filterType f) "PRICE_FILTER"); [|exact IH].
    run. destruct (Api.tickSize f) as [[t|e]|]; simpl; try reflexivity.
    destruct (LimitOrderManager.rounded_price p t) as [r|e]; simpl;
      [|reflexivity].
    destruct (Float64.leb _ _); reflexivity.
Qed.

Lemma validate_price_precision_calls (self : LimitOrderManager.LimitOrderManager)
      (s : string) (p : float) (w : World) :
  (exists b, fst (LimitOrderManager._validate_price_precision self s p w) = Ok b)
  /\ trace (snd (LimitOrderManager._validate_price_precision self s p w)) =
     trace w ++ [CallExchangeInfo].
Proof.
  unfold LimitOrderManager._validate_price_precision,
    BasicBot.get_symbol_info, try_except, bind, call_futures_exchange_info.
  destruct (futures_exchange_info _ _) as [ei|e]; simpl; [|eauto].
  destruct (BasicBot.find_symbol s (Api.symbols ei)) as [info|]; simpl;
    [|eauto].
  pose proof (validate_price_filters_trace s p (Api.filters info)
                (record_call CallExchangeInfo w)) as Ht.
  destruct (LimitOrderManager.validate_price_filters s p (Api.filters info) _)
    as [[b|e] w1]; simpl in *; eauto.
Qed.

(** The market-order validation returns a boolean and submits nothing. *)
Lemma validate_market_calls (self : MarketOrderManager.MarketOrderManager)
      (s side : string) (q : float) (w : World) :
  (exists b,
      fst (MarketOrderManager._validate_market_order_inputs self s side q w)
      = Ok b)
  /\ submissions
       (snd (MarketOrderManager._validate_market_order_inputs self s side q w))
     = submissions w.
Proof.
  unfold MarketOrderManager._validate_market_order_inputs, bind.
  destruct (validate_symbol_calls (MarketOrderManager.bot self) s w)
    as [[b Hb] Ht].
  destruct (BasicBot.validate_symbol (MarketOrderManager.bot self) s w)
    as [r w1]. simpl in Hb, Ht. subst r.
  assert (H1 : submissions w1 = submissions w).
  { unfold submissions. rewrite Ht, filter_app. simpl. apply app_nil_r. }
  destruct b; cbn [negb]; [|simpl; eauto].
  destruct (str_in (upper side) _); cbn [negb]; [|simpl; eauto].
  destruct (Float64.leb q _); [simpl; eauto|].
  destruct (validate_quantity_calls (MarketOrderManager.bot self) s q w1)
    as [[b Hb] Ht2].
  destruct (BasicBot.validate_quantity (MarketOrderManager.bot self) s q w1)
    as [r w2]. simpl in Hb, Ht2. subst r.
  assert (H2 : submissions w2 = submissions w).
  { unfold submissions. rewrite Ht2, filter_app. simpl.
    rewrite app_nil_r. exact H1. }
  destruct b; simpl; eauto.
Qed.

(** The limit-order validation returns a boolean and submits nothing. *)
Lemma validate_limit_calls (self : LimitOrderManager.LimitOrderManager)
      (s side : string) (q p : float) (w : World) :
  (exists b,
      fst (LimitOrderManager._validate_limit_order_inputs self s side q p w)
      = Ok b)
  /\ submissions
       (snd (LimitOrderManager._validate_limit_order_inputs self s side q p w))
     = submissions w.
Proof.
  unfold LimitOrderManager._validate_limit_order_inputs, bind.
  destruct (validate_symbol_calls (LimitOrderManager.bot self) s w)
    as [[b Hb] Ht].
  destruct (BasicBot.validate_symbol (LimitOrderManager.bot self) s w)
    as [r w1]. simpl in Hb, Ht. subst r.
  assert (H1 : submissions w1 = submissions w).
  { unfold submissions. rewrite Ht, filter_app. simpl. apply app_nil_r. }
  destruct b; cbn [negb]; [|simpl; eauto].
  destruct (str_in (upper side) _); cbn [negb]; [|simpl; eauto].
  destruct (Float64.leb q _); [simpl; eauto|].
  destruct (validate_quantity_calls (LimitOrderManager.bot self) s q w1)
    as [[b Hb] Ht2].
  destruct (BasicBot.validate_quantity (LimitOrderManager.bot self) s q w1)
    as [r w2]. simpl in Hb, Ht2. subst r.
  assert (H2 : submissions w2 = submissions w).
  { unfold submissions. rewrite Ht2, filter_app. simpl.
    rewrite app_nil_r. exact H1. }
  destruct b; cbn [negb]; [|simpl; eauto].
  destruct (Float64.leb p _); [simpl; eauto|].
  destruct (validate_price_precision_calls self s p w2) as [[b Hb] Ht3].
  destruct (LimitOrderManager._validate_price_precision self s p w2)
    as [r w3]. simpl in Hb, Ht3. subst r.
  assert (H3 : submissions w3 = submissions w).
  { unfold submissions. rewrite Ht3, filter_app. simpl.
    rewrite app_nil_r. exact H2. }
  destruct b; simpl; eauto.
Qed.

(** ** Placing orders *)

Lemma place_market_rejected (self : MarketOrderManager.MarketOrderManager)
      (s side : string) (q : float) (w : World) :
  fst (MarketOrderManager._validate_market_order_inputs self s side q w)
  = Ok false ->
  fst (MarketOrderManager.place_market_order self s side q w) = Ok None
  /\ submissions (snd (MarketOrderManager.place_market_order self s side q w))
     = submissions w.
Proof.
  intros Hv.
  destruct (validate_market_calls self s side q w) as [_ Hsub].
  unfold MarketOrderManager.place_market_order, try_except, bind.
  destruct (MarketOrderManager._validate_market_order_inputs self s side q w)
    as [r w1]. simpl in Hv, Hsub. subst r. simpl. auto.
Qed.

Lemma place_limit_rejected (self : LimitOrderManager.LimitOrderManager)
      (s side : string) (q p : float) (w : World) :
  fst (LimitOrderManager._validate_limit_order_inputs self s side q p w)
  = Ok false ->
  fst (LimitOrderManager.place_limit_order self s side q p w) = Ok None
  /\ submissions (snd (LimitOrderManager.place_limit_order self s side q p w))
     = submissions w.
Proof.
  intros Hv.
  destruct (validate_limit_calls self s side q p w) as [_ Hsub].
  unfold LimitOrderManager.place_limit_order, try_except, bind.
  destruct (LimitOrderManager._validate_limit_order_inputs self s side q p w)
    as [r w1]. simpl in Hv, Hsub. subst r. simpl. auto.
Qed.

Lemma submissions_after_order (tr : list GwCall) (req : OrderRequest)
      (rest : list GwCall) (lg : list (Level * Msg)) :
  filter is_create_order rest = [] ->
  submissions {| trace := (tr ++ [CallCreateOrder req]) ++ rest; log := lg |} =
  filter is_create_order tr ++ [CallCreateOrder req].
Proof.
  intros H. unfold submissions. simpl.
  rewrite !filter_app, H. simpl. now rewrite app_nil_r.
Qed.

(** C10: the record a successful [place_market_order] or
    [place_limit_order] returns has the caller's symbol and side as given,
    and the caller's quantity (and price); the call adds one submission to
    those made before, whose symbol and side are the upper-cased ones and
    whose quantity (and price) are the caller's. *)
Theorem result_echoes_arguments :
  (forall (self : MarketOrderManager.MarketOrderManager) (s side : string)
          (q : float) (w w' : World) (r : MarketOrderManager.OrderResult),
      MarketOrderManager.place_market_order self s side q w
      = (Ok (Some r), w') ->
      MarketOrderManager.symbol r = s
      /\ MarketOrderManager.side r = side
      /\ MarketOrderManager.quantity r = q
      /\ submissions w' =
         submissions w ++ [CallCreateOrder (market_request s side q)])
  /\ (forall (self : LimitOrderManager.LimitOrderManager) (s side : string)
             (q p : float) (w w' : World) (r : LimitOrderManager.OrderResult),
         LimitOrderManager.place_limit_order self s side q p w
         = (Ok (Some r), w') ->
         LimitOrderManager.symbol r = s
         /\ LimitOrderManager.side r = side
         /\ LimitOrderManager.quantity r = q
         /\ LimitOrderManager.price r = p
         /\ submissions w' =
            submissions w ++ [CallCreateOrder (limit_request s side q p)]).
Proof.
  split.
  - intros self s side q w w' r.
    destruct (validate_market_calls self s side q w) as [[b Hb] Hsub].
    unfold MarketOrderManager.place_market_order,
      MarketOrderManager._get_order_status, try_except, bind,
      call_futures_create_order, call_futures_get_order.
    destruct (MarketOrderManager._validate_market_order_inputs self s side q w)
      as [v w1]. simpl in Hb, Hsub. subst v.
    destruct b; cbn [negb]; [|discriminate].
    cbn [logger fst snd trace log record_call].
    fold (market_request s side q).
    destruct (futures_create_order _ _ _) as [order|e]; [|discriminate].
    unfold lift.
    destruct (Api.orderId order) as [oid|]; [|discriminate].
    simpl.
    destruct (futures_get_order _ _ _ _) as [info|e];
      simpl; intros H; injection H as <- <-;
      (repeat split; try reflexivity);
      rewrite <- Hsub;
      [apply (submissions_after_order _ _ [CallGetOrder (upper s) oid])
      |apply (submissions_after_order _ _ [CallGetOrder (upper s) oid])];
      reflexivity.
  - intros self s side q p w w' r.
    destruct (validate_limit_calls self s side q p w) as [[b Hb] Hsub].
    unfold LimitOrderManager.place_limit_order,
      LimitOrderManager._get_order_status, try_except, bind,
      call_futures_create_order, call_futures_get_order.
    destruct (LimitOrderManager._validate_limit_order_inputs self s side q p w)
      as [v w1]. simpl in Hb, Hsub. subst v.
    destruct b; cbn [negb]; [|discriminate].
    cbn [logger fst snd trace log record_call].
    fold (limit_request s side q p).
    destruct (futures_create_order _ _ _) as [order|e]; [|discriminate].
    unfold lift.
    destruct (Api.orderId order) as [oid|]; [|discriminate].
    simpl.
    destruct (futures_get_order _ _ _ _) as [info|e];
      simpl; intros H; injection H as <- <-;
      (repeat split; try reflexivity);
      rewrite <- Hsub;
      [apply (submissions_after_order _ _ [CallGetOrder (upper s) oid])
      |apply (submissions_after_order _ _ [CallGetOrder (upper s) oid])];
      reflexivity.
Qed.

(** On the mocked gateway, market and limit orders for "btcusdt", side
    "buy": the records carry "btcusdt" and "buy", the submissions "BTCUSDT"
    and "BUY". *)
Lemma result_echoes_arguments_witness :
  (exists r w',
      MarketOrderManager.place_market_order
        (market_of (mock_client tick_0_01)) "btcusdt" "buy"
        (Float64.decimal 1 3) empty_world = (Ok (Some r), w')
      /\ MarketOrderManager.symbol r = "btcusdt"%string
      /\ MarketOrderManager.side r = "buy"%string
      /\ MarketOrderManager.quantity r = Float64.decimal 1 3
      /\ submissions w' =
         [CallCreateOrder
            {| req_symbol := "BTCUSDT"; req_side := "BUY";
               req_type := "MARKET"; req_timeInForce := None;
               req_quantity := Float64.decimal 1 3; req_price := None |}])
  /\ (exists r w',
         LimitOrderManager.place_limit_order
           (limit_of (mock_client tick_0_01)) "btcusdt" "buy"
           (Float64.decimal 1 3) (Float64.decimal 10000 2) empty_world
         = (Ok (Some r), w')
         /\ LimitOrderManager.symbol r = "btcusdt"%string
         /\ LimitOrderManager.side r = "buy"%string
         /\ LimitOrderManager.quantity r = Float64.decimal 1 3
         /\ LimitOrderManager.price r = Float64.decimal 10000 2
         /\ submissions w' =
            [CallCreateOrder
               {| req_symbol := "BTCUSDT"; req_side := "BUY";
                  req_type := "LIMIT"; req_timeInForce := Some "GTC"%string;
                  req_quantity := Float64.decimal 1 3;
                  req_price := Some (Float64.decimal 10000 2) |}]).
Proof.
  split.
  - eexists. eexists. split; [vm_compute; reflexivity|].
    apply (proj1 result_echoes_arguments
                 (market_of (mock_client tick_0_01)) "btcusdt"%string
                 "buy"%string (Float64.decimal 1 3) empty_world).
    vm_compute. reflexivity.
  - eexists. eexists. split; [vm_compute; reflexivity|].
    apply (proj2 result_echoes_arguments
                 (limit_of (mock_client tick_0_01)) "btcusdt"%string
                 "buy"%string (Float64.decimal 1 3) (Float64.decimal 10000 2)
                 empty_world).
    vm_compute. reflexivity.
Defined.

(** C3, as the code has it: once the validation has passed, an error the
    gateway raises on the submission is caught and logged by the manager,
    which returns [None]; an error the gateway raises on the status fetch is
    caught and logged by [_get_order_status], and the manager returns the
    result record, with [None] as its status. *)
Theorem gateway_errors_when_placing :
  (forall (self : MarketOrderManager.MarketOrderManager) (s side : string)
          (q : float) (w w1 : World),
      MarketOrderManager._validate_market_order_inputs self s side q w
      = (Ok true, w1) ->
      (forall e,
          futures_create_order
            (BasicBot.client (MarketOrderManager.bot self)) (trace w1)
            (market_request s side q) = Raise e ->
          MarketOrderManager.place_market_order self s side q w =
          (Ok None,
           {| trace := trace w1 ++ [CallCreateOrder (market_request s side q)];
              log := log w1 ++ [(INFO, PlacingMarketOrder side q s);
                                (ERROR, FailedToPlaceMarketOrder e)] |}))
      /\ (forall order oid e,
             futures_create_order
               (BasicBot.client (MarketOrderManager.bot self)) (trace w1)
               (market_request s side q) = Ok order ->
             Api.orderId order = Some oid ->
             futures_get_order
               (BasicBot.client (MarketOrderManager.bot self))
               (trace w1 ++ [CallCreateOrder (market_request s side q)])
               (upper s) oid = Raise e ->
             MarketOrderManager.place_market_order self s side q w =
             (Ok (Some {| MarketOrderManager.order_id := oid;
                          MarketOrderManager.symbol := s;
                          MarketOrderManager.side := side;
                          MarketOrderManager.quantity := q;
                          MarketOrderManager.type := "MARKET";
                          MarketOrderManager.status := None;
                          MarketOrderManager.raw_response := order |}),
              {| trace := trace w1 ++
                          [CallCreateOrder (market_request s side q);
                           CallGetOrder (upper s) oid];
                 log := log w1 ++ [(INFO, PlacingMarketOrder side q s);
                                   (INFO, MarketOrderPlaced order);
                                   (ERROR, FailedToGetOrderStatus e)] |})))
  /\ (forall (self : LimitOrderManager.LimitOrderManager) (s side : string)
             (q p : float) (w w1 : World),
         LimitOrderManager._validate_limit_order_inputs self s side q p w
         = (Ok true, w1) ->
         (forall e,
             futures_create_order
               (BasicBot.client (LimitOrderManager.bot self)) (trace w1)
               (limit_request s side q p) = Raise e ->
             LimitOrderManager.place_limit_order self s side q p w =
             (Ok None,
              {| trace := trace w1 ++
                          [CallCreateOrder (limit_request s side q p)];
                 log := log w1 ++ [(INFO, PlacingLimitOrder side q s p);
                                   (ERROR, FailedToPlaceLimitOrder e)] |}))
         /\ (forall order oid e,
                futures_create_order
                  (BasicBot.client (LimitOrderManager.bot self)) (trace w1)
                  (limit_request s side q p) = Ok order ->
                Api.orderId order = Some oid ->
                futures_get_order
                  (BasicBot.client (LimitOrderManager.bot self))
                  (trace w1 ++ [CallCreateOrder (limit_request s side q p)])
                  (upper s) oid = Raise e ->
                LimitOrderManager.place_limit_order self s side q p w =
                (Ok (Some {| LimitOrderManager.order_id := oid;
                             LimitOrderManager.symbol := s;
                             LimitOrderManager.side := side;
                             LimitOrderManager.quantity := q;
                             LimitOrderManager.price := p;
                             LimitOrderManager.type := "LIMIT";
                             LimitOrderManager.status := None;
                             LimitOrderManager.raw_response := order |}),
                 {| trace := trace w1 ++
                             [CallCreateOrder (limit_request s side q p);
                              CallGetOrder (upper s) oid];
                    log := log w1 ++ [(INFO, PlacingLimitOrder side q s p);
                                      (INFO, LimitOrderPlaced order);
                                      (ERROR, FailedToGetOrderStatus e)] |}))).
Proof.
  split.
  - intros self s side q w w1 Hv. split.
    + intros e He.
      unfold MarketOrderManager.place_market_order, try_except, bind,
        call_futures_create_order.
      rewrite Hv. simpl. fold (market_request s side q). rewrite He. simpl.
      now rewrite <- app_assoc.
    + intros order oid e Ho Hid He.
      unfold MarketOrderManager.place_market_order,
        MarketOrderManager._get_order_status, try_except, bind,
        call_futures_create_order, call_futures_get_order.
      rewrite Hv. simpl. fold (market_request s side q). rewrite Ho. simpl.
      rewrite Hid. simpl. rewrite He. simpl.
      now rewrite <- !app_assoc.
  - intros self s side q p w w1 Hv. split.
    + intros e He.
      unfold LimitOrderManager.place_limit_order, try_except, bind,
        call_futures_create_order.
      rewrite Hv. simpl. fold (limit_request s side q p). rewrite He. simpl.
      now rewrite <- app_assoc.
    + intros order oid e Ho Hid He.
      unfold LimitOrderManager.place_limit_order,
        LimitOrderManager._get_order_status, try_except, bind,
        call_futures_create_order, call_futures_get_order.
      rewrite Hv. simpl. fold (limit_request s side q p). rewrite Ho. simpl.
      rewrite Hid. simpl. rewrite He. simpl.
      now rewrite <- !app_assoc.
Qed.

(** On the mocked gateway with a refused submission, and with a status
    fetch that times out. *)
Lemma gateway_errors_when_placing_witness :
  (fst (MarketOrderManager.place_market_order
          (market_of (reject_client tick_0_01)) "BTCUSDT" "buy"
          (Float64.decimal 1 3) empty_world) = Ok None
   /\ fst (MarketOrderManager.place_market_order
             (market_of (no_status_client tick_0_01)) "BTCUSDT" "buy"
             (Float64.decimal 1 3) empty_world) =
      Ok (Some {| MarketOrderManager.order_id := 12345;
                  MarketOrderManager.symbol := "BTCUSDT";
                  MarketOrderManager.side := "buy";
                  MarketOrderManager.quantity := Float64.decimal 1 3;
                  MarketOrderManager.type := "MARKET";
                  MarketOrderManager.status := None;
                  MarketOrderManager.raw_response := mock_order |}))
  /\ (fst (LimitOrderManager.place_limit_order
             (limit_of (reject_client tick_0_01)) "BTCUSDT" "buy"
             (Float64.decimal 1 3) (Float64.decimal 10000 2) empty_world)
      = Ok None
      /\ fst (LimitOrderManager.place_limit_order
                (limit_of (no_status_client tick_0_01)) "BTCUSDT" "buy"
                (Float64.decimal 1 3) (Float64.decimal 10000 2) empty_world) =
         Ok (Some {| LimitOrderManager.order_id := 12345;
                     LimitOrderManager.symbol := "BTCUSDT";
                     LimitOrderManager.side := "buy";
                     LimitOrderManager.quantity := Float64.decimal 1 3;
                     LimitOrderManager.price := Float64.decimal 10000 2;
                     LimitOrderManager.type := "LIMIT";
                     LimitOrderManager.status := None;
                     LimitOrderManager.raw_response := mock_order |})).
Proof.
  split; split.
  - rewrite (proj1 (proj1 gateway_errors_when_placing
                      (market_of (reject_client tick_0_01))
                      "BTCUSDT"%string "buy"%string (Float64.decimal 1 3)
                      empty_world _ eq_refl)
                   (GatewayError "rejected") eq_refl).
    reflexivity.
  - rewrite (proj2 (proj1 gateway_errors_when_placing
                      (market_of (no_status_client tick_0_01))
                      "BTCUSDT"%string "buy"%string (Float64.decimal 1 3)
                      empty_world _ eq_refl)
                   mock_order 12345 (GatewayError "timeout")
                   eq_refl eq_refl eq_refl).
    reflexivity.
  - rewrite (proj1 (proj2 gateway_errors_when_placing
                      (limit_of (reject_client tick_0_01))
                      "BTCUSDT"%string "buy"%string (Float64.decimal 1 3)
                      (Float64.decimal 10000 2) empty_world _ eq_refl)
                   (GatewayError "rejected") eq_refl).
    reflexivity.
  - rewrite (proj2 (proj2 gateway_errors_when_placing
                      (limit_of (no_status_client tick_0_01))
                      "BTCUSDT"%string "buy"%string (Float64.decimal 1 3)
                      (Float64.decimal 10000 2) empty_world _ eq_refl)
                   mock_order 12345 (GatewayError "timeout")
                   eq_refl eq_refl eq_refl).
    reflexivity.
Defined.

(** C3, as stated, fails: the gateway accepts the submission and raises on
    the status fetch, and [place_market_order] returns a record, not
    [None]. *)
Lemma status_fetch_error_returns_record :
  futures_get_order (no_status_client tick_0_01)
    [CallExchangeInfo; CallExchangeInfo;
     CallCreateOrder (market_request "BTCUSDT" "buy" (Float64.decimal 1 3))]
    "BTCUSDT" 12345 = Raise (GatewayError "timeout")
  /\ fst (MarketOrderManager.place_market_order
            (market_of (no_status_client tick_0_01)) "BTCUSDT" "buy"
            (Float64.decimal 1 3) empty_world) =
     Ok (Some {| MarketOrderManager.order_id := 12345;
                 MarketOrderManager.symbol := "BTCUSDT";
                 MarketOrderManager.side := "buy";
                 MarketOrderManager.quantity := Float64.decimal 1 3;
                 MarketOrderManager.type := "MARKET";
                 MarketOrderManager.status := None;
                 MarketOrderManager.raw_response := mock_order |})
  /\ fst (MarketOrderManager.place_market_order
            (market_of (no_status_client tick_0_01)) "BTCUSDT" "buy"
            (Float64.decimal 1 3) empty_world) <> Ok None
  /\ trace (snd (MarketOrderManager.place_market_order
                   (market_of (no_status_client tick_0_01)) "BTCUSDT" "buy"
                   (Float64.decimal 1 3) empty_world)) =
     [CallExchangeInfo; CallExchangeInfo;
      CallCreateOrder (market_request "BTCUSDT" "buy" (Float64.decimal 1 3));
      CallGetOrder "BTCUSDT" 12345].
Proof.
  repeat split; try (vm_compute; reflexivity).
  vm_compute. discriminate.
Qed.

(** ** Price precision *)

Lemma validate_price_filters_found (s : string) (p t : float)
      (fs : list Api.Filter) (f : Api.Filter) (w : World) :
  find (fun f => String.eqb (Api.filterType f) "PRICE_FILTER") fs = Some f ->
  Api.tickSize f = Some (PyNum t) ->
  LimitOrderManager.validate_price_filters s p fs w =
  match LimitOrderManager.rounded_price p t with
  | Ok rounded =>
      if Float64.leb (Float64.abs (Float64.sub p rounded))
                     (LimitOrderManager.tolerance t)
      then (Ok true, w)
      else (Ok false,
            {| trace := trace w;
               log := log w ++
                      [(ERROR, PriceDoesNotMatchTickSize p t s rounded)] |})
  | Raise e => (Raise e, w)
  end.
Proof.
  induction fs as [|g fs IH]; simpl; intros H Ht.
  - discriminate.
  - destruct (String.eqb (Api.filterType g) "PRICE_FILTER").
    + injection H as ->. run. rewrite Ht. simpl.
      destruct (LimitOrderManager.rounded_price p t) as [r|e]; simpl;
        [|reflexivity].
      destruct (Float64.leb _ _); reflexivity.
    + now apply IH.
Qed.

(** What [_validate_price_precision] does for a symbol with a numeric tick
    size. *)
Lemma validate_price_precision_run (self : LimitOrderManager.LimitOrderManager)
      (s : string) (p t : float) (ei : Api.ExchangeInfo) (tr : list GwCall)
      (lg : list (Level * Msg)) :
  futures_exchange_info (BasicBot.client (LimitOrderManager.bot self)) tr
  = Ok ei ->
  tick_size_of s ei = Some (PyNum t) ->
  LimitOrderManager._validate_price_precision self s p
    {| trace := tr; log := lg |} =
  match LimitOrderManager.rounded_price p t with
  | Ok rounded =>
      if Float64.leb (Float64.abs (Float64.sub p rounded))
                     (LimitOrderManager.tolerance t)
      then (Ok true, {| trace := tr ++ [CallExchangeInfo]; log := lg |})
      else (Ok false,
            {| trace := tr ++ [CallExchangeInfo];
               log := lg ++
                      [(ERROR, PriceDoesNotMatchTickSize p t s rounded)] |})
  | Raise e =>
      (Ok false,
       {| trace := tr ++ [CallExchangeInfo];
          log := lg ++ [(ERROR, ErrorValidatingPricePrecision e)] |})
  end.
Proof.
  intros Hei Ht.
  unfold LimitOrderManager._validate_price_precision,
    BasicBot.get_symbol_info, try_except, bind, call_futures_exchange_info.
  simpl. rewrite Hei. simpl.
  unfold tick_size_of, metadata_of in Ht.
  destruct (BasicBot.find_symbol s (Api.symbols ei)) as [info|];
    [|discriminate].
  unfold filter_of_type in Ht.
  destruct (find _ (Api.filters info)) as [f|] eqn:Hf; [|discriminate].
  rewrite (validate_price_filters_found s p t _ f _ Hf Ht).
  destruct (LimitOrderManager.rounded_price p t) as [r|e]; simpl;
    [|reflexivity].
  destruct (Float64.leb _ _); reflexivity.
Qed.

(** The verdict of the limit-order validation against a stable snapshot of
    the metadata, for a trading symbol with numeric minimum and tick. *)
Lemma validate_limit_result (self : LimitOrderManager.LimitOrderManager)
      (s side : string) (q p m t : float) (ei : Api.ExchangeInfo) (w : World) :
  (forall tr,
      futures_exchange_info (BasicBot.client (LimitOrderManager.bot self)) tr
      = Ok ei) ->
  str_in (upper s) (trading_symbols ei) = true ->
  min_qty_of s ei = Some (PyNum m) ->
  tick_size_of s ei = Some (PyNum t) ->
  fst (LimitOrderManager._validate_limit_order_inputs self s side q p w) =
  Ok (str_in (upper side) ["BUY"; "SELL"]%string
      && negb (Float64.leb q Float64.zero)
      && Float64.geb q m
      && negb (Float64.leb p Float64.zero)
      && match tick_test p t with Ok b => b | Raise _ => false end).
Proof.
  intros Hei Hsym Hm Ht.
  unfold LimitOrderManager._validate_limit_order_inputs, bind, tick_test.
  change (Float64.of_Z 0) with Float64.zero.
  rewrite validate_symbol_run, Hei, Hsym. cbn [negb].
  destruct (str_in (upper side) _); cbn [negb andb]; [|reflexivity].
  destruct (Float64.leb q Float64.zero); cbn [negb andb]; [reflexivity|].
  rewrite (validate_quantity_found _ s q m ei _ _ (Hei _) Hm).
  destruct (Float64.geb q m); cbn [negb andb]; [|reflexivity].
  destruct (Float64.leb p Float64.zero); cbn [negb andb]; [reflexivity|].
  rewrite (validate_price_precision_run self s p t ei _ _ (Hei _) Ht).
  destruct (LimitOrderManager.rounded_price p t) as [r|e]; [|reflexivity].
  destruct (Float64.leb _ _); reflexivity.
Qed.

(** When the validation passes and the gateway accepts the submission, the
    limit order is placed and the record carries the quantity and the
    price. *)
Lemma place_limit_accepted (self : LimitOrderManager.LimitOrderManager)
      (s side : string) (q p : float) (w : World) :
  fst (LimitOrderManager._validate_limit_order_inputs self s side q p w)
  = Ok true ->
  (forall tr req,
      exists order oid,
        futures_create_order (BasicBot.client (LimitOrderManager.bot self))
                             tr req = Ok order
        /\ Api.orderId order = Some oid) ->
  exists r,
    fst (LimitOrderManager.place_limit_order self s side q p w) = Ok (Some r)
    /\ LimitOrderManager.quantity r = q
    /\ LimitOrderManager.price r = p.
Proof.
  intros Hv Hc.
  unfold LimitOrderManager.place_limit_order,
    LimitOrderManager._get_order_status, try_except, bind,
    call_futures_create_order, call_futures_get_order.
  destruct (LimitOrderManager._validate_limit_order_inputs self s side q p w)
    as [v w1]. simpl in Hv. subst v. simpl.
  destruct (Hc (trace w1) (limit_request s side q p))
    as (order & oid & Ho & Hid).
  fold (limit_request s side q p). rewrite Ho. simpl. rewrite Hid. simpl.
  destruct (futures_get_order _ _ _ _) as [info|e]; simpl; eauto.
Qed.

(** C5: against a gateway that serves the mocked metadata (BTCUSDT, trading,
    minimum quantity 0.001, tick size 0.01) and accepts every submission,
    the limit order for 0.001 at 100.00 returns a record whose quantity is
    0.001 and whose price is 100.00; the order for 0.0005 at 100.00 and the
    order for 0.001 at 100.005 return [None]. *)
Theorem limit_order_scenario (self : LimitOrderManager.LimitOrderManager)
        (w : World) :
  (forall tr,
      futures_exchange_info (BasicBot.client (LimitOrderManager.bot self)) tr
      = Ok (mock_exchange_info tick_0_01)) ->
  (forall tr req,
      exists order oid,
        futures_create_order (BasicBot.client (LimitOrderManager.bot self))
                             tr req = Ok order
        /\ Api.orderId order = Some oid) ->
  (exists r,
      fst (LimitOrderManager.place_limit_order self "BTCUSDT" "buy"
             (Float64.decimal 1 3) (Float64.decimal 10000 2) w) = Ok (Some r)
      /\ LimitOrderManager.quantity r = Float64.decimal 1 3
      /\ LimitOrderManager.price r = Float64.decimal 10000 2)
  /\ fst (LimitOrderManager.place_limit_order self "BTCUSDT" "buy"
            (Float64.decimal 5 4) (Float64.decimal 10000 2) w) = Ok None
  /\ fst (LimitOrderManager.place_limit_order self "BTCUSDT" "buy"
            (Float64.decimal 1 3) (Float64.decimal 100005 3) w) = Ok None.
Proof.
  intros Hei Hc.
  assert (Hv : forall q p,
             fst (LimitOrderManager._validate_limit_order_inputs
                    self "BTCUSDT" "buy" q p w) =
             Ok (str_in (upper "buy") ["BUY"; "SELL"]%string
                 && negb (Float64.leb q Float64.zero)
                 && Float64.geb q (Float64.decimal 1 3)
                 && negb (Float64.leb p Float64.zero)
                 && match tick_test p (Float64.decimal 1 2) with
                    | Ok b => b
                    | Raise _ => false
                    end)).
  { intros q p.
    apply (validate_limit_result self "BTCUSDT" "buy" q p _ _
                                 (mock_exchange_info tick_0_01) w Hei);
      reflexivity. }
  split; [|split].
  - apply place_limit_accepted; [|exact Hc].
    rewrite Hv. vm_compute. reflexivity.
  - apply place_limit_rejected.
    rewrite Hv. vm_compute. reflexivity.
  - apply place_limit_rejected.
    rewrite Hv. vm_compute. reflexivity.
Qed.

(** The mocked client is such a gateway. *)
Lemma limit_order_scenario_witness :
  (exists r,
      fst (LimitOrderManager.place_limit_order
             (limit_of (mock_client tick_0_01)) "BTCUSDT" "buy"
             (Float64.decimal 1 3) (Float64.decimal 10000 2) empty_world)
      = Ok (Some r)
      /\ LimitOrderManager.quantity r = Float64.decimal 1 3
      /\ LimitOrderManager.price r = Float64.decimal 10000 2)
  /\ fst (LimitOrderManager.place_limit_order
            (limit_of (mock_client tick_0_01)) "BTCUSDT" "buy"
            (Float64.decimal 5 4) (Float64.decimal 10000 2) empty_world)
     = Ok None
  /\ fst (LimitOrderManager.place_limit_order
            (limit_of (mock_client tick_0_01)) "BTCUSDT" "buy"
            (Float64.decimal 1 3) (Float64.decimal 100005 3) empty_world)
     = Ok None.
Proof.
  apply (limit_order_scenario (limit_of (mock_client tick_0_01)) empty_world).
  - intros tr. reflexivity.
  - intros tr req. exists mock_order, 12345. split; reflexivity.
Defined.

(** ** Rounding to binary64 *)

Lemma iter_pos_iter {A : Type} (f : A -> A) (p : positive) (x : A) :
  iter_pos f p x = Pos.iter f x p.
Proof.
  revert x. induction p as [p IH|p IH|]; intros x; simpl.
  - now rewrite !IH, !Pos.iter_swap.
  - now rewrite !IH.
  - reflexivity.
Qed.

Lemma shr_shl (m p : positive) :
  iter_pos shr_1 p
    {| shr_m := Zpos (Pos.iter xO m p); shr_r := false; shr_s := false |} =
  {| shr_m := Zpos m; shr_r := false; shr_s := false |}.
Proof.
  rewrite iter_pos_iter.
  induction p as [|p IH] using Pos.peano_ind.
  - reflexivity.
  - rewrite Pos.iter_succ_r, Pos.iter_succ. simpl. exact IH.
Qed.

Lemma digits2_shl (m p : positive) :
  Zpos (digits2_pos (Pos.iter xO m p)) = Zpos (digits2_pos m) + Zpos p.
Proof.
  induction p as [|p IH] using Pos.peano_ind.
  - simpl. lia.
  - rewrite Pos.iter_succ. simpl digits2_pos. lia.
Qed.

Lemma Zpos_shl (m : positive) (n : Z) :
  0 <= n -> Zpos (shl m n) = Zpos m * 2 ^ n.
Proof.
  intros Hn. destruct n as [|p|p]; simpl shl; [lia| |lia].
  clear Hn. induction p as [|p IH] using Pos.peano_ind.
  - simpl. lia.
  - rewrite Pos.iter_succ, Pos2Z.inj_succ, Z.pow_succ_r by lia.
    rewrite Pos2Z.inj_xO, IH. ring.
Qed.

Lemma digits2_shl_Z (m : positive) (n : Z) :
  0 <= n -> Zpos (digits2_pos (shl m n)) = Zpos (digits2_pos m) + n.
Proof.
  intros Hn. destruct n as [|p|p]; simpl shl; [lia| |lia].
  apply digits2_shl.
Qed.

Lemma fexp_eq (e : Z) :
  fexp Float64.prec Float64.emax e = Z.max (e - 53) (-1074).
Proof. reflexivity. Qed.

(** Rounding a number that is in the format returns the number. *)
Lemma binary_round_aux_exact (s : bool) (m : positive) (e n : Z) :
  bounded Float64.prec Float64.emax m e = true ->
  0 <= n ->
  binary_round_aux Float64.prec Float64.emax s (Zpos (shl m n)) (e - n)
                   loc_Exact = S754_finite s m e.
Proof.
  intros Hb Hn.
  unfold bounded, canonical_mantissa in Hb.
  apply andb_true_iff in Hb. destruct Hb as [Hc He].
  apply Z.eqb_eq in Hc. apply Z.leb_le in He.
  unfold binary_round_aux, shr_fexp, Zdigits2.
  rewrite (digits2_shl_Z m n Hn).
  replace (Zpos (digits2_pos m) + n + (e - n)) with (Zpos (digits2_pos m) + e)
    by ring.
  rewrite Hc.
  replace (e - (e - n)) with n by ring.
  assert (Hshr : shr (shr_record_of_loc (Zpos (shl m n)) loc_Exact) (e - n) n =
                 ({| shr_m := Zpos m; shr_r := false; shr_s := false |}, e)).
  { destruct n as [|p|p]; simpl; [f_equal; ring| |lia].
    rewrite shr_shl. f_equal. ring. }
  rewrite Hshr.
  cbn [shr_m loc_of_shr_record shr_r shr_s round_nearest_even shr_fexp
       shr_record_of_loc Zdigits2 fst snd].
  rewrite Hc, Z.sub_diag.
  cbn [shr shr_m].
  apply Z.leb_le in He. now rewrite He.
Qed.

Lemma digits2_pos_bounds (m : positive) :
  2 ^ (Zpos (digits2_pos m) - 1) <= Zpos m < 2 ^ Zpos (digits2_pos m).
Proof.
  induction m as [m IH|m IH|]; simpl digits2_pos.
  - rewrite Pos2Z.inj_succ, Z.pow_succ_r by lia.
    replace (Z.succ (Zpos (digits2_pos m)) - 1)
      with (Z.succ (Zpos (digits2_pos m) - 1)) by lia.
    rewrite Z.pow_succ_r by lia. lia.
  - rewrite Pos2Z.inj_succ, Z.pow_succ_r by lia.
    replace (Z.succ (Zpos (digits2_pos m)) - 1)
      with (Z.succ (Zpos (digits2_pos m) - 1)) by lia.
    rewrite Z.pow_succ_r by lia. lia.
  - simpl. lia.
Qed.

Lemma digits2_pos_le (m : positive) (d : Z) :
  Zpos m < 2 ^ d -> Zpos (digits2_pos m) <= d.
Proof.
  intros H. destruct (Z.le_gt_cases (Zpos (digits2_pos m)) d) as [|Hgt]; auto.
  exfalso.
  pose proof (digits2_pos_bounds m) as [Hlo _].
  assert (2 ^ d <= 2 ^ (Zpos (digits2_pos m) - 1)).
  { destruct (Z.le_gt_cases 0 d).
    - apply Z.pow_le_mono_r; lia.
    - rewrite (Z.pow_neg_r 2 d) by lia. apply Z.pow_nonneg. lia. }
  lia.
Qed.

(** An integer below [2^53] converts to a finite float. *)
Lemma binary_round_small (s : bool) (m : positive) :
  Zpos (digits2_pos m) <= 53 ->
  exists m' e',
    binary_round Float64.prec Float64.emax s m 0 = S754_finite s m' e'
    /\ bounded Float64.prec Float64.emax m' e' = true.
Proof.
  intros Hd.
  unfold binary_round. rewrite Z.add_0_r, fexp_eq.
  pose proof (Pos2Z.is_pos (digits2_pos m)) as Hpos.
  rewrite Z.max_l by lia.
  unfold shl_align. rewrite Z.sub_0_r.
  destruct (Zpos (digits2_pos m) - 53) as [|k|k] eqn:Hk; try lia.
  - exists m, 0.
    assert (Hb : bounded Float64.prec Float64.emax m 0 = true).
    { unfold bounded, canonical_mantissa. rewrite Z.add_0_r, fexp_eq.
      rewrite Z.max_l by lia. rewrite Hk. reflexivity. }
    split; [|exact Hb].
    exact (binary_round_aux_exact s m 0 0 Hb (Z.le_refl 0)).
  - exists (Pos.iter xO m k), (Zneg k).
    assert (Hb : bounded Float64.prec Float64.emax (Pos.iter xO m k) (Zneg k)
                 = true).
    { unfold bounded, canonical_mantissa. rewrite digits2_shl, fexp_eq.
      apply andb_true_iff. split.
      - apply Z.eqb_eq. lia.
      - apply Z.leb_le. unfold Float64.emax, Float64.prec. lia. }
    split; [|exact Hb].
    pose proof (binary_round_aux_exact s (Pos.iter xO m k) (Zneg k) 0 Hb
                                       (Z.le_refl 0)) as H.
    rewrite Z.sub_0_r in H. exact H.
Qed.

(** The integer [m * 2^e] of a float with a non-negative exponent converts
    back to that float. *)
Lemma binary_round_integer (s : bool) (m : positive) (e : Z) :
  bounded Float64.prec Float64.emax m e = true ->
  0 <= e ->
  binary_round Float64.prec Float64.emax s (shl m e) 0 = S754_finite s m e.
Proof.
  intros Hb He.
  pose proof Hb as Hb'.
  unfold bounded, canonical_mantissa in Hb'.
  apply andb_true_iff in Hb'. destruct Hb' as [Hc _]. apply Z.eqb_eq in Hc.
  unfold binary_round. rewrite Z.add_0_r, (digits2_shl_Z m e He), Hc.
  unfold shl_align. rewrite Z.sub_0_r.
  pose proof (binary_round_aux_exact s m e e Hb He) as H.
  rewrite Z.sub_diag in H.
  destruct e as [|p|p]; try lia; exact H.
Qed.

Lemma round_half_even_bounds (m : positive) (e : Z) :
  e < 0 -> 0 <= round_half_even m e <= Zpos m / 2 + 1.
Proof.
  intros He. destruct e as [|p|p]; try lia.
  unfold round_half_even.
  assert (Hd : 2 <= 2 ^ (- Zneg p)).
  { change 2 with (2 ^ 1) at 1. apply Z.pow_le_mono_r; lia. }
  set (d := 2 ^ (- Zneg p)) in *.
  assert (Hq : 0 <= Zpos m / d <= Zpos m / 2).
  { split.
    - apply Z.div_pos; lia.
    - apply Z.div_le_compat_l; lia. }
  destruct (2 * (Zpos m mod d) ?= d); [destruct (Z.even _)| |]; lia.
Qed.

(** On a finite float, [round] returns an int whose conversion back to float
    is finite. *)
Lemma round_then_float (q : float) :
  Float64.is_finite q = true ->
  exists k x,
    round q = Ok k /\ int_to_float k = Ok x /\ Float64.is_finite x = true.
Proof.
  destruct q as [s|s| |s m e]; simpl; try discriminate; intros Hb.
  - exists 0, Float64.zero. repeat split.
  - exists (cond_Zopp s (round_half_even m e)).
    destruct (Z.le_gt_cases 0 e) as [He|He].
    + exists (S754_finite s m e).
      assert (Hk : round_half_even m e = Zpos (shl m e)).
      { destruct e as [|p|p]; try lia; try reflexivity.
        rewrite (Zpos_shl m (Zpos p)) by lia. reflexivity. }
      rewrite Hk.
      assert (Hof : Float64.of_Z (cond_Zopp s (Zpos (shl m e))) =
                    S754_finite s m e).
      { unfold Float64.of_Z.
        destruct s; cbn [cond_Zopp Z.opp binary_normalize];
          apply binary_round_integer; auto. }
      unfold int_to_float. rewrite Hof. simpl. auto.
    + pose proof (round_half_even_bounds m e He) as [Hlo Hhi].
      assert (Hm : Zpos m < 2 ^ 53).
      { unfold bounded, canonical_mantissa in Hb.
        apply andb_true_iff in Hb. destruct Hb as [Hc _].
        apply Z.eqb_eq in Hc. rewrite fexp_eq in Hc.
        pose proof (digits2_pos_bounds m) as [_ Hup].
        eapply Z.lt_le_trans; [exact Hup|].
        apply Z.pow_le_mono_r; lia. }
      assert (Hk : round_half_even m e < 2 ^ 53).
      { assert (Zpos m / 2 < 2 ^ 52).
        { apply Z.div_lt_upper_bound; [lia|].
          change (2 * 2 ^ 52) with (2 ^ 53). exact Hm. }
        change (2 ^ 53) with (2 ^ 52 + 2 ^ 52). lia. }
      destruct (round_half_even m e) as [|k|k] eqn:Ek; try lia.
      * exists Float64.zero. destruct s; repeat split.
      * destruct (binary_round_small s k (digits2_pos_le k 53 Hk))
          as (m' & e' & Hr & Hb').
        exists (S754_finite s m' e').
        unfold int_to_float, Float64.of_Z.
        destruct s; cbn [cond_Zopp Z.opp binary_normalize]; rewrite Hr;
          simpl; auto.
Qed.

(** Rounding a positive mantissa never produces a NaN and keeps the sign. *)
Lemma shr_1_nonneg (r : shr_record) : 0 <= shr_m r -> 0 <= shr_m (shr_1 r).
Proof.
  destruct r as [m r s]. simpl.
  destruct m as [|[p|p|]|p]; simpl; lia.
Qed.

Lemma shr_nonneg (r : shr_record) (e n : Z) :
  0 <= shr_m r -> 0 <= shr_m (fst (shr r e n)).
Proof.
  intros H. destruct n as [|p|p]; simpl; auto.
  rewrite iter_pos_iter.
  apply Pos.iter_invariant; auto using shr_1_nonneg.
Qed.

Lemma shr_fexp_nonneg (m e : Z) (l : location) :
  0 <= m ->
  0 <= shr_m (fst (shr_fexp Float64.prec Float64.emax m e l)).
Proof.
  intros H. unfold shr_fexp. apply shr_nonneg.
  destruct l as [|[]]; exact H.
Qed.

Lemma round_nearest_even_nonneg (m : Z) (l : location) :
  0 <= m -> 0 <= round_nearest_even m l.
Proof.
  intros H. destruct l as [|[]]; simpl; try destruct (Z.even m); lia.
Qed.

Lemma binary_round_aux_cases (s : bool) (m : positive) (e : Z) (l : location) :
  binary_round_aux Float64.prec Float64.emax s (Zpos m) e l = S754_zero s
  \/ binary_round_aux Float64.prec Float64.emax s (Zpos m) e l
     = S754_infinity s
  \/ exists m' e',
      binary_round_aux Float64.prec Float64.emax s (Zpos m) e l
      = S754_finite s m' e'.
Proof.
  unfold binary_round_aux.
  pose proof (shr_fexp_nonneg (Zpos m) e l (Pos2Z.is_nonneg m)) as H1.
  destruct (shr_fexp Float64.prec Float64.emax (Zpos m) e l) as [r1 e1].
  simpl in H1.
  pose proof (shr_fexp_nonneg _ e1 loc_Exact
                (round_nearest_even_nonneg _ (loc_of_shr_record r1) H1)) as H2.
  destruct (shr_fexp Float64.prec Float64.emax
                     (round_nearest_even (shr_m r1) (loc_of_shr_record r1))
                     e1 loc_Exact) as [r2 e2].
  simpl in H2.
  destruct (shr_m r2) as [|m2|m2]; [auto| |lia].
  destruct (e2 <=? Float64.emax - Float64.prec); eauto.
Qed.

(** The tolerance of a positive tick is not negative. *)
Lemma tolerance_nonneg (t : float) :
  Float64.ltb Float64.zero t = true ->
  Float64.leb Float64.zero (LimitOrderManager.tolerance t) = true.
Proof.
  destruct t as [s|[]| |[] m e]; try discriminate; intros _.
  - reflexivity.
  - unfold LimitOrderManager.tolerance, Float64.mul, Float64.lit_1e_10, SFmul.
    cbn [xorb].
    destruct (binary_round_aux_cases false (m * 7737125245533627)
                                     (e + -86) loc_Exact)
      as [H|[H|(m' & e' & H)]]; rewrite H; reflexivity.
Qed.

(** A finite float minus itself is zero. *)
Lemma sub_diag_finite (s : bool) (m : positive) (e : Z) :
  Float64.sub (S754_finite s m e) (S754_finite s m e) = S754_zero false.
Proof.
  unfold Float64.sub, SFsub. rewrite Z.sub_diag. reflexivity.
Qed.

(** [==] on a positive finite float is equality. *)
Lemma eqb_finite_eq (m : positive) (e : Z) (r : float) :
  Float64.eqb (S754_finite false m e) r = true -> r = S754_finite false m e.
Proof.
  unfold Float64.eqb, SFeqb.
  destruct r as [s|[]| |[] m2 e2]; simpl; try discriminate.
  destruct (Z.compare_spec e e2) as [->|H|H]; try discriminate.
  change (Pos.compare_cont Eq m m2) with (Pos.compare m m2).
  destruct (Pos.compare_spec m m2) as [->|H|H]; try discriminate.
  reflexivity.
Qed.

Lemma rounded_price_total (p t : float) :
  Float64.ltb Float64.zero t = true ->
  Float64.is_finite (Float64.div p t) = true ->
  exists k x,
    round (Float64.div p t) = Ok k
    /\ int_to_float k = Ok x
    /\ LimitOrderManager.rounded_price p t = Ok (Float64.mul x t).
Proof.
  intros Ht Hq.
  destruct (round_then_float _ Hq) as (k & x & Hk & Hx & _).
  exists k, x. repeat split; auto.
  unfold LimitOrderManager.rounded_price, truediv, int_mul_float.
  assert (Hz : Float64.is_zero t = false)
    by (destruct t as [?|[]| |[] ? ?]; try discriminate; reflexivity).
  now rewrite Hz, Hk, Hx.
Qed.

Lemma shl_shl (m : positive) (a b : Z) :
  0 <= a -> 0 <= b -> shl (shl m a) b = shl m (a + b).
Proof.
  intros Ha Hb.
  apply Pos2Z.inj. rewrite !Zpos_shl by lia.
  rewrite Z.pow_add_r by lia. ring.
Qed.

(** Every positive number is an odd number times a power of two. *)
Lemma odd_part (m : positive) :
  exists o v, 0 <= v /\ m = shl o v /\ Z.odd (Zpos o) = true.
Proof.
  induction m as [m IH|m IH|].
  - exists (xI m), 0. repeat split. lia.
  - destruct IH as (o & v & Hv & Hm & Ho).
    exists o, (v + 1). repeat split; [lia| |exact Ho].
    apply Pos2Z.inj. rewrite Zpos_shl by lia.
    rewrite Pos2Z.inj_xO, Hm, Zpos_shl by lia.
    rewrite Z.pow_add_r by lia. ring.
  - exists xH, 0. repeat split. lia.
Qed.

Lemma odd_times_pow2 (o x : Z) :
  0 < x -> Z.odd (o * 2 ^ x) = false.
Proof.
  intros Hx. replace x with (Z.succ (x - 1)) by lia.
  rewrite Z.pow_succ_r by lia.
  rewrite Z.odd_mul, Z.odd_mul. simpl. now rewrite andb_false_r.
Qed.

Lemma odd_unique (o1 o2 x y : Z) :
  Z.odd o1 = true -> Z.odd o2 = true -> 0 <= x -> 0 <= y ->
  o1 * 2 ^ x = o2 * 2 ^ y -> o1 = o2 /\ x = y.
Proof.
  intros H1 H2 Hx Hy H.
  assert (Hp : forall n, 0 <= n -> 0 < 2 ^ n) by (intros; apply Z.pow_pos_nonneg; lia).
  destruct (Z.lt_trichotomy x y) as [Hlt|[Heq|Hgt]].
  - exfalso.
    replace y with (x + (y - x)) in H by lia.
    rewrite Z.pow_add_r in H by lia.
    assert (o1 = o2 * 2 ^ (y - x)).
    { apply (Z.mul_cancel_r _ _ (2 ^ x)); [specialize (Hp x Hx); lia|].
      rewrite H. ring. }
    subst o1. rewrite odd_times_pow2 in H1 by lia. discriminate.
  - subst y. split; [|reflexivity].
    apply (Z.mul_cancel_r _ _ (2 ^ x)); [specialize (Hp x Hx); lia|exact H].
  - exfalso.
    replace x with (y + (x - y)) in H by lia.
    rewrite Z.pow_add_r in H by lia.
    assert (o2 = o1 * 2 ^ (x - y)).
    { apply (Z.mul_cancel_r _ _ (2 ^ y)); [specialize (Hp y Hy); lia|].
      rewrite <- H. ring. }
    subst o2. rewrite odd_times_pow2 in H2 by lia. discriminate.
Qed.

Lemma digits2_pos_mul (a b : positive) :
  Zpos (digits2_pos (a * b)) <= Zpos (digits2_pos a) + Zpos (digits2_pos b).
Proof.
  apply digits2_pos_le.
  pose proof (digits2_pos_bounds a) as [_ Ha].
  pose proof (digits2_pos_bounds b) as [_ Hb].
  rewrite Z.pow_add_r by lia. rewrite Pos2Z.inj_mul.
  apply Z.mul_lt_mono_nonneg; lia.
Qed.

Lemma digits2_pos_mono (a b : positive) :
  (a <= b)%positive -> Zpos (digits2_pos a) <= Zpos (digits2_pos b).
Proof.
  intros H. apply digits2_pos_le.
  pose proof (digits2_pos_bounds b) as [_ Hb]. lia.
Qed.

(** Rounding [m * 2^n] at exponent [e], for a mantissa [m] that is canonical
    at exponent [e + n], only moves the exponent. *)
Lemma binary_round_aux_shl (s : bool) (m : positive) (e n : Z) :
  0 <= n ->
  canonical_mantissa Float64.prec Float64.emax m (e + n) = true ->
  binary_round_aux Float64.prec Float64.emax s (Zpos (shl m n)) e loc_Exact =
  if e + n <=? Float64.emax - Float64.prec
  then S754_finite s m (e + n)
  else S754_infinity s.
Proof.
  intros Hn Hc.
  unfold canonical_mantissa in Hc. apply Z.eqb_eq in Hc.
  unfold binary_round_aux, shr_fexp, Zdigits2.
  rewrite (digits2_shl_Z m n Hn).
  replace (Zpos (digits2_pos m) + n + e) with (Zpos (digits2_pos m) + (e + n))
    by ring.
  rewrite Hc.
  replace (e + n - e) with n by ring.
  assert (Hshr : shr (shr_record_of_loc (Zpos (shl m n)) loc_Exact) e n =
                 ({| shr_m := Zpos m; shr_r := false; shr_s := false |},
                  e + n)).
  { destruct n as [|p|p]; simpl; [f_equal; ring| |lia].
    now rewrite shr_shl. }
  rewrite Hshr.
  cbn [shr_m loc_of_shr_record shr_r shr_s round_nearest_even shr_fexp
       shr_record_of_loc Zdigits2 fst snd].
  rewrite Hc, Z.sub_diag.
  reflexivity.
Qed.

Lemma div_eucl_exact (q b : Z) :
  0 < b -> Z.div_eucl (q * b) b = (q, 0).
Proof.
  intros Hb.
  pose proof (Z.div_mul q b ltac:(lia)) as Hd.
  pose proof (Z.mod_mul q b ltac:(lia)) as Hm.
  unfold Z.div, Z.modulo in Hd, Hm.
  destruct (Z.div_eucl (q * b) b) as [q' r']. now subst.
Qed.

(** The conversion of an int below [2^53], spelled out. *)
Lemma binary_round_small_eq (s : bool) (m : positive) :
  Zpos (digits2_pos m) <= 53 ->
  binary_round Float64.prec Float64.emax s m 0 =
  S754_finite s (shl m (53 - Zpos (digits2_pos m)))
              (Zpos (digits2_pos m) - 53).
Proof.
  intros Hd.
  unfold binary_round. rewrite Z.add_0_r, fexp_eq.
  pose proof (Pos2Z.is_pos (digits2_pos m)) as Hpos.
  rewrite Z.max_l by lia.
  unfold shl_align. rewrite Z.sub_0_r.
  assert (Hc : canonical_mantissa Float64.prec Float64.emax
                 (shl m (53 - Zpos (digits2_pos m)))
                 (Zpos (digits2_pos m) - 53) = true).
  { unfold canonical_mantissa. rewrite digits2_shl_Z, fexp_eq by lia.
    apply Z.eqb_eq. lia. }
  assert (Hle : (Zpos (digits2_pos m) - 53 <=? Float64.emax - Float64.prec)
                = true)
    by (apply Z.leb_le; unfold Float64.emax, Float64.prec; lia).
  destruct (Zpos (digits2_pos m) - 53) as [|k|k] eqn:Hk; try lia.
  - replace (53 - Zpos (digits2_pos m)) with 0 in * by lia.
    pose proof (binary_round_aux_shl s m 0 0 (Z.le_refl 0) Hc) as H.
    simpl in H. exact H.
  - replace (53 - Zpos (digits2_pos m)) with (Zpos k) in * by lia.
    pose proof (binary_round_aux_shl s (shl m (Zpos k)) (Zneg k) 0
                                     (Z.le_refl 0)) as H.
    rewrite Z.add_0_r in H. specialize (H Hc). cbn [shl] in H.
    cbn [shl]. rewrite H. now rewrite Hle.
Qed.

(** ** Exact multiples of the tick *)

(** The odd parts and the exponents of an exact multiple. *)
Lemma exact_multiple_odd_parts (mp mt : positive) (ep et k : Z) :
  exact_multiple (S754_finite false mp ep) (S754_finite false mt et) k ->
  exists op vp ot vt ok ak,
    0 <= vp /\ 0 <= vt /\ 0 <= ak
    /\ mp = shl op vp /\ mt = shl ot vt /\ k = Zpos (shl ok ak)
    /\ op = (ok * ot)%positive
    /\ vp + ep = ak + vt + et.
Proof.
  unfold exact_multiple. cbn [cond_Zopp].
  set (e0 := Z.min ep et). intros H.
  assert (Hp : forall n, 0 <= n -> 0 < 2 ^ n)
    by (intros; apply Z.pow_pos_nonneg; lia).
  assert (Ha : 0 <= ep - e0) by (unfold e0; lia).
  assert (Hb : 0 <= et - e0) by (unfold e0; lia).
  pose proof (Hp _ Ha). pose proof (Hp _ Hb).
  destruct k as [|kp|kn]; [nia| |nia].
  destruct (odd_part mp) as (op & vp & Hvp & Hmp & Hop).
  destruct (odd_part mt) as (ot & vt & Hvt & Hmt & Hot).
  destruct (odd_part kp) as (ok & ak & Hak & Hkp & Hok).
  exists op, vp, ot, vt, ok, ak.
  assert (Heq : Zpos op * 2 ^ (vp + (ep - e0)) =
                Zpos (ok * ot) * 2 ^ (ak + vt + (et - e0))).
  { rewrite !Z.pow_add_r by lia.
    rewrite Hmp, Hmt, Hkp, !Zpos_shl in H by lia.
    rewrite Pos2Z.inj_mul.
    transitivity (Zpos op * 2 ^ vp * 2 ^ (ep - e0)); [ring|].
    rewrite H. ring. }
  assert (Hodd : Z.odd (Zpos (ok * ot)) = true)
    by (rewrite Pos2Z.inj_mul, Z.odd_mul, Hok, Hot; reflexivity).
  assert (Hx : 0 <= vp + (ep - e0)) by lia.
  assert (Hy : 0 <= ak + vt + (et - e0)) by lia.
  destruct (odd_unique _ _ _ _ Hop Hodd Hx Hy Heq) as [Ho He].
  injection Ho as Ho.
  repeat split; try assumption; try lia.
Qed.

Lemma round_half_even_shl (o : positive) (a E : Z) :
  0 <= a -> E <= a ->
  round_half_even (shl o (a - E)) E = Zpos (shl o a).
Proof.
  intros Ha HE.
  assert (Hp : forall n, 0 <= n -> 0 < 2 ^ n)
    by (intros; apply Z.pow_pos_nonneg; lia).
  assert (Hm : forall n, 0 <= n ->
               Zpos (shl o (a + n)) = Zpos (shl o a) * 2 ^ n).
  { intros n Hn. rewrite !Zpos_shl by lia.
    rewrite Z.pow_add_r by lia. ring. }
  destruct E as [|p|p]; unfold round_half_even.
  - now rewrite Z.sub_0_r.
  - rewrite !Zpos_shl by lia.
    rewrite <- Z.mul_assoc, <- Z.pow_add_r by lia.
    f_equal. f_equal. lia.
  - replace (a - Zneg p) with (a + Zpos p) by lia.
    change (- Zneg p) with (Zpos p).
    pose proof (Hp (Zpos p) ltac:(lia)) as Hd.
    rewrite (Hm (Zpos p)) by lia.
    rewrite Z.div_mul, Z.mod_mul by lia.
    rewrite Z.mul_0_r.
    destruct (Z.compare_spec 0 (2 ^ Zpos p)); lia.
Qed.

(** The rounded price of an exact multiple of the tick is the price. *)
Lemma rounded_price_exact_multiple (mp mt : positive) (ep et k : Z) :
  bounded Float64.prec Float64.emax mp ep = true ->
  bounded Float64.prec Float64.emax mt et = true ->
  exact_multiple (S754_finite false mp ep) (S754_finite false mt et) k ->
  Float64.is_finite
    (Float64.div (S754_finite false mp ep) (S754_finite false mt et)) = true ->
  LimitOrderManager.rounded_price (S754_finite false mp ep)
                                  (S754_finite false mt et)
  = Ok (S754_finite false mp ep).
Proof.
  intros Hbp Hbt Hk Hfin.
  destruct (exact_multiple_odd_parts mp mt ep et k Hk)
    as (op & vp & ot & vt & ok & ak & Hvp & Hvt & Hak & Hmp & Hmt & Hkk
        & Hop & Hexp).
  assert (Hdp : Zpos (digits2_pos mp) = Zpos (digits2_pos op) + vp)
    by (rewrite Hmp; apply digits2_shl_Z; lia).
  assert (Hdt : Zpos (digits2_pos mt) = Zpos (digits2_pos ot) + vt)
    by (rewrite Hmt; apply digits2_shl_Z; lia).
  pose proof (Pos2Z.is_pos (digits2_pos op)) as Hdop0.
  pose proof (Pos2Z.is_pos (digits2_pos ot)) as Hdot0.
  pose proof (Pos2Z.is_pos (digits2_pos ok)) as Hdok0.
  assert (Hcp : Zpos (digits2_pos mp) <= 53 /\ ep <= 971).
  { unfold bounded, canonical_mantissa in Hbp.
    apply andb_true_iff in Hbp. destruct Hbp as [Hc He].
    apply Z.eqb_eq in Hc. apply Z.leb_le in He. rewrite fexp_eq in Hc.
    unfold Float64.emax, Float64.prec in He. lia. }
  assert (Hdok : Zpos (digits2_pos ok) <= Zpos (digits2_pos op)).
  { apply digits2_pos_mono. rewrite Hop. nia. }
  assert (Hdop : Zpos (digits2_pos op) <=
                 Zpos (digits2_pos ok) + Zpos (digits2_pos ot))
    by (rewrite Hop; apply digits2_pos_mul).
  set (E := Zpos (digits2_pos ok) + ak - 53).
  assert (HE : E <= ak) by (unfold E; lia).
  set (mk := shl ok (ak - E)).
  assert (Hcan : canonical_mantissa Float64.prec Float64.emax mk E = true).
  { unfold canonical_mantissa, mk. rewrite digits2_shl_Z, fexp_eq by lia.
    apply Z.eqb_eq. unfold E. lia. }
  (* the quotient *)
  assert (Hdiv : Float64.div (S754_finite false mp ep)
                             (S754_finite false mt et) =
                 if E <=? Float64.emax - Float64.prec
                 then S754_finite false mk E else S754_infinity false).
  { unfold Float64.div, SFdiv, SFdiv_core_binary. cbv zeta.
    cbn [xorb Zdigits2].
    set (e' := Z.min (fexp Float64.prec Float64.emax
                           (Zpos (digits2_pos mp) + ep
                            - (Zpos (digits2_pos mt) + et)))
                     (ep - et)).
    assert (He' : e' <= E /\ e' <= ep - et).
    { unfold e'. rewrite fexp_eq. unfold E. lia. }
    assert (Hm' : match ep - et - e' with
                  | 0 => Zpos mp
                  | Zpos _ => Z.shiftl (Zpos mp) (ep - et - e')
                  | Zneg _ => 0
                  end = Zpos (shl ok (ak - e')) * Zpos mt).
    { transitivity (Zpos mp * 2 ^ (ep - et - e')).
      - destruct (ep - et - e') as [|s|s] eqn:Hs; try lia.
        rewrite Z.shiftl_mul_pow2 by lia. reflexivity.
      - rewrite Hmp, Hmt, !Zpos_shl by lia. rewrite Hop, Pos2Z.inj_mul.
        transitivity (Zpos ok * Zpos ot * 2 ^ (vp + (ep - et - e')));
          [rewrite Z.pow_add_r by lia; ring|].
        replace (vp + (ep - et - e')) with ((ak - e') + vt) by lia.
        rewrite Z.pow_add_r by lia. ring. }
    rewrite Hm', div_eucl_exact by lia.
    assert (Hloc : new_location (Zpos mt) 0 = loc_Exact)
      by (unfold new_location; destruct (Z.even _); reflexivity).
    rewrite Hloc.
    replace (shl ok (ak - e')) with (shl mk (E - e'))
      by (unfold mk; rewrite shl_shl by lia; f_equal; lia).
    rewrite binary_round_aux_shl.
    - replace (e' + (E - e')) with E by ring. reflexivity.
    - lia.
    - replace (e' + (E - e')) with E by ring. exact Hcan. }
  rewrite Hdiv in Hfin.
  destruct (E <=? Float64.emax - Float64.prec) eqn:HEmax; [|discriminate].
  assert (Hbk : bounded Float64.prec Float64.emax mk E = true)
    by (unfold bounded; now rewrite Hcan, HEmax).
  (* the int and its conversion *)
  assert (Hround : round (S754_finite false mk E) = Ok k).
  { unfold round. cbn [cond_Zopp]. f_equal.
    rewrite Hkk. unfold mk. apply round_half_even_shl; lia. }
  assert (Hfloat : int_to_float k = Ok (S754_finite false mk E)).
  { rewrite Hkk. unfold int_to_float, Float64.of_Z.
    cbn [binary_normalize].
    destruct (Z.le_gt_cases 0 E) as [HE0|HE0].
    - replace (shl ok ak) with (shl mk E)
        by (unfold mk; rewrite shl_shl by lia; f_equal; lia).
      now rewrite (binary_round_integer false mk E Hbk HE0).
    - rewrite binary_round_small_eq
        by (rewrite digits2_shl_Z by lia; unfold E in HE0; lia).
      rewrite digits2_shl_Z, shl_shl by (try rewrite digits2_shl_Z; lia).
      replace (ak + (53 - (Zpos (digits2_pos ok) + ak))) with (ak - E)
        by (unfold E; lia).
      replace (Zpos (digits2_pos ok) + ak - 53) with E by reflexivity.
      reflexivity. }
  (* the product *)
  assert (Hmul : Float64.mul (S754_finite false mk E)
                             (S754_finite false mt et) =
                 S754_finite false mp ep).
  { unfold Float64.mul, SFmul. cbn [xorb].
    assert (Hn : 0 <= ep - (E + et)) by (unfold E; lia).
    replace (mk * mt)%positive with (shl mp (ep - (E + et))).
    - pose proof (binary_round_aux_exact false mp ep (ep - (E + et)) Hbp Hn)
        as H.
      replace (ep - (ep - (E + et))) with (E + et) in H by ring. exact H.
    - apply Pos2Z.inj. rewrite Pos2Z.inj_mul. unfold mk.
      rewrite Hmp, Hmt, !Zpos_shl by lia. rewrite Hop, Pos2Z.inj_mul.
      transitivity (Zpos ok * Zpos ot * 2 ^ (vp + (ep - (E + et))));
        [rewrite Z.pow_add_r by lia; ring|].
      replace (vp + (ep - (E + et))) with ((ak - E) + vt) by lia.
      rewrite Z.pow_add_r by lia. ring. }
  unfold LimitOrderManager.rounded_price, truediv. cbn [Float64.is_zero].
  rewrite Hdiv, Hround. unfold int_mul_float. now rewrite Hfloat, Hmul.
Qed.

(** ** The tick test *)

(** X20: what the code computes.  For a symbol whose metadata has a
    PRICE_FILTER with a numeric tick size [t > 0], and a price [p > 0]: when
    the binary64 quotient [p / t] is finite, the check computes
    [rounded = round(p / t) * t], and its verdict is
    [abs(p - rounded) <= t * 1e-10], all in binary64 arithmetic; so it accepts
    every [p] that equals [rounded], among them every [p] that is, as a
    binary64 number, exactly [k] times the binary64 tick, and rejects every
    [p] whose distance to [rounded] exceeds [t * 1e-10].  When the quotient
    overflows to an infinity, [round] raises and the check rejects.  (A
    price on a decimal tick is in general not such a multiple: see
    [on_tick_price_is_rejected].) *)
Theorem price_precision_check (self : LimitOrderManager.LimitOrderManager)
        (s : string) (p t : float) (ei : Api.ExchangeInfo) (w : World) :
  futures_exchange_info
    (BasicBot.client (LimitOrderManager.bot self)) (trace w) = Ok ei ->
  tick_size_of s ei = Some (PyNum t) ->
  Float64.ltb Float64.zero t = true ->
  Float64.ltb Float64.zero p = true ->
  (Float64.is_finite (Float64.div p t) = true ->
   exists rounded,
     LimitOrderManager.rounded_price p t = Ok rounded
     /\ fst (LimitOrderManager._validate_price_precision self s p w) =
        Ok (Float64.leb (Float64.abs (Float64.sub p rounded))
                        (LimitOrderManager.tolerance t))
     /\ (Float64.eqb p rounded = true ->
         fst (LimitOrderManager._validate_price_precision self s p w)
         = Ok true)
     /\ (Float64.ltb (LimitOrderManager.tolerance t)
                     (Float64.abs (Float64.sub p rounded)) = true ->
         fst (LimitOrderManager._validate_price_precision self s p w)
         = Ok false)
     /\ (forall k,
            Float64.is_finite p = true ->
            Float64.is_finite t = true ->
            exact_multiple p t k ->
            rounded = p
            /\ fst (LimitOrderManager._validate_price_precision self s p w)
               = Ok true))
  /\ (forall sq,
         Float64.div p t = S754_infinity sq ->
         fst (LimitOrderManager._validate_price_precision self s p w)
         = Ok false).
Proof.
  intros Hei Htick Ht Hp.
  destruct w as [tr lg]. simpl in Hei.
  rewrite (validate_price_precision_run self s p t ei tr lg Hei Htick).
  split.
  - intros Hq.
    destruct (rounded_price_total p t Ht Hq) as (k & x & _ & _ & Hr).
    exists (Float64.mul x t). rewrite Hr.
    assert (Hres : fst (if Float64.leb
                          (Float64.abs (Float64.sub p (Float64.mul x t)))
                          (LimitOrderManager.tolerance t)
                    then (Ok true,
                          {| trace := tr ++ [CallExchangeInfo]; log := lg |})
                    else (Ok false,
                          {| trace := tr ++ [CallExchangeInfo];
                             log := lg ++
                                    [(ERROR,
                                      PriceDoesNotMatchTickSize
                                        p t s (Float64.mul x t))] |})) =
                   Ok (Float64.leb
                         (Float64.abs (Float64.sub p (Float64.mul x t)))
                         (LimitOrderManager.tolerance t)))
      by (destruct (Float64.leb _ _); reflexivity).
    rewrite Hres.
    assert (Heq : forall m e,
               p = S754_finite false m e ->
               Float64.mul x t = p ->
               Ok (Float64.leb
                     (Float64.abs (Float64.sub p (Float64.mul x t)))
                     (LimitOrderManager.tolerance t)) = Ok true).
    { intros m e -> ->. rewrite sub_diag_finite.
      simpl Float64.abs. f_equal. exact (tolerance_nonneg t Ht). }
    split; [reflexivity|]. split; [reflexivity|]. split; [|split].
    + intros He.
      destruct p as [?|[]| |[] m e]; try discriminate.
      * destruct t as [?|[]| |[] ? ?]; discriminate.
      * exact (Heq m e eq_refl (eqb_finite_eq m e _ He)).
    + intros Hlt. f_equal. exact (ltb_not_leb _ _ Hlt).
    + intros n Hfp Hft Hn.
      destruct p as [?|?| |[] mp ep]; try contradiction; try discriminate.
      destruct t as [?|?| |[] mt et]; try contradiction; try discriminate.
      simpl in Hfp, Hft.
      pose proof (rounded_price_exact_multiple mp mt ep et n Hfp Hft Hn Hq)
        as Hexact.
      rewrite Hr in Hexact. injection Hexact as Hexact.
      split; [exact Hexact|].
      exact (Heq mp ep eq_refl Hexact).
  - intros sq Hq.
    unfold LimitOrderManager.rounded_price, truediv.
    assert (Hz : Float64.is_zero t = false)
      by (destruct t as [?|[]| |[] ? ?]; try discriminate; reflexivity).
    rewrite Hz, Hq. reflexivity.
Qed.

(** On the mocked gateway with tick 0.01: the price 100.00 equals its
    rounded price and is accepted, the price 100.005 is at distance 0.005
    from its rounded price 100.0 and is rejected.  With tick 0.25, the price
    100.75 is 403 ticks and is accepted.  With tick [2^-1000], the quotient
    of the price [2^1000] overflows and the price is rejected. *)
Lemma price_precision_check_witness :
  fst (LimitOrderManager._validate_price_precision
         (limit_of (mock_client tick_0_01)) "BTCUSDT"
         (Float64.decimal 10000 2) empty_world) = Ok true
  /\ fst (LimitOrderManager._validate_price_precision
            (limit_of (mock_client tick_0_01)) "BTCUSDT"
            (Float64.decimal 100005 3) empty_world) = Ok false
  /\ fst (LimitOrderManager._validate_price_precision
            (limit_of (mock_client (PyNum (Float64.decimal 25 2)))) "BTCUSDT"
            (Float64.decimal 10075 2) empty_world) = Ok true
  /\ fst (LimitOrderManager._validate_price_precision
            (limit_of (mock_client (PyNum tick_2_pow_minus_1000))) "BTCUSDT"
            price_2_pow_1000 empty_world) = Ok false.
Proof.
  split; [|split; [|split]].
  - destruct (proj1 (price_precision_check
                       (limit_of (mock_client tick_0_01)) "BTCUSDT"%string
                       (Float64.decimal 10000 2) (Float64.decimal 1 2)
                       (mock_exchange_info tick_0_01) empty_world
                       eq_refl eq_refl eq_refl eq_refl) eq_refl)
      as (r & Hr & _ & Hacc & _).
    apply Hacc. vm_compute in Hr. injection Hr as <-. reflexivity.
  - destruct (proj1 (price_precision_check
                       (limit_of (mock_client tick_0_01)) "BTCUSDT"%string
                       (Float64.decimal 100005 3) (Float64.decimal 1 2)
                       (mock_exchange_info tick_0_01) empty_world
                       eq_refl eq_refl eq_refl eq_refl) eq_refl)
      as (r & Hr & _ & _ & Hrej & _).
    apply Hrej. vm_compute in Hr. injection Hr as <-. reflexivity.
  - destruct (proj1 (price_precision_check
                       (limit_of (mock_client (PyNum (Float64.decimal 25 2))))
                       "BTCUSDT"%string
                       (Float64.decimal 10075 2) (Float64.decimal 25 2)
                       (mock_exchange_info (PyNum (Float64.decimal 25 2)))
                       empty_world
                       eq_refl eq_refl eq_refl eq_refl) eq_refl)
      as (r & _ & _ & _ & _ & Hmul).
    apply (Hmul 403); vm_compute; reflexivity.
  - apply (proj2 (price_precision_check
                    (limit_of (mock_client (PyNum tick_2_pow_minus_1000)))
                    "BTCUSDT"%string price_2_pow_1000 tick_2_pow_minus_1000
                    (mock_exchange_info (PyNum tick_2_pow_minus_1000))
                    empty_world eq_refl eq_refl eq_refl eq_refl) false).
    reflexivity.
Defined.

(** The tick [2^-1000] and the price [2^1000] are positive binary64 numbers
    and the price is the tick times [2^2000], an exact multiple; the quotient
    overflows, [round] raises, and the check rejects the price without
    computing a rounded price. *)
Lemma price_precision_rejects_exact_multiple :
  Float64.is_finite tick_2_pow_minus_1000 = true
  /\ Float64.is_finite price_2_pow_1000 = true
  /\ Float64.ltb Float64.zero tick_2_pow_minus_1000 = true
  /\ Float64.ltb Float64.zero price_2_pow_1000 = true
  /\ exact_multiple price_2_pow_1000 tick_2_pow_minus_1000 (2 ^ 2000)
  /\ tick_size_of "BTCUSDT" (mock_exchange_info (PyNum tick_2_pow_minus_1000))
     = Some (PyNum tick_2_pow_minus_1000)
  /\ LimitOrderManager.rounded_price price_2_pow_1000 tick_2_pow_minus_1000
     = Raise OverflowError
  /\ fst (LimitOrderManager._validate_price_precision
            (limit_of (mock_client (PyNum tick_2_pow_minus_1000))) "BTCUSDT"
            price_2_pow_1000 empty_world) = Ok false.
Proof.
  repeat split; vm_compute; reflexivity.
Qed.

(** C1: the code rejects a price that is on the tick.  The price 65536.4 is
    655364 times the tick 0.1; both are read as Python reads the literals,
    as the binary64 numbers nearest to 655364/10 and to 1/10.  The check
    finds the multiple, [round(p / t) = 655364], but the binary64 product
    [655364 * 0.1] is the float next above the price: the distance, [2^-36]
    (about 1.46e-11), exceeds the tolerance [0.1 * 1e-10] (about 1e-11).  So
    [_validate_price_precision] returns [False] after the record "does not
    match tick size", and [place_limit_order] returns [None] and submits
    nothing.  The price 99999.9 is rejected in the same way, while 100.00
    at the tick 0.01 is accepted. *)
Theorem on_tick_price_is_rejected :
  Float64.decimal 655364 1 = S754_finite false 4503627115161190 (-36)
  /\ round (Float64.div (Float64.decimal 655364 1) (Float64.decimal 1 1))
     = Ok 655364
  /\ LimitOrderManager.rounded_price (Float64.decimal 655364 1)
                                     (Float64.decimal 1 1)
     = Ok (S754_finite false 4503627115161191 (-36))
  /\ Float64.abs (Float64.sub (Float64.decimal 655364 1)
                              (S754_finite false 4503627115161191 (-36)))
     = S754_finite false 4503599627370496 (-88)
  /\ LimitOrderManager.tolerance (Float64.decimal 1 1)
     = S754_finite false 6189700196426902 (-89)
  /\ Float64.ltb (LimitOrderManager.tolerance (Float64.decimal 1 1))
                 (Float64.abs
                    (Float64.sub (Float64.decimal 655364 1)
                                 (S754_finite false 4503627115161191 (-36))))
     = true
  /\ LimitOrderManager._validate_price_precision
       (limit_of (mock_client (PyNum (Float64.decimal 1 1)))) "BTCUSDT"
       (Float64.decimal 655364 1) empty_world =
     (Ok false,
      {| trace := [CallExchangeInfo];
         log := [(ERROR,
                  PriceDoesNotMatchTickSize
                    (Float64.decimal 655364 1) (Float64.decimal 1 1)
                    "BTCUSDT"
                    (S754_finite false 4503627115161191 (-36)))] |})
  /\ LimitOrderManager.place_limit_order
       (limit_of (mock_client (PyNum (Float64.decimal 1 1)))) "BTCUSDT"
       "buy" (Float64.decimal 1 3) (Float64.decimal 655364 1) empty_world =
     (Ok None,
      {| trace := [CallExchangeInfo; CallExchangeInfo; CallExchangeInfo];
         log := [(INFO, SymbolIsValid "BTCUSDT");
                 (INFO, QuantityIsValid (Float64.decimal 1 3) "BTCUSDT");
                 (ERROR,
                  PriceDoesNotMatchTickSize
                    (Float64.decimal 655364 1) (Float64.decimal 1 1)
                    "BTCUSDT"
                    (S754_finite false 4503627115161191 (-36)))] |})
  /\ submissions
       (snd (LimitOrderManager.place_limit_order
               (limit_of (mock_client (PyNum (Float64.decimal 1 1))))
               "BTCUSDT" "buy" (Float64.decimal 1 3)
               (Float64.decimal 655364 1) empty_world)) = []
  /\ fst (LimitOrderManager._validate_price_precision
            (limit_of (mock_client (PyNum (Float64.decimal 1 1)))) "BTCUSDT"
            (Float64.decimal 999999 1) empty_world) = Ok false
  /\ fst (LimitOrderManager._validate_price_precision
            (limit_of (mock_client tick_0_01)) "BTCUSDT"
            (Float64.decimal 10000 2) empty_world) = Ok true.
Proof.
  repeat split; vm_compute; reflexivity.
Qed.

(** ** Rejected orders *)

Lemma validate_market_rejects (self : MarketOrderManager.MarketOrderManager)
      (s side : string) (q : float) (ei : Api.ExchangeInfo) (w : World) :
  (forall tr,
      futures_exchange_info (BasicBot.client (MarketOrderManager.bot self)) tr
      = Ok ei) ->
  market_rejection_reason ei s side q ->
  fst (MarketOrderManager._validate_market_order_inputs self s side q w)
  = Ok false.
Proof.
  intros Hei Hreason.
  unfold MarketOrderManager._validate_market_order_inputs, bind.
  change (Float64.of_Z 0) with Float64.zero.
  rewrite validate_symbol_run, Hei.
  destruct (str_in (upper s) _) eqn:Hs; [|reflexivity]. cbn [negb].
  destruct (str_in (upper side) _) eqn:Hsd; cbn [negb]; [|reflexivity].
  destruct (Float64.leb q Float64.zero) eqn:Hq; [reflexivity|].
  destruct Hreason as [H|[H|[H|(m & Hm & Hlt)]]]; try congruence.
  rewrite (validate_quantity_found _ s q m ei _ _ (Hei _) Hm).
  unfold Float64.geb. change SFleb with Float64.leb.
  now rewrite (ltb_not_leb _ _ Hlt).
Qed.

Lemma validate_limit_rejects (self : LimitOrderManager.LimitOrderManager)
      (s side : string) (q p : float) (ei : Api.ExchangeInfo) (w : World) :
  (forall tr,
      futures_exchange_info (BasicBot.client (LimitOrderManager.bot self)) tr
      = Ok ei) ->
  limit_rejection_reason ei s side q p ->
  fst (LimitOrderManager._validate_limit_order_inputs self s side q p w)
  = Ok false.
Proof.
  intros Hei Hreason.
  unfold LimitOrderManager._validate_limit_order_inputs, bind.
  change (Float64.of_Z 0) with Float64.zero.
  rewrite validate_symbol_run, Hei.
  destruct (str_in (upper s) _) eqn:Hs; [|reflexivity]. cbn [negb].
  destruct (str_in (upper side) _) eqn:Hsd; cbn [negb]; [|reflexivity].
  destruct (Float64.leb q Float64.zero) eqn:Hq; [reflexivity|].
  match goal with
  | |- context [BasicBot.validate_quantity ?b s q ?w1] =>
      destruct (validate_quantity_calls b s q w1) as [[b2 Hb2] _];
      destruct (BasicBot.validate_quantity b s q w1) as [r2 w2] eqn:Hvq
  end.
  simpl in Hb2. subst r2.
  destruct b2; cbn [negb]; [|reflexivity].
  destruct (Float64.leb p Float64.zero) eqn:Hp; [reflexivity|].
  destruct (validate_price_precision_calls self s p w2) as [[b3 Hb3] _].
  destruct (LimitOrderManager._validate_price_precision self s p w2)
    as [r3 w3] eqn:Hvp.
  simpl in Hb3. subst r3.
  destruct b3; cbn [negb]; [|reflexivity].
  exfalso.
  destruct Hreason as [[H|[H|[H|(m & Hm & Hlt)]]]|[H|(t & Ht & Htest)]];
    try congruence.
  - rewrite (validate_quantity_found _ s q m ei _ _ (Hei _) Hm) in Hvq.
    unfold Float64.geb in Hvq. change SFleb with Float64.leb in Hvq.
    rewrite (ltb_not_leb _ _ Hlt) in Hvq. discriminate.
  - destruct w2 as [tr2 lg2].
    rewrite (validate_price_precision_run self s p t ei tr2 lg2 (Hei _) Ht)
      in Hvp.
    unfold tick_test in Htest.
    destruct (LimitOrderManager.rounded_price p t) as [r|e];
      [|discriminate].
    destruct (Float64.leb _ _); [now apply Htest|discriminate].
Qed.

(** C2: when the validation of the inputs fails, [place_market_order] and
    [place_limit_order] return [None], and the order submissions made to the
    gateway are those made before the call: none is added.  The validation
    fails, in particular, for each of these reasons: the symbol is not a
    trading one, the side is invalid, the quantity is not positive or is
    below the minimum and, for a limit order, the price is not positive or
    does not pass the tick test. *)
Theorem rejected_order_is_not_submitted :
  (forall (self : MarketOrderManager.MarketOrderManager) (s side : string)
          (q : float) (w : World),
      fst (MarketOrderManager._validate_market_order_inputs self s side q w)
      = Ok false ->
      fst (MarketOrderManager.place_market_order self s side q w) = Ok None
      /\ create_order_calls
           (snd (MarketOrderManager.place_market_order self s side q w))
         = create_order_calls w)
  /\ (forall (self : LimitOrderManager.LimitOrderManager) (s side : string)
             (q p : float) (w : World),
         fst (LimitOrderManager._validate_limit_order_inputs self s side q p w)
         = Ok false ->
         fst (LimitOrderManager.place_limit_order self s side q p w) = Ok None
         /\ create_order_calls
              (snd (LimitOrderManager.place_limit_order self s side q p w))
            = create_order_calls w)
  /\ (forall (self : MarketOrderManager.MarketOrderManager) (s side : string)
             (q : float) (ei : Api.ExchangeInfo) (w : World),
         (forall tr,
             futures_exchange_info
               (BasicBot.client (MarketOrderManager.bot self)) tr = Ok ei) ->
         market_rejection_reason ei s side q ->
         fst (MarketOrderManager.place_market_order self s side q w) = Ok None
         /\ create_order_calls
              (snd (MarketOrderManager.place_market_order self s side q w))
            = create_order_calls w)
  /\ (forall (self : LimitOrderManager.LimitOrderManager) (s side : string)
             (q p : float) (ei : Api.ExchangeInfo) (w : World),
         (forall tr,
             futures_exchange_info
               (BasicBot.client (LimitOrderManager.bot self)) tr = Ok ei) ->
         limit_rejection_reason ei s side q p ->
         fst (LimitOrderManager.place_limit_order self s side q p w) = Ok None
         /\ create_order_calls
              (snd (LimitOrderManager.place_limit_order self s side q p w))
            = create_order_calls w).
Proof.
  assert (Hm : forall self s side q w,
             fst (MarketOrderManager._validate_market_order_inputs
                    self s side q w) = Ok false ->
             fst (MarketOrderManager.place_market_order self s side q w)
             = Ok None
             /\ create_order_calls
                  (snd (MarketOrderManager.place_market_order self s side q w))
                = create_order_calls w).
  { intros self s side q w Hv.
    destruct (place_market_rejected self s side q w Hv) as [Hr Hsub].
    split; [exact Hr|].
    unfold create_order_calls.
    change (filter is_create_order (trace ?x)) with (submissions x).
    now rewrite Hsub. }
  assert (Hl : forall self s side q p w,
             fst (LimitOrderManager._validate_limit_order_inputs
                    self s side q p w) = Ok false ->
             fst (LimitOrderManager.place_limit_order self s side q p w)
             = Ok None
             /\ create_order_calls
                  (snd (LimitOrderManager.place_limit_order
                          self s side q p w))
                = create_order_calls w).
  { intros self s side q p w Hv.
    destruct (place_limit_rejected self s side q p w Hv) as [Hr Hsub].
    split; [exact Hr|].
    unfold create_order_calls.
    change (filter is_create_order (trace ?x)) with (submissions x).
    now rewrite Hsub. }
  split; [exact Hm|]. split; [exact Hl|]. split.
  - intros self s side q ei w Hei Hreason.
    apply Hm. exact (validate_market_rejects self s side q ei w Hei Hreason).
  - intros self s side q p ei w Hei Hreason.
    apply Hl. exact (validate_limit_rejects self s side q p ei w Hei Hreason).
Qed.

(** On the mocked gateway: a market order for the unknown symbol FAKEUSDT
    and limit orders for the quantity 0.0005, below the minimum, and for the
    price 100.005, off the tick, return [None] and submit nothing. *)
Lemma rejected_order_is_not_submitted_witness :
  (fst (MarketOrderManager.place_market_order
          (market_of (mock_client tick_0_01)) "FAKEUSDT" "buy"
          (Float64.of_Z 1) empty_world) = Ok None
   /\ create_order_calls
        (snd (MarketOrderManager.place_market_order
                (market_of (mock_client tick_0_01)) "FAKEUSDT" "buy"
                (Float64.of_Z 1) empty_world)) = 0%nat)
  /\ (fst (LimitOrderManager.place_limit_order
             (limit_of (mock_client tick_0_01)) "BTCUSDT" "buy"
             (Float64.decimal 5 4) (Float64.decimal 10000 2) empty_world)
      = Ok None
      /\ create_order_calls
           (snd (LimitOrderManager.place_limit_order
                   (limit_of (mock_client tick_0_01)) "BTCUSDT" "buy"
                   (Float64.decimal 5 4) (Float64.decimal 10000 2)
                   empty_world)) = 0%nat)
  /\ (fst (MarketOrderManager.place_market_order
             (market_of (mock_client tick_0_01)) "BTCUSDT" "hold"
             (Float64.of_Z 1) empty_world) = Ok None
      /\ create_order_calls
           (snd (MarketOrderManager.place_market_order
                   (market_of (mock_client tick_0_01)) "BTCUSDT" "hold"
                   (Float64.of_Z 1) empty_world)) = 0%nat)
  /\ (fst (LimitOrderManager.place_limit_order
             (limit_of (mock_client tick_0_01)) "BTCUSDT" "buy"
             (Float64.decimal 1 3) (Float64.decimal 100005 3) empty_world)
      = Ok None
      /\ create_order_calls
           (snd (LimitOrderManager.place_limit_order
                   (limit_of (mock_client tick_0_01)) "BTCUSDT" "buy"
                   (Float64.decimal 1 3) (Float64.decimal 100005 3)
                   empty_world)) = 0%nat).
Proof.
  split; [|split; [|split]].
  - apply (proj1 rejected_order_is_not_submitted
                 (market_of (mock_client tick_0_01)) "FAKEUSDT"%string
                 "buy"%string (Float64.of_Z 1) empty_world).
    reflexivity.
  - apply (proj1 (proj2 rejected_order_is_not_submitted)
                 (limit_of (mock_client tick_0_01)) "BTCUSDT"%string
                 "buy"%string (Float64.decimal 5 4) (Float64.decimal 10000 2)
                 empty_world).
    reflexivity.
  - apply (proj1 (proj2 (proj2 rejected_order_is_not_submitted))
                 (market_of (mock_client tick_0_01)) "BTCUSDT"%string
                 "hold"%string (Float64.of_Z 1)
                 (mock_exchange_info tick_0_01) empty_world).
    + intros tr. reflexivity.
    + right. left. reflexivity.
  - apply (proj2 (proj2 (proj2 rejected_order_is_not_submitted))
                 (limit_of (mock_client tick_0_01)) "BTCUSDT"%string
                 "buy"%string (Float64.decimal 1 3) (Float64.decimal 100005 3)
                 (mock_exchange_info tick_0_01) empty_world).
    + intros tr. reflexivity.
    + right. right. exists (Float64.decimal 1 2). split; [reflexivity|].
      vm_compute. discriminate.
Defined.

(** ** Values of the literals and of the built-ins *)

(** The decimal literals of the scenario, as binary64 numbers:
    0.01 is 0x1.47ae147ae147bp-7, 0.001 is 0x1.0624dd2f1a9fcp-10, 100.005 is
    0x1.90051eb851eb8p+6, and [1e-10] is the float nearest to [1 / 10^10]. *)
Lemma decimal_literals :
  Float64.decimal 1 2 = S754_finite false 5764607523034235 (-59)
  /\ Float64.decimal 1 3 = S754_finite false 4611686018427388 (-62)
  /\ Float64.decimal 100005 3 = S754_finite false 7037226261487288 (-46)
  /\ Float64.decimal 10000 2 = S754_finite false 7036874417766400 (-46)
  /\ Float64.decimal 1 10 = Float64.lit_1e_10.
Proof.
  repeat split; vm_compute; reflexivity.
Qed.

(** [round] rounds halves to the even integer: 0.5 to 0, 1.5 to 2, 2.5 to 2,
    -0.5 to 0, and 10000.5 to 10000. *)
Lemma round_halves :
  round (Float64.decimal 5 1) = Ok 0
  /\ round (Float64.decimal 15 1) = Ok 2
  /\ round (Float64.decimal 25 1) = Ok 2
  /\ round (Float64.decimal (-5) 1) = Ok 0
  /\ round (Float64.decimal 100005 1) = Ok 10000.
Proof.
  repeat split; vm_compute; reflexivity.
Qed.

(** The decimal price 65536.4 against the decimal tick 0.1: the quotient
    rounds to 655364, and the binary64 product [655364 * 0.1] is one unit in
    the last place above the price, a distance of about 1.46e-11, more than
    the tolerance of about 1e-11; the check rejects the price. *)
Lemma price_65536_4_tick_0_1 :
  Float64.decimal 655364 1 = S754_finite false 4503627115161190 (-36)
  /\ round (Float64.div (Float64.decimal 655364 1) (Float64.decimal 1 1))
     = Ok 655364
  /\ LimitOrderManager.rounded_price (Float64.decimal 655364 1)
                                     (Float64.decimal 1 1)
     = Ok (S754_finite false 4503627115161191 (-36))
  /\ fst (LimitOrderManager._validate_price_precision
            (limit_of (mock_client (PyNum (Float64.decimal 1 1)))) "BTCUSDT"
            (Float64.decimal 655364 1) empty_world) = Ok false.
Proof.
  repeat split; vm_compute; reflexivity.
Qed.

(** The price 1000000.0 against the decimal tick 0.1, whose binary64 value is
    a little above one tenth: the price is farther than [t * 10^-10] from
    every multiple of that value, the nearest being [10^7 * t], yet the
    binary64 product [10000000 * 0.1] rounds to the price itself and the
    check accepts it. *)
Lemma price_1000000_tick_0_1 :
  off_every_multiple (Float64.decimal 1000000 0) (Float64.decimal 1 1)
  /\ LimitOrderManager.rounded_price (Float64.decimal 1000000 0)
                                     (Float64.decimal 1 1)
     = Ok (Float64.decimal 1000000 0)
  /\ fst (LimitOrderManager._validate_price_precision
            (limit_of (mock_client (PyNum (Float64.decimal 1 1)))) "BTCUSDT"
            (Float64.decimal 1000000 0) empty_world) = Ok true.
Proof.
  split; [|split; vm_compute; reflexivity].
  assert (Hp : Float64.decimal 1000000 0 =
               S754_finite false 8589934592000000 (-33))
    by (vm_compute; reflexivity).
  assert (Ht : Float64.decimal 1 1 =
               S754_finite false 7205759403792794 (-56))
    by (vm_compute; reflexivity).
  rewrite Hp, Ht. unfold off_every_multiple.
  cbn [cond_Zopp]. intros k.
  change (Z.min (-33) (-56)) with (-56).
  change (2 ^ (-56 - -56)) with 1.
  change (2 ^ (-33 - -56)) with 8388608.
  lia.
Qed.

(** * Further properties *)

(** ** Looking a symbol up *)

Lemma find_symbol_some (s : string) (ss : list Api.SymbolInfo)
      (info : Api.SymbolInfo) :
  BasicBot.find_symbol s ss = Some info <->
  exists before after,
    ss = before ++ info :: after
    /\ Api.symbol info = upper s
    /\ forall i, In i before -> Api.symbol i <> upper s.
Proof.
  induction ss as [|a ss IH]; simpl.
  - split; [discriminate|].
    intros (before & after & H & _). destruct before; discriminate.
  - destruct (String.eqb (Api.symbol a) (upper s)) eqn:E.
    + apply String.eqb_eq in E. split.
      * intros H. injection H as Ha. subst a. exists [], ss. simpl.
        split; [reflexivity|]. split; [exact E|]. intros i [].
      * intros (before & after & H & Hn & Hb).
        destruct before as [|b before]; simpl in H; injection H as Ha Hs.
        -- now subst.
        -- exfalso. apply (Hb a); subst; simpl; auto.
    + apply String.eqb_neq in E. rewrite IH. split.
      * intros (before & after & -> & Hn & Hb).
        exists (a :: before), after. simpl.
        split; [reflexivity|]. split; [exact Hn|].
        intros i [<-|Hi]; auto.
      * intros (before & after & H & Hn & Hb).
        destruct before as [|b before]; simpl in H; injection H as Ha Hs.
        -- subst. contradiction.
        -- exists before, after. subst.
           split; [reflexivity|]. split; [exact Hn|].
           intros i Hi. apply Hb. simpl. auto.
Qed.

Lemma find_symbol_none_iff (s : string) (ss : list Api.SymbolInfo) :
  BasicBot.find_symbol s ss = None <->
  forall i, In i ss -> Api.symbol i <> upper s.
Proof.
  split; [apply find_symbol_none|].
  induction ss as [|a ss IH]; simpl; intros H; [reflexivity|].
  destruct (String.eqb (Api.symbol a) (upper s)) eqn:E.
  - apply String.eqb_eq in E. exfalso. apply (H a); auto.
  - apply IH. intros i Hi. apply H. auto.
Qed.

Lemma find_symbol_upper (s : string) (ss : list Api.SymbolInfo) :
  BasicBot.find_symbol (upper s) ss = BasicBot.find_symbol s ss.
Proof.
  induction ss as [|a ss IH]; simpl; [reflexivity|].
  now rewrite upper_idempotent, IH.
Qed.

Lemma get_symbol_info_run (self : BasicBot.BasicBot) (s : string) (w : World) :
  BasicBot.get_symbol_info self s w =
  match futures_exchange_info (BasicBot.client self) (trace w) with
  | Ok ei =>
      (Ok (metadata_of s ei),
       {| trace := trace w ++ [CallExchangeInfo]; log := log w |})
  | Raise e =>
      (Ok None,
       {| trace := trace w ++ [CallExchangeInfo];
          log := log w ++ [(ERROR, ErrorGettingSymbolInfo s e)] |})
  end.
Proof.
  unfold BasicBot.get_symbol_info, metadata_of. run.
  destruct (futures_exchange_info (BasicBot.client self) (trace w));
    reflexivity.
Qed.

(** X1: [get_symbol_info] returns the first entry of the metadata whose name
    is the upper-cased argument, whatever its status: it returns an entry
    exactly when the entries before it have another name and it has that
    name, and [None] exactly when no entry has that name.  The argument's
    case does not matter.  When the gateway raises it returns [None] after
    one ERROR record; in every case it makes one metadata call and does not
    raise. *)
Theorem get_symbol_info_lookup (self : BasicBot.BasicBot) (s : string)
        (w : World) :
  (forall ei,
      futures_exchange_info (BasicBot.client self) (trace w) = Ok ei ->
      (forall info,
          fst (BasicBot.get_symbol_info self s w) = Ok (Some info) <->
          exists before after,
            Api.symbols ei = before ++ info :: after
            /\ Api.symbol info = upper s
            /\ forall i, In i before -> Api.symbol i <> upper s)
      /\ (fst (BasicBot.get_symbol_info self s w) = Ok None <->
          forall i, In i (Api.symbols ei) -> Api.symbol i <> upper s)
      /\ log (snd (BasicBot.get_symbol_info self s w)) = log w)
  /\ (forall e,
         futures_exchange_info (BasicBot.client self) (trace w) = Raise e ->
         fst (BasicBot.get_symbol_info self s w) = Ok None
         /\ log (snd (BasicBot.get_symbol_info self s w)) =
            log w ++ [(ERROR, ErrorGettingSymbolInfo s e)])
  /\ fst (BasicBot.get_symbol_info self (upper s) w) =
     fst (BasicBot.get_symbol_info self s w)
  /\ (exists r, fst (BasicBot.get_symbol_info self s w) = Ok r)
  /\ trace (snd (BasicBot.get_symbol_info self s w)) =
     trace w ++ [CallExchangeInfo].
Proof.
  rewrite !get_symbol_info_run.
  destruct (futures_exchange_info (BasicBot.client self) (trace w))
    as [ei|e] eqn:E; simpl.
  - split; [|split; [discriminate|]].
    + intros ei' H. injection H as <-. split; [|split; [|reflexivity]].
      * intros info. rewrite <- find_symbol_some. unfold metadata_of.
        split; [intros H; now injection H|intros ->; reflexivity].
      * rewrite <- find_symbol_none_iff. unfold metadata_of.
        split; [intros H; now injection H|intros ->; reflexivity].
    + unfold metadata_of. rewrite find_symbol_upper. eauto.
  - split; [discriminate|]. split; [|eauto].
    intros e' H. injection H as <-. auto.
Qed.

Lemma get_symbol_info_lookup_witness :
  (forall info,
      fst (BasicBot.get_symbol_info (bot_of (metadata_client split_exchange_info))
             "btcusdt" empty_world) = Ok (Some info) <->
      exists before after,
        Api.symbols split_exchange_info = before ++ info :: after
        /\ Api.symbol info = "BTCUSDT"%string
        /\ forall i, In i before -> Api.symbol i <> "BTCUSDT"%string)
  /\ fst (BasicBot.get_symbol_info (bot_of down_client) "btcusdt" empty_world)
     = Ok None.
Proof.
  destruct (get_symbol_info_lookup
              (bot_of (metadata_client split_exchange_info)) "btcusdt"
              empty_world) as [H _].
  destruct (H split_exchange_info eq_refl) as [H1 _].
  split; [exact H1|].
  destruct (get_symbol_info_lookup (bot_of down_client) "btcusdt" empty_world)
    as (_ & H2 & _).
  exact (proj1 (H2 (GatewayError "unreachable") eq_refl)).
Defined.

(** ** The decision of the quantity check *)

Lemma find_app_or {A : Type} (p : A -> bool) (l1 l2 : list A) :
  find p (l1 ++ l2) =
  match find p l1 with
  | Some x => Some x
  | None => find p l2
  end.
Proof.
  induction l1 as [|a l1 IH]; simpl; [reflexivity|].
  destruct (p a); auto.
Qed.

Lemma validate_quantity_filters_fst (s : string) (q : float)
      (fs : list Api.Filter) (w : World) :
  fst (BasicBot.validate_quantity_filters s q fs w) =
  match find (fun f => String.eqb (Api.filterType f) "LOT_SIZE") fs with
  | Some f =>
      match Api.minQty f with
      | Some (PyNum m) => Ok (Some (Float64.geb q m))
      | Some (PyNonNum e) => Raise e
      | None => Raise (KeyError "minQty")
      end
  | None => Ok None
  end.
Proof.
  induction fs as [|f fs IH]; simpl; [reflexivity|].
  destruct (String.eqb (Api.filterType f) "LOT_SIZE"); [|apply IH].
  destruct (Api.minQty f) as [[m|e]|]; run; try reflexivity.
  destruct (Float64.geb q m); reflexivity.
Qed.

Lemma validate_quantity_symbols_fst (s : string) (q : float)
      (ss : list Api.SymbolInfo) (w : World) :
  fst (BasicBot.validate_quantity_symbols s q ss w) =
  match lot_size_of s {| Api.symbols := ss |} with
  | Some f =>
      match Api.minQty f with
      | Some (PyNum m) => Ok (Some (Float64.geb q m))
      | Some (PyNonNum e) => Raise e
      | None => Raise (KeyError "minQty")
      end
  | None => Ok None
  end.
Proof.
  unfold lot_size_of, entries_of. simpl. revert w.
  induction ss as [|a ss IH]; intros w; simpl; [reflexivity|].
  destruct (String.eqb (Api.symbol a) (upper s)); [|apply IH].
  simpl. rewrite find_app_or. unfold bind.
  destruct (find (fun f => String.eqb (Api.filterType f) "LOT_SIZE")
                 (Api.filters a)) as [f|] eqn:F.
  - pose proof (validate_quantity_filters_fst s q (Api.filters a) w) as H.
    rewrite F in H.
    destruct (BasicBot.validate_quantity_filters s q (Api.filters a) w)
      as [r w1]. simpl in H. subst r.
    destruct (Api.minQty f) as [[m|e]|]; reflexivity.
  - rewrite (validate_quantity_filters_none s q _ w F). apply IH.
Qed.

Lemma validate_quantity_fst (self : BasicBot.BasicBot) (s : string)
      (q : float) (w : World) :
  fst (BasicBot.validate_quantity self s q w) =
  match futures_exchange_info (BasicBot.client self) (trace w) with
  | Ok ei => Ok (quantity_verdict s q ei)
  | Raise _ => Ok false
  end.
Proof.
  unfold BasicBot.validate_quantity, try_except, bind,
    call_futures_exchange_info.
  destruct (futures_exchange_info (BasicBot.client self) (trace w))
    as [ei|e]; [|reflexivity].
  pose proof (validate_quantity_symbols_fst s q (Api.symbols ei)
                (record_call CallExchangeInfo w)) as H.
  unfold quantity_verdict.
  replace ei with {| Api.symbols := Api.symbols ei |} at 2
    by (destruct ei; reflexivity).
  destruct (BasicBot.validate_quantity_symbols s q (Api.symbols ei)
              (record_call CallExchangeInfo w)) as [r w1].
  simpl in H. subst r.
  destruct (lot_size_of s {| Api.symbols := Api.symbols ei |}) as [f|];
    [|reflexivity].
  destruct (Api.minQty f) as [[m|e]|]; reflexivity.
Qed.

(** X2: the verdict of [validate_quantity] is decided by the first LOT_SIZE
    filter found among the filters of all the metadata entries named like the
    upper-cased symbol, in order: [True] exactly when that filter has a
    numeric [minQty] that the quantity reaches.  A filter without [minQty], a
    [minQty] that is not a number, no such filter and a gateway error all
    give [False]; neither the symbol's status nor the quantity's sign is
    looked at.  The call makes one metadata request and does not raise. *)
Theorem validate_quantity_decision (self : BasicBot.BasicBot) (s : string)
        (q : float) (w : World) :
  (forall ei,
      futures_exchange_info (BasicBot.client self) (trace w) = Ok ei ->
      fst (BasicBot.validate_quantity self s q w) =
      Ok (quantity_verdict s q ei))
  /\ (forall e,
         futures_exchange_info (BasicBot.client self) (trace w) = Raise e ->
         fst (BasicBot.validate_quantity self s q w) = Ok false)
  /\ trace (snd (BasicBot.validate_quantity self s q w)) =
     trace w ++ [CallExchangeInfo].
Proof.
  rewrite validate_quantity_fst.
  split; [|split].
  - intros ei ->. reflexivity.
  - intros e ->. reflexivity.
  - apply validate_quantity_calls.
Qed.

Lemma validate_quantity_decision_witness :
  fst (BasicBot.validate_quantity (bot_of (metadata_client split_exchange_info))
         "btcusdt" (Float64.decimal 1 3) empty_world) = Ok true
  /\ fst (BasicBot.validate_quantity
            (bot_of (metadata_client keyless_exchange_info))
            "btcusdt" (Float64.decimal 1 3) empty_world) = Ok false
  /\ fst (BasicBot.validate_quantity (bot_of down_client)
            "btcusdt" (Float64.decimal 1 3) empty_world) = Ok false.
Proof.
  split; [|split].
  - exact (proj1 (validate_quantity_decision
                    (bot_of (metadata_client split_exchange_info))
                    "btcusdt" (Float64.decimal 1 3) empty_world)
                 split_exchange_info eq_refl).
  - exact (proj1 (validate_quantity_decision
                    (bot_of (metadata_client keyless_exchange_info))
                    "btcusdt" (Float64.decimal 1 3) empty_world)
                 keyless_exchange_info eq_refl).
  - exact (proj1 (proj2 (validate_quantity_decision (bot_of down_client)
                           "btcusdt" (Float64.decimal 1 3) empty_world))
                 (GatewayError "unreachable") eq_refl).
Defined.

(** ** The decision of the price check *)

Lemma validate_price_filters_fst (s : string) (p : float)
      (fs : list Api.Filter) (w : World) :
  fst (LimitOrderManager.validate_price_filters s p fs w) =
  match find (fun f => String.eqb (Api.filterType f) "PRICE_FILTER") fs with
  | Some f =>
      match Api.tickSize f with
      | Some (PyNum t) => tick_test p t
      | Some (PyNonNum e) => Raise e
      | None => Raise (KeyError "tickSize")
      end
  | None => Ok true
  end.
Proof.
  induction fs as [|f fs IH]; simpl; [reflexivity|].
  destruct (String.eqb (Api.filterType f) "PRICE_FILTER"); [|apply IH].
  unfold tick_test.
  destruct (Api.tickSize f) as [[t|e]|]; run; try reflexivity.
  destruct (LimitOrderManager.rounded_price p t) as [r|e]; simpl;
    [|reflexivity].
  destruct (Float64.leb (Float64.abs (Float64.sub p r))
                        (LimitOrderManager.tolerance t)); reflexivity.
Qed.

Lemma validate_price_precision_fst (self : LimitOrderManager.LimitOrderManager)
      (s : string) (p : float) (w : World) :
  fst (LimitOrderManager._validate_price_precision self s p w) =
  match futures_exchange_info
          (BasicBot.client (LimitOrderManager.bot self)) (trace w) with
  | Ok ei => Ok (price_verdict s p ei)
  | Raise _ => Ok false
  end.
Proof.
  unfold LimitOrderManager._validate_price_precision, try_except, bind.
  rewrite get_symbol_info_run.
  destruct (futures_exchange_info
              (BasicBot.client (LimitOrderManager.bot self)) (trace w))
    as [ei|e]; [|reflexivity].
  unfold price_verdict, filter_of_type.
  destruct (metadata_of s ei) as [info|]; [|reflexivity].
  match goal with
  | |- context [LimitOrderManager.validate_price_filters s p ?fs ?w1] =>
      pose proof (validate_price_filters_fst s p fs w1) as H;
      destruct (LimitOrderManager.validate_price_filters s p fs w1)
        as [r w2]
  end.
  simpl in H. subst r.
  destruct (find (fun f => String.eqb (Api.filterType f) "PRICE_FILTER")
                 (Api.filters info)) as [f|]; [|reflexivity].
  destruct (Api.tickSize f) as [[t|e]|]; try reflexivity.
  destruct (tick_test p t) as [[|]|e]; reflexivity.
Qed.

(** X3: the verdict of [_validate_price_precision] is decided by the first
    metadata entry named like the upper-cased symbol: [False] when there is
    none (and then nothing is logged), [True] when that entry has no
    PRICE_FILTER, and otherwise [True] exactly when the first PRICE_FILTER
    has a numeric [tickSize] on which the tick test returns [True].  A filter
    without [tickSize], a [tickSize] that is not a number, an exception of
    the tick test and a gateway error all give [False]. *)
Theorem price_precision_decision (self : LimitOrderManager.LimitOrderManager)
        (s : string) (p : float) (w : World) :
  (forall ei,
      futures_exchange_info
        (BasicBot.client (LimitOrderManager.bot self)) (trace w) = Ok ei ->
      fst (LimitOrderManager._validate_price_precision self s p w) =
      Ok (price_verdict s p ei)
      /\ (metadata_of s ei = None ->
          LimitOrderManager._validate_price_precision self s p w =
          (Ok false,
           {| trace := trace w ++ [CallExchangeInfo]; log := log w |})))
  /\ (forall e,
         futures_exchange_info
           (BasicBot.client (LimitOrderManager.bot self)) (trace w) = Raise e ->
         fst (LimitOrderManager._validate_price_precision self s p w)
         = Ok false).
Proof.
  rewrite validate_price_precision_fst. split.
  - intros ei H. rewrite H. split; [reflexivity|].
    intros Hm.
    unfold LimitOrderManager._validate_price_precision, try_except, bind.
    rewrite get_symbol_info_run, H, Hm. reflexivity.
  - intros e ->. reflexivity.
Qed.

Lemma price_precision_decision_witness :
  fst (LimitOrderManager._validate_price_precision
         (limit_of (metadata_client keyless_exchange_info)) "BTCUSDT"
         (Float64.decimal 10000 2) empty_world) = Ok false
  /\ LimitOrderManager._validate_price_precision
       (limit_of (mock_client tick_0_01)) "ETHUSDT"
       (Float64.decimal 10000 2) empty_world =
     (Ok false, {| trace := [CallExchangeInfo]; log := [] |})
  /\ fst (LimitOrderManager._validate_price_precision
            (limit_of down_client) "BTCUSDT"
            (Float64.decimal 10000 2) empty_world) = Ok false.
Proof.
  split; [|split].
  - exact (proj1 (proj1 (price_precision_decision
                           (limit_of (metadata_client keyless_exchange_info))
                           "BTCUSDT" (Float64.decimal 10000 2) empty_world)
                        keyless_exchange_info eq_refl)).
  - exact (proj2 (proj1 (price_precision_decision
                           (limit_of (mock_client tick_0_01))
                           "ETHUSDT" (Float64.decimal 10000 2) empty_world)
                        (mock_exchange_info tick_0_01) eq_refl) eq_refl).
  - exact (proj2 (price_precision_decision (limit_of down_client)
                    "BTCUSDT" (Float64.decimal 10000 2) empty_world)
                 (GatewayError "unreachable") eq_refl).
Defined.

(** ** Infinities and NaN *)

Lemma leb_nan_r (x : float) : Float64.leb x S754_nan = false.
Proof. destruct x; reflexivity. Qed.

Lemma tick_test_numbers (p t : float) :
  tick_test p t = Ok true -> is_number p = true.
Proof.
  unfold tick_test, LimitOrderManager.rounded_price, truediv.
  destruct t as [st|st| |st mt et]; destruct p; try discriminate; auto.
Qed.

(** X4: the tick test returns [True] only on numbers: when it does, the
    price is neither an infinity nor a NaN, and the tick size is a non-zero
    number.  On the other inputs: a zero tick size raises
    [ZeroDivisionError], whatever the price; with a non-zero tick size, an
    infinite or NaN price and a NaN tick size make the quotient an infinity
    or a NaN; an infinite quotient makes [round] raise [OverflowError] and a
    NaN quotient makes it raise [ValueError]; and on a price that is a number
    an infinite tick size makes the rounded price a NaN, on which the test
    returns [False]. *)
Theorem tick_test_passes_on_numbers_only (p t : float) :
  (tick_test p t = Ok true ->
   is_number p = true /\ is_number t = true /\ Float64.is_zero t = false)
  /\ (Float64.is_zero t = true -> tick_test p t = Raise ZeroDivisionError)
  /\ (Float64.is_zero t = false ->
      is_number p = false \/ t = S754_nan ->
      is_number (Float64.div p t) = false)
  /\ (Float64.is_zero t = false ->
      forall s, Float64.div p t = S754_infinity s ->
                tick_test p t = Raise OverflowError)
  /\ (Float64.is_zero t = false ->
      Float64.div p t = S754_nan -> tick_test p t = Raise ValueError)
  /\ (is_number p = true ->
      forall s, t = S754_infinity s ->
                LimitOrderManager.rounded_price p t = Ok S754_nan
                /\ tick_test p t = Ok false).
Proof.
  split; [|split; [|split; [|split; [|split]]]].
  - unfold tick_test, LimitOrderManager.rounded_price, truediv.
    destruct t as [st|st| |st mt et].
    + discriminate.
    + destruct p; discriminate.
    + destruct p; discriminate.
    + destruct p as [sp|sp| |sp mp ep]; try discriminate; auto.
  - intros Hz. unfold tick_test, LimitOrderManager.rounded_price, truediv.
    rewrite Hz. reflexivity.
  - intros Hz [Hp | ->].
    + destruct p; try discriminate; destruct t; try discriminate;
        reflexivity.
    + destruct p; reflexivity.
  - intros Hz s Hd.
    unfold tick_test, LimitOrderManager.rounded_price, truediv.
    rewrite Hz, Hd. reflexivity.
  - intros Hz Hd.
    unfold tick_test, LimitOrderManager.rounded_price, truediv.
    rewrite Hz, Hd. reflexivity.
  - intros Hp s ->.
    destruct p as [sp|sp| |sp mp ep]; try discriminate;
      destruct sp, s; split; reflexivity.
Qed.

Lemma tick_test_passes_on_numbers_only_witness :
  (is_number (Float64.decimal 10000 2) = true
   /\ is_number (Float64.decimal 1 2) = true
   /\ Float64.is_zero (Float64.decimal 1 2) = false)
  /\ tick_test (Float64.decimal 10000 2) (S754_zero false)
     = Raise ZeroDivisionError
  /\ is_number (Float64.div (S754_infinity false) (Float64.decimal 1 2))
     = false
  /\ tick_test (S754_infinity false) (Float64.decimal 1 2)
     = Raise OverflowError
  /\ tick_test (Float64.decimal 10000 2) S754_nan = Raise ValueError
  /\ LimitOrderManager.rounded_price (Float64.decimal 10000 2)
                                     (S754_infinity false) = Ok S754_nan
  /\ tick_test (Float64.decimal 10000 2) (S754_infinity false) = Ok false.
Proof.
  split; [|split; [|split; [|split; [|split]]]].
  - apply (proj1 (tick_test_passes_on_numbers_only
                    (Float64.decimal 10000 2) (Float64.decimal 1 2))).
    vm_compute. reflexivity.
  - apply (proj1 (proj2 (tick_test_passes_on_numbers_only
                           (Float64.decimal 10000 2) (S754_zero false)))).
    reflexivity.
  - apply (proj1 (proj2 (proj2 (tick_test_passes_on_numbers_only
                                  (S754_infinity false)
                                  (Float64.decimal 1 2))))).
    + vm_compute. reflexivity.
    + left. reflexivity.
  - apply (proj1 (proj2 (proj2 (proj2 (tick_test_passes_on_numbers_only
                                         (S754_infinity false)
                                         (Float64.decimal 1 2)))))
             eq_refl false).
    vm_compute. reflexivity.
  - apply (proj1 (proj2 (proj2 (proj2 (proj2
             (tick_test_passes_on_numbers_only
                (Float64.decimal 10000 2) S754_nan)))))).
    + reflexivity.
    + vm_compute. reflexivity.
  - apply (proj2 (proj2 (proj2 (proj2 (proj2
             (tick_test_passes_on_numbers_only
                (Float64.decimal 10000 2) (S754_infinity false))))))
             eq_refl false eq_refl).
Defined.

(** ** The checks of a validation, against any gateway *)

Lemma validate_market_run (self : MarketOrderManager.MarketOrderManager)
      (s side : string) (q : float) (w : World) :
  fst (MarketOrderManager._validate_market_order_inputs self s side q w) =
  Ok (market_validated (BasicBot.client (MarketOrderManager.bot self))
                       (trace w) s side q)
  /\ trace (snd (MarketOrderManager._validate_market_order_inputs
                   self s side q w)) =
     trace w ++
     repeat CallExchangeInfo
            (market_validation_requests
               (BasicBot.client (MarketOrderManager.bot self))
               (trace w) s side q).
Proof.
  unfold MarketOrderManager._validate_market_order_inputs, bind.
  rewrite validate_symbol_run.
  unfold market_validated, market_validation_requests, first_checks,
    symbol_checked, side_checked, quantity_checked.
  change (Float64.of_Z 0) with Float64.zero.
  destruct (futures_exchange_info
              (BasicBot.client (MarketOrderManager.bot self)) (trace w))
    as [ei|e]; [|split; reflexivity].
  destruct (str_in (upper s) (trading_symbols ei)); [|split; reflexivity].
  cbn [negb andb].
  destruct (str_in (upper side) ["BUY"; "SELL"]%string);
    [|split; reflexivity].
  cbn [negb andb].
  destruct (Float64.leb q Float64.zero); [split; reflexivity|].
  cbn [negb andb].
  match goal with
  | |- context [BasicBot.validate_quantity ?b s q ?w1] =>
      pose proof (validate_quantity_fst b s q w1) as Hr;
      pose proof (proj2 (validate_quantity_calls b s q w1)) as Ht;
      destruct (BasicBot.validate_quantity b s q w1) as [r w2]
  end.
  cbn [fst snd trace] in Hr, Ht. subst r.
  destruct (futures_exchange_info
              (BasicBot.client (MarketOrderManager.bot self))
              (trace w ++ [CallExchangeInfo])) as [ei2|e2].
  - destruct (quantity_verdict s q ei2); cbn [negb fst snd];
      (split; [reflexivity|]); cbn [trace ret snd]; rewrite Ht;
      now rewrite <- app_assoc.
  - cbn [negb fst snd]. split; [reflexivity|]. cbn [trace ret snd].
    rewrite Ht. now rewrite <- app_assoc.
Qed.

Lemma validate_limit_run (self : LimitOrderManager.LimitOrderManager)
      (s side : string) (q p : float) (w : World) :
  fst (LimitOrderManager._validate_limit_order_inputs self s side q p w) =
  Ok (limit_validated (BasicBot.client (LimitOrderManager.bot self))
                      (trace w) s side q p)
  /\ trace (snd (LimitOrderManager._validate_limit_order_inputs
                   self s side q p w)) =
     trace w ++
     repeat CallExchangeInfo
            (limit_validation_requests
               (BasicBot.client (LimitOrderManager.bot self))
               (trace w) s side q p).
Proof.
  unfold LimitOrderManager._validate_limit_order_inputs, bind.
  rewrite validate_symbol_run.
  unfold limit_validated, limit_validation_requests, market_validated,
    market_validation_requests, first_checks,
    symbol_checked, side_checked, quantity_checked, price_checked.
  change (Float64.of_Z 0) with Float64.zero.
  destruct (futures_exchange_info
              (BasicBot.client (LimitOrderManager.bot self)) (trace w))
    as [ei|e]; [|split; reflexivity].
  destruct (str_in (upper s) (trading_symbols ei)); [|split; reflexivity].
  cbn [negb andb].
  destruct (str_in (upper side) ["BUY"; "SELL"]%string);
    [|split; reflexivity].
  cbn [negb andb].
  destruct (Float64.leb q Float64.zero); [split; reflexivity|].
  cbn [negb andb].
  match goal with
  | |- context [BasicBot.validate_quantity ?b s q ?w1] =>
      pose proof (validate_quantity_fst b s q w1) as Hr;
      pose proof (proj2 (validate_quantity_calls b s q w1)) as Ht;
      destruct (BasicBot.validate_quantity b s q w1) as [r w2]
  end.
  cbn [fst snd trace] in Hr, Ht. subst r.
  destruct (futures_exchange_info
              (BasicBot.client (LimitOrderManager.bot self))
              (trace w ++ [CallExchangeInfo])) as [ei2|e2];
    [destruct (quantity_verdict s q ei2) |]; cbn [negb andb];
    try (split; [reflexivity|]; cbn [ret snd]; rewrite Ht;
         now rewrite <- app_assoc).
  destruct (Float64.leb p Float64.zero).
  - unfold bind, logger, ret. cbn [fst snd trace negb andb].
    split; [reflexivity|]. rewrite Ht. now rewrite <- app_assoc.
  - cbn [negb andb]. unfold bind.
    pose proof (validate_price_precision_fst self s p w2) as Hr.
    pose proof (proj2 (validate_price_precision_calls self s p w2)) as Ht2.
    destruct (LimitOrderManager._validate_price_precision self s p w2)
      as [r w3].
    cbn [fst snd] in Hr, Ht2. subst r. rewrite Ht in *.
    rewrite <- app_assoc in *. cbn [app] in *.
    destruct (futures_exchange_info
                (BasicBot.client (LimitOrderManager.bot self))
                (trace w ++ [CallExchangeInfo; CallExchangeInfo]))
      as [ei3|e3];
      [destruct (price_verdict s p ei3)|]; cbn [negb fst snd ret];
      (split; [reflexivity|]); rewrite Ht2; rewrite <- app_assoc;
      reflexivity.
Qed.

(** X5: the validation of an order is the conjunction of its checks, made
    in order and stopped at the first one that fails; every filter check
    reads a metadata response of its own.  For a market order it returns
    [True] exactly when the symbol is a trading one, the side is BUY or SELL,
    the quantity is not [<= 0] and the quantity check passes; for a limit
    order the price must moreover not be [<= 0] and the price check must
    pass.  The validation makes one to two (market) or one to three (limit)
    metadata requests and no other client call, three exactly when the price
    check is reached; it does not raise. *)
Theorem validation_is_the_conjunction_of_the_checks :
  (forall (self : MarketOrderManager.MarketOrderManager) (s side : string)
          (q : float) (w : World),
      fst (MarketOrderManager._validate_market_order_inputs self s side q w) =
      Ok (market_validated (BasicBot.client (MarketOrderManager.bot self))
                           (trace w) s side q)
      /\ exists n,
          trace (snd (MarketOrderManager._validate_market_order_inputs
                        self s side q w)) =
          trace w ++ repeat CallExchangeInfo n
          /\ (1 <= n <= 2)%nat
          /\ (market_validated
                (BasicBot.client (MarketOrderManager.bot self))
                (trace w) s side q = true -> n = 2%nat))
  /\ (forall (self : LimitOrderManager.LimitOrderManager) (s side : string)
             (q p : float) (w : World),
         fst (LimitOrderManager._validate_limit_order_inputs self s side q p w)
         = Ok (limit_validated (BasicBot.client (LimitOrderManager.bot self))
                               (trace w) s side q p)
         /\ exists n,
             trace (snd (LimitOrderManager._validate_limit_order_inputs
                           self s side q p w)) =
             trace w ++ repeat CallExchangeInfo n
             /\ (1 <= n <= 3)%nat
             /\ (n = 3%nat <->
                 market_validated
                   (BasicBot.client (LimitOrderManager.bot self))
                   (trace w) s side q = true
                 /\ Float64.leb p Float64.zero = false)).
Proof.
  split.
  - intros self s side q w.
    destruct (validate_market_run self s side q w) as [Hr Ht].
    split; [exact Hr|].
    eexists. split; [exact Ht|].
    unfold market_validation_requests, market_validated.
    destruct (first_checks _ _ _ _ _); cbn [andb]; split;
      try lia; try discriminate; auto.
  - intros self s side q p w.
    destruct (validate_limit_run self s side q p w) as [Hr Ht].
    split; [exact Hr|].
    eexists. split; [exact Ht|].
    unfold limit_validation_requests, market_validation_requests.
    destruct (market_validated _ _ _ _ _) eqn:Hm; cbn [andb].
    + destruct (Float64.leb p Float64.zero); cbn [negb].
      * unfold market_validated in Hm.
        destruct (first_checks _ _ _ _ _); [|discriminate].
        split; [lia|]. split; [discriminate|]. intros [_ H]. discriminate.
      * split; [lia|]. split; auto.
    + destruct (first_checks _ _ _ _ _); (split; [lia|]);
        (split; [discriminate|]); intros [H _]; discriminate.
Qed.

Lemma validation_is_the_conjunction_of_the_checks_witness :
  fst (MarketOrderManager._validate_market_order_inputs
         (market_of (mock_client tick_0_01)) "btcusdt" "buy"
         (Float64.decimal 1 3) empty_world) = Ok true
  /\ fst (LimitOrderManager._validate_limit_order_inputs
            (limit_of (mock_client tick_0_01)) "btcusdt" "buy"
            (Float64.decimal 1 3) (Float64.decimal 100005 3) empty_world)
     = Ok false.
Proof.
  split.
  - refine (eq_trans
              (proj1 (proj1 validation_is_the_conjunction_of_the_checks
                            (market_of (mock_client tick_0_01)) "btcusdt"%string
                            "buy"%string (Float64.decimal 1 3) empty_world))
              _).
    vm_compute. reflexivity.
  - refine (eq_trans
              (proj1 (proj2 validation_is_the_conjunction_of_the_checks
                            (limit_of (mock_client tick_0_01)) "btcusdt"%string
                            "buy"%string (Float64.decimal 1 3)
                            (Float64.decimal 100005 3) empty_world))
              _).
    vm_compute. reflexivity.
Defined.

(** ** What a placement does after the validation *)

Lemma place_market_run (self : MarketOrderManager.MarketOrderManager)
      (s side : string) (q : float) (w w1 : World) (b : bool) :
  MarketOrderManager._validate_market_order_inputs self s side q w
  = (Ok b, w1) ->
  MarketOrderManager.place_market_order self s side q w =
  if b then
    match futures_create_order
            (BasicBot.client (MarketOrderManager.bot self)) (trace w1)
            (market_request s side q) with
    | Ok order =>
        match Api.orderId order with
        | Some oid =>
            match futures_get_order
                    (BasicBot.client (MarketOrderManager.bot self))
                    (trace w1 ++ [CallCreateOrder (market_request s side q)])
                    (upper s) oid with
            | Ok info =>
                (Ok (Some {| MarketOrderManager.order_id := oid;
                             MarketOrderManager.symbol := s;
                             MarketOrderManager.side := side;
                             MarketOrderManager.quantity := q;
                             MarketOrderManager.type := "MARKET";
                             MarketOrderManager.status :=
                               Api.order_status info;
                             MarketOrderManager.raw_response := order |}),
                 {| trace := trace w1 ++
                             [CallCreateOrder (market_request s side q);
                              CallGetOrder (upper s) oid];
                    log := log w1 ++ [(INFO, PlacingMarketOrder side q s);
                                      (INFO, MarketOrderPlaced order)] |})
            | Raise e =>
                (Ok (Some {| MarketOrderManager.order_id := oid;
                             MarketOrderManager.symbol := s;
                             MarketOrderManager.side := side;
                             MarketOrderManager.quantity := q;
                             MarketOrderManager.type := "MARKET";
                             MarketOrderManager.status := None;
                             MarketOrderManager.raw_response := order |}),
                 {| trace := trace w1 ++
                             [CallCreateOrder (market_request s side q);
                              CallGetOrder (upper s) oid];
                    log := log w1 ++ [(INFO, PlacingMarketOrder side q s);
                                      (INFO, MarketOrderPlaced order);
                                      (ERROR, FailedToGetOrderStatus e)] |})
            end
        | None =>
            (Ok None,
             {| trace := trace w1 ++
                         [CallCreateOrder (market_request s side q)];
                log := log w1 ++
                       [(INFO, PlacingMarketOrder side q s);
                        (INFO, MarketOrderPlaced order);
                        (ERROR, FailedToPlaceMarketOrder
                                  (KeyError "orderId"))] |})
        end
    | Raise e =>
        (Ok None,
         {| trace := trace w1 ++ [CallCreateOrder (market_request s side q)];
            log := log w1 ++ [(INFO, PlacingMarketOrder side q s);
                              (ERROR, FailedToPlaceMarketOrder e)] |})
    end
  else (Ok None, w1).
Proof.
  intros Hv.
  unfold MarketOrderManager.place_market_order, try_except, bind.
  rewrite Hv. destruct b; [|reflexivity].
  unfold MarketOrderManager._get_order_status, market_request. run.
  destruct (futures_create_order _ _ _) as [order|e];
    [|simpl; rewrite <- ?app_assoc; reflexivity].
  destruct (Api.orderId order) as [oid|]; simpl;
    [|rewrite <- ?app_assoc; reflexivity].
  rewrite <- ?app_assoc. simpl.
  destruct (futures_get_order _ _ _ _) as [info|e]; simpl;
    rewrite <- ?app_assoc; reflexivity.
Qed.

Lemma place_limit_run (self : LimitOrderManager.LimitOrderManager)
      (s side : string) (q p : float) (w w1 : World) (b : bool) :
  LimitOrderManager._validate_limit_order_inputs self s side q p w
  = (Ok b, w1) ->
  LimitOrderManager.place_limit_order self s side q p w =
  if b then
    match futures_create_order
            (BasicBot.client (LimitOrderManager.bot self)) (trace w1)
            (limit_request s side q p) with
    | Ok order =>
        match Api.orderId order with
        | Some oid =>
            match futures_get_order
                    (BasicBot.client (LimitOrderManager.bot self))
                    (trace w1 ++ [CallCreateOrder (limit_request s side q p)])
                    (upper s) oid with
            | Ok info =>
                (Ok (Some {| LimitOrderManager.order_id := oid;
                             LimitOrderManager.symbol := s;
                             LimitOrderManager.side := side;
                             LimitOrderManager.quantity := q;
                             LimitOrderManager.price := p;
                             LimitOrderManager.type := "LIMIT";
                             LimitOrderManager.status :=
                               Api.order_status info;
                             LimitOrderManager.raw_response := order |}),
                 {| trace := trace w1 ++
                             [CallCreateOrder (limit_request s side q p);
                              CallGetOrder (upper s) oid];
                    log := log w1 ++ [(INFO, PlacingLimitOrder side q s p);
                                      (INFO, LimitOrderPlaced order)] |})
            | Raise e =>
                (Ok (Some {| LimitOrderManager.order_id := oid;
                             LimitOrderManager.symbol := s;
                             LimitOrderManager.side := side;
                             LimitOrderManager.quantity := q;
                             LimitOrderManager.price := p;
                             LimitOrderManager.type := "LIMIT";
                             LimitOrderManager.status := None;
                             LimitOrderManager.raw_response := order |}),
                 {| trace := trace w1 ++
                             [CallCreateOrder (limit_request s side q p);
                              CallGetOrder (upper s) oid];
                    log := log w1 ++ [(INFO, PlacingLimitOrder side q s p);
                                      (INFO, LimitOrderPlaced order);
                                      (ERROR, FailedToGetOrderStatus e)] |})
            end
        | None =>
            (Ok None,
             {| trace := trace w1 ++
                         [CallCreateOrder (limit_request s side q p)];
                log := log w1 ++
                       [(INFO, PlacingLimitOrder side q s p);
                        (INFO, LimitOrderPlaced order);
                        (ERROR, FailedToPlaceLimitOrder
                                  (KeyError "orderId"))] |})
        end
    | Raise e =>
        (Ok None,
         {| trace := trace w1 ++ [CallCreateOrder (limit_request s side q p)];
            log := log w1 ++ [(INFO, PlacingLimitOrder side q s p);
                              (ERROR, FailedToPlaceLimitOrder e)] |})
    end
  else (Ok None, w1).
Proof.
  intros Hv.
  unfold LimitOrderManager.place_limit_order, try_except, bind.
  rewrite Hv. destruct b; [|reflexivity].
  unfold LimitOrderManager._get_order_status, limit_request. run.
  destruct (futures_create_order _ _ _) as [order|e];
    [|simpl; rewrite <- ?app_assoc; reflexivity].
  destruct (Api.orderId order) as [oid|]; simpl;
    [|rewrite <- ?app_assoc; reflexivity].
  rewrite <- ?app_assoc. simpl.
  destruct (futures_get_order _ _ _ _) as [info|e]; simpl;
    rewrite <- ?app_assoc; reflexivity.
Qed.

Lemma market_validation_requests_bounds (c : Client) (tr : list GwCall)
      (s side : string) (q : float) :
  (1 <= market_validation_requests c tr s side q <= 2)%nat.
Proof.
  unfold market_validation_requests.
  destruct (first_checks c tr s side q); lia.
Qed.

Lemma limit_validation_requests_bounds (c : Client) (tr : list GwCall)
      (s side : string) (q p : float) :
  (1 <= limit_validation_requests c tr s side q p <= 3)%nat.
Proof.
  unfold limit_validation_requests.
  pose proof (market_validation_requests_bounds c tr s side q).
  destruct (_ && _); lia.
Qed.

Lemma place_market_calls (self : MarketOrderManager.MarketOrderManager)
      (s side : string) (q : float) (w : World) :
  exists n r,
    (1 <= n <= 2)%nat
    /\ fst (MarketOrderManager.place_market_order self s side q w) = Ok r
    /\ trace (snd (MarketOrderManager.place_market_order self s side q w)) =
       trace w ++ repeat CallExchangeInfo n ++
       (if market_validated (BasicBot.client (MarketOrderManager.bot self))
                            (trace w) s side q
        then calls_of_order (BasicBot.client (MarketOrderManager.bot self))
                            (trace w ++ repeat CallExchangeInfo n) s
                            (market_request s side q)
        else [])
    /\ (r <> None <->
        market_validated (BasicBot.client (MarketOrderManager.bot self))
                         (trace w) s side q = true
        /\ exists order oid,
            futures_create_order
              (BasicBot.client (MarketOrderManager.bot self))
              (trace w ++ repeat CallExchangeInfo n)
              (market_request s side q) = Ok order
            /\ Api.orderId order = Some oid).
Proof.
  destruct (validate_market_run self s side q w) as [Hr Ht].
  pose proof (market_validation_requests_bounds
                (BasicBot.client (MarketOrderManager.bot self)) (trace w)
                s side q) as Hn.
  exists (market_validation_requests
            (BasicBot.client (MarketOrderManager.bot self)) (trace w) s side q).
  destruct (MarketOrderManager._validate_market_order_inputs self s side q w)
    as [r0 w1] eqn:Hv.
  cbn [fst snd] in Hr, Ht. subst r0.
  rewrite (place_market_run self s side q w w1 _ Hv).
  rewrite <- Ht.
  destruct (market_validated _ _ _ _ _).
  - unfold calls_of_order.
    destruct (futures_create_order _ _ _) as [order|e].
    + destruct (Api.orderId order) as [oid|] eqn:Hoid.
      * destruct (futures_get_order _ _ _ _) as [info|e];
          eexists; (split; [exact Hn|]); (split; [reflexivity|]);
          (split; [cbn [snd trace]; rewrite Ht, <- app_assoc; reflexivity|]);
          (split; [intros _; split; [reflexivity|]; eauto|discriminate]).
      * exists None. split; [exact Hn|]. split; [reflexivity|].
        split; [cbn [snd trace]; rewrite Ht, <- app_assoc; reflexivity|].
        split; [congruence|]. intros (_ & o & i & Ho & Hi).
        injection Ho as <-. congruence.
    + exists None. split; [exact Hn|]. split; [reflexivity|].
      split; [cbn [snd trace]; rewrite Ht, <- app_assoc; reflexivity|].
      split; [congruence|]. intros (_ & o & i & Ho & Hi). discriminate.
  - exists None. split; [exact Hn|]. split; [reflexivity|].
    split; [cbn [snd]; rewrite Ht, app_nil_r; reflexivity|].
    split; [congruence|]. intros [H _]. discriminate.
Qed.

Lemma place_limit_calls (self : LimitOrderManager.LimitOrderManager)
      (s side : string) (q p : float) (w : World) :
  exists n r,
    (1 <= n <= 3)%nat
    /\ fst (LimitOrderManager.place_limit_order self s side q p w) = Ok r
    /\ trace (snd (LimitOrderManager.place_limit_order self s side q p w)) =
       trace w ++ repeat CallExchangeInfo n ++
       (if limit_validated (BasicBot.client (LimitOrderManager.bot self))
                           (trace w) s side q p
        then calls_of_order (BasicBot.client (LimitOrderManager.bot self))
                            (trace w ++ repeat CallExchangeInfo n) s
                            (limit_request s side q p)
        else [])
    /\ (r <> None <->
        limit_validated (BasicBot.client (LimitOrderManager.bot self))
                        (trace w) s side q p = true
        /\ exists order oid,
            futures_create_order
              (BasicBot.client (LimitOrderManager.bot self))
              (trace w ++ repeat CallExchangeInfo n)
              (limit_request s side q p) = Ok order
            /\ Api.orderId order = Some oid).
Proof.
  destruct (validate_limit_run self s side q p w) as [Hr Ht].
  pose proof (limit_validation_requests_bounds
                (BasicBot.client (LimitOrderManager.bot self)) (trace w)
                s side q p) as Hn.
  exists (limit_validation_requests
            (BasicBot.client (LimitOrderManager.bot self)) (trace w)
            s side q p).
  destruct (LimitOrderManager._validate_limit_order_inputs self s side q p w)
    as [r0 w1] eqn:Hv.
  cbn [fst snd] in Hr, Ht. subst r0.
  rewrite (place_limit_run self s side q p w w1 _ Hv).
  rewrite <- Ht.
  destruct (limit_validated _ _ _ _ _ _).
  - unfold calls_of_order.
    destruct (futures_create_order _ _ _) as [order|e].
    + destruct (Api.orderId order) as [oid|] eqn:Hoid.
      * destruct (futures_get_order _ _ _ _) as [info|e];
          eexists; (split; [exact Hn|]); (split; [reflexivity|]);
          (split; [cbn [snd trace]; rewrite Ht, <- app_assoc; reflexivity|]);
          (split; [intros _; split; [reflexivity|]; eauto|discriminate]).
      * exists None. split; [exact Hn|]. split; [reflexivity|].
        split; [cbn [snd trace]; rewrite Ht, <- app_assoc; reflexivity|].
        split; [congruence|]. intros (_ & o & i & Ho & Hi).
        injection Ho as <-. congruence.
    + exists None. split; [exact Hn|]. split; [reflexivity|].
      split; [cbn [snd trace]; rewrite Ht, <- app_assoc; reflexivity|].
      split; [congruence|]. intros (_ & o & i & Ho & Hi). discriminate.
  - exists None. split; [exact Hn|]. split; [reflexivity|].
    split; [cbn [snd]; rewrite Ht, app_nil_r; reflexivity|].
    split; [congruence|]. intros [H _]. discriminate.
Qed.

(** X6: [place_market_order] and [place_limit_order] never raise, and
    their client calls are, in this order: one to two (market) or one to
    three (limit) metadata requests; then, exactly when the validation
    passed, one submission of the request built from the arguments; then,
    exactly when the gateway accepted it with an [orderId], one status query
    for the upper-cased symbol and that id.  No other call is made.  The
    result is a record exactly when the validation passed and the gateway
    accepted the submission with an [orderId]. *)
Theorem placement_client_calls :
  (forall (self : MarketOrderManager.MarketOrderManager) (s side : string)
          (q : float) (w : World),
      exists n r,
        (1 <= n <= 2)%nat
        /\ fst (MarketOrderManager.place_market_order self s side q w) = Ok r
        /\ trace (snd (MarketOrderManager.place_market_order
                         self s side q w)) =
           trace w ++ repeat CallExchangeInfo n ++
           (if market_validated
                 (BasicBot.client (MarketOrderManager.bot self))
                 (trace w) s side q
            then calls_of_order
                   (BasicBot.client (MarketOrderManager.bot self))
                   (trace w ++ repeat CallExchangeInfo n) s
                   (market_request s side q)
            else [])
        /\ (r <> None <->
            market_validated (BasicBot.client (MarketOrderManager.bot self))
                             (trace w) s side q = true
            /\ exists order oid,
                futures_create_order
                  (BasicBot.client (MarketOrderManager.bot self))
                  (trace w ++ repeat CallExchangeInfo n)
                  (market_request s side q) = Ok order
                /\ Api.orderId order = Some oid))
  /\ (forall (self : LimitOrderManager.LimitOrderManager) (s side : string)
             (q p : float) (w : World),
         exists n r,
           (1 <= n <= 3)%nat
           /\ fst (LimitOrderManager.place_limit_order self s side q p w)
              = Ok r
           /\ trace (snd (LimitOrderManager.place_limit_order
                            self s side q p w)) =
              trace w ++ repeat CallExchangeInfo n ++
              (if limit_validated
                    (BasicBot.client (LimitOrderManager.bot self))
                    (trace w) s side q p
               then calls_of_order
                      (BasicBot.client (LimitOrderManager.bot self))
                      (trace w ++ repeat CallExchangeInfo n) s
                      (limit_request s side q p)
               else [])
           /\ (r <> None <->
               limit_validated (BasicBot.client (LimitOrderManager.bot self))
                               (trace w) s side q p = true
               /\ exists order oid,
                   futures_create_order
                     (BasicBot.client (LimitOrderManager.bot self))
                     (trace w ++ repeat CallExchangeInfo n)
                     (limit_request s side q p) = Ok order
                   /\ Api.orderId order = Some oid)).
Proof.
  split.
  - apply place_market_calls.
  - apply place_limit_calls.
Qed.

Lemma placement_client_calls_witness :
  exists n r,
    (1 <= n <= 2)%nat
    /\ fst (MarketOrderManager.place_market_order
              (market_of (no_id_client tick_0_01)) "btcusdt" "buy"
              (Float64.decimal 1 3) empty_world) = Ok r
    /\ trace (snd (MarketOrderManager.place_market_order
                     (market_of (no_id_client tick_0_01)) "btcusdt" "buy"
                     (Float64.decimal 1 3) empty_world)) =
       [] ++ repeat CallExchangeInfo n ++
       (if market_validated (no_id_client tick_0_01) [] "btcusdt" "buy"
                            (Float64.decimal 1 3)
        then calls_of_order (no_id_client tick_0_01)
                            ([] ++ repeat CallExchangeInfo n) "btcusdt"
                            (market_request "btcusdt" "buy"
                                            (Float64.decimal 1 3))
        else [])
    /\ (r <> None <->
        market_validated (no_id_client tick_0_01) [] "btcusdt" "buy"
                         (Float64.decimal 1 3) = true
        /\ exists order oid,
            futures_create_order (no_id_client tick_0_01)
              ([] ++ repeat CallExchangeInfo n)
              (market_request "btcusdt" "buy" (Float64.decimal 1 3))
            = Ok order
            /\ Api.orderId order = Some oid).
Proof.
  exact (proj1 placement_client_calls (market_of (no_id_client tick_0_01))
               "btcusdt"%string "buy"%string (Float64.decimal 1 3)
               empty_world).
Defined.

(** ** Submitted orders *)

Lemma positive_of_not_leb (q m : float) :
  Float64.leb q Float64.zero = false ->
  Float64.geb q m = true ->
  Float64.ltb Float64.zero q = true.
Proof.
  destruct q as [sq|sq| |sq mq eq]; try (destruct sq); simpl;
    try discriminate; try reflexivity.
  intros _. unfold Float64.geb. rewrite leb_nan_r. discriminate.
Qed.

Lemma positive_number (p : float) :
  Float64.leb p Float64.zero = false ->
  is_number p = true ->
  Float64.ltb Float64.zero p = true.
Proof.
  destruct p as [sp|sp| |sp mp ep]; try (destruct sp); simpl;
    try discriminate; reflexivity.
Qed.

Lemma filter_create_repeat (n : nat) :
  filter is_create_order (repeat CallExchangeInfo n) = [].
Proof. induction n; simpl; auto. Qed.

Lemma submissions_of_trace (w : World) (tr : list GwCall) :
  trace w = tr -> submissions w = filter is_create_order tr.
Proof. intros <-. reflexivity. Qed.

Lemma calls_of_order_submissions (c : Client) (tr : list GwCall)
      (s : string) (req : OrderRequest) :
  filter is_create_order (calls_of_order c tr s req) = [CallCreateOrder req].
Proof.
  unfold calls_of_order. simpl.
  destruct (futures_create_order c tr req) as [order|e]; [|reflexivity].
  destruct (Api.orderId order); reflexivity.
Qed.

Lemma market_submissions (self : MarketOrderManager.MarketOrderManager)
      (s side : string) (q : float) (w : World) :
  submissions (snd (MarketOrderManager.place_market_order self s side q w)) =
  submissions w ++
  (if market_validated (BasicBot.client (MarketOrderManager.bot self))
                       (trace w) s side q
   then [CallCreateOrder (market_request s side q)]
   else []).
Proof.
  destruct (place_market_calls self s side q w) as (n & r & _ & _ & Ht & _).
  rewrite (submissions_of_trace _ _ Ht).
  rewrite !filter_app. f_equal.
  rewrite filter_create_repeat.
  simpl. destruct (market_validated _ _ _ _ _); [|reflexivity].
  apply calls_of_order_submissions.
Qed.

Lemma limit_submissions (self : LimitOrderManager.LimitOrderManager)
      (s side : string) (q p : float) (w : World) :
  submissions (snd (LimitOrderManager.place_limit_order self s side q p w)) =
  submissions w ++
  (if limit_validated (BasicBot.client (LimitOrderManager.bot self))
                      (trace w) s side q p
   then [CallCreateOrder (limit_request s side q p)]
   else []).
Proof.
  destruct (place_limit_calls self s side q p w) as (n & r & _ & _ & Ht & _).
  rewrite (submissions_of_trace _ _ Ht).
  rewrite !filter_app. f_equal.
  rewrite filter_create_repeat.
  simpl. destruct (limit_validated _ _ _ _ _ _); [|reflexivity].
  apply calls_of_order_submissions.
Qed.

Lemma market_validated_facts (c : Client) (tr : list GwCall)
      (s side : string) (q : float) :
  market_validated c tr s side q = true ->
  In (upper side) ["BUY"; "SELL"]%string
  /\ Float64.ltb Float64.zero q = true
  /\ (exists ei,
         futures_exchange_info c tr = Ok ei
         /\ In (upper s) (trading_symbols ei))
  /\ (exists ei f m,
         futures_exchange_info c (tr ++ [CallExchangeInfo]) = Ok ei
         /\ lot_size_of s ei = Some f
         /\ Api.minQty f = Some (PyNum m)
         /\ Float64.leb m q = true).
Proof.
  unfold market_validated, first_checks, symbol_checked, side_checked,
    quantity_checked, quantity_verdict.
  intros H.
  apply andb_prop in H as [H Hq]. apply andb_prop in H as [H Hz].
  apply andb_prop in H as [Hs Hside].
  apply negb_true_iff in Hz.
  destruct (futures_exchange_info c tr) as [ei|] eqn:He; [|discriminate].
  destruct (futures_exchange_info c (tr ++ [CallExchangeInfo])) as [ei2|]
    eqn:He2; [|discriminate].
  destruct (lot_size_of s ei2) as [f|] eqn:Hl; [|discriminate].
  destruct (Api.minQty f) as [[m|]|] eqn:Hm; try discriminate.
  split; [now apply str_in_In|].
  split; [exact (positive_of_not_leb q m Hz Hq)|].
  split.
  - exists ei. split; [reflexivity|]. now apply str_in_In.
  - exists ei2, f, m. repeat split; auto.
Qed.

Lemma limit_validated_facts (c : Client) (tr : list GwCall)
      (s side : string) (q p : float) :
  limit_validated c tr s side q p = true ->
  market_validated c tr s side q = true
  /\ Float64.leb p Float64.zero = false
  /\ exists ei,
      futures_exchange_info c (tr ++ [CallExchangeInfo; CallExchangeInfo])
      = Ok ei
      /\ price_verdict s p ei = true
      /\ forall info f,
          metadata_of s ei = Some info ->
          filter_of_type "PRICE_FILTER" info = Some f ->
          exists t,
            Api.tickSize f = Some (PyNum t)
            /\ tick_test p t = Ok true
            /\ Float64.ltb Float64.zero p = true.
Proof.
  unfold limit_validated, price_checked. intros H.
  apply andb_prop in H as [H Hp]. apply andb_prop in H as [Hm Hz].
  apply negb_true_iff in Hz.
  split; [exact Hm|]. split; [exact Hz|].
  destruct (futures_exchange_info c _) as [ei|]; [|discriminate].
  exists ei. split; [reflexivity|]. split; [exact Hp|].
  intros info f Hi Hf. unfold price_verdict in Hp. rewrite Hi, Hf in Hp.
  destruct (Api.tickSize f) as [[t|]|]; try discriminate.
  exists t. split; [reflexivity|].
  destruct (tick_test p t) as [[|]|] eqn:Ht; try discriminate.
  split; [reflexivity|].
  apply positive_number; [exact Hz|].
  apply (tick_test_numbers p t Ht).
Qed.

(** X7: an order that reaches the exchange has passed every check.  When
    [place_market_order] adds a submission, it adds exactly one, the request
    built from the arguments; the upper-cased side is BUY or SELL; the
    quantity is greater than zero (so it is not a NaN); the first metadata
    response lists the upper-cased symbol as trading; and the second one has
    a LOT_SIZE filter for the symbol whose numeric minimum the quantity
    reaches.  For [place_limit_order], moreover, the price is not [<= 0],
    the third metadata response has an entry for the symbol, and if that
    entry has a PRICE_FILTER then its tick size is a number, the tick test
    returns [True] and the price is greater than zero. *)
Theorem submitted_orders_passed_the_checks :
  (forall (self : MarketOrderManager.MarketOrderManager) (s side : string)
          (q : float) (w : World),
      submissions (snd (MarketOrderManager.place_market_order self s side q w))
      <> submissions w ->
      submissions (snd (MarketOrderManager.place_market_order self s side q w))
      = submissions w ++ [CallCreateOrder (market_request s side q)]
      /\ In (upper side) ["BUY"; "SELL"]%string
      /\ Float64.ltb Float64.zero q = true
      /\ (exists ei,
             futures_exchange_info
               (BasicBot.client (MarketOrderManager.bot self)) (trace w)
             = Ok ei
             /\ In (upper s) (trading_symbols ei))
      /\ (exists ei f m,
             futures_exchange_info
               (BasicBot.client (MarketOrderManager.bot self))
               (trace w ++ [CallExchangeInfo]) = Ok ei
             /\ lot_size_of s ei = Some f
             /\ Api.minQty f = Some (PyNum m)
             /\ Float64.leb m q = true))
  /\ (forall (self : LimitOrderManager.LimitOrderManager) (s side : string)
             (q p : float) (w : World),
         submissions (snd (LimitOrderManager.place_limit_order
                             self s side q p w))
         <> submissions w ->
         submissions (snd (LimitOrderManager.place_limit_order
                             self s side q p w))
         = submissions w ++ [CallCreateOrder (limit_request s side q p)]
         /\ In (upper side) ["BUY"; "SELL"]%string
         /\ Float64.ltb Float64.zero q = true
         /\ (exists ei,
                futures_exchange_info
                  (BasicBot.client (LimitOrderManager.bot self)) (trace w)
                = Ok ei
                /\ In (upper s) (trading_symbols ei))
         /\ (exists ei f m,
                futures_exchange_info
                  (BasicBot.client (LimitOrderManager.bot self))
                  (trace w ++ [CallExchangeInfo]) = Ok ei
                /\ lot_size_of s ei = Some f
                /\ Api.minQty f = Some (PyNum m)
                /\ Float64.leb m q = true)
         /\ Float64.leb p Float64.zero = false
         /\ (exists ei info,
                futures_exchange_info
                  (BasicBot.client (LimitOrderManager.bot self))
                  (trace w ++ [CallExchangeInfo; CallExchangeInfo]) = Ok ei
                /\ metadata_of s ei = Some info
                /\ forall f,
                    filter_of_type "PRICE_FILTER" info = Some f ->
                    exists t,
                      Api.tickSize f = Some (PyNum t)
                      /\ tick_test p t = Ok true
                      /\ Float64.ltb Float64.zero p = true)).
Proof.
  split.
  - intros self s side q w H.
    rewrite (market_submissions self s side q w) in *.
    destruct (market_validated _ _ _ _ _) eqn:Hv.
    + split; [reflexivity|]. now apply market_validated_facts in Hv.
    + rewrite app_nil_r in H. contradiction.
  - intros self s side q p w H.
    rewrite (limit_submissions self s side q p w) in *.
    destruct (limit_validated _ _ _ _ _ _) eqn:Hv.
    + split; [reflexivity|].
      apply limit_validated_facts in Hv as (Hm & Hz & ei & He & Hp & Hf).
      apply market_validated_facts in Hm as (H1 & H2 & H3 & H4).
      repeat (split; [assumption|]).
      unfold price_verdict in Hp.
      destruct (metadata_of s ei) as [info|] eqn:Hi; [|discriminate].
      exists ei, info. split; [exact He|]. split; [exact Hi|].
      intros f Hfil. exact (Hf info f eq_refl Hfil).
    + rewrite app_nil_r in H. contradiction.
Qed.

Lemma submitted_orders_passed_the_checks_witness :
  submissions
    (snd (LimitOrderManager.place_limit_order
            (limit_of (mock_client tick_0_01)) "btcusdt" "buy"
            (Float64.decimal 1 3) (Float64.decimal 10000 2) empty_world))
  <> submissions empty_world
  /\ In "BUY"%string ["BUY"; "SELL"]%string
  /\ Float64.ltb Float64.zero (Float64.decimal 1 3) = true
  /\ Float64.leb (Float64.decimal 10000 2) Float64.zero = false.
Proof.
  assert (H : submissions
                (snd (LimitOrderManager.place_limit_order
                        (limit_of (mock_client tick_0_01)) "btcusdt" "buy"
                        (Float64.decimal 1 3) (Float64.decimal 10000 2)
                        empty_world))
              <> submissions empty_world)
    by (vm_compute; discriminate).
  destruct (proj2 submitted_orders_passed_the_checks
                  (limit_of (mock_client tick_0_01)) "btcusdt"%string
                  "buy"%string (Float64.decimal 1 3) (Float64.decimal 10000 2)
                  empty_world H) as (_ & H1 & H2 & _ & _ & H3 & _).
  exact (conj H (conj H1 (conj H2 H3))).
Defined.

(** ** Quantities and prices that are not numbers *)

Lemma quantity_verdict_nan (s : string) (ei : Api.ExchangeInfo) :
  quantity_verdict s S754_nan ei = false.
Proof.
  unfold quantity_verdict.
  destruct (lot_size_of s ei) as [f|]; [|reflexivity].
  destruct (Api.minQty f) as [[m|]|]; try reflexivity.
  apply leb_nan_r.
Qed.

Lemma market_validated_nan (c : Client) (tr : list GwCall)
      (s side : string) :
  market_validated c tr s side S754_nan = false.
Proof.
  unfold market_validated, quantity_checked.
  destruct (futures_exchange_info c (tr ++ [CallExchangeInfo]));
    [rewrite quantity_verdict_nan|]; apply andb_false_r.
Qed.

(** X8: an order whose quantity is a NaN is never submitted, whatever the
    gateway answers: the quantity passes the sign check ([nan <= 0] is
    false) but no minimum is reached by it.  [place_market_order] and
    [place_limit_order] return [None] and add no submission. *)
Theorem nan_quantity_is_never_submitted :
  (forall (self : MarketOrderManager.MarketOrderManager) (s side : string)
          (w : World),
      fst (MarketOrderManager.place_market_order self s side S754_nan w)
      = Ok None
      /\ submissions (snd (MarketOrderManager.place_market_order
                             self s side S754_nan w)) = submissions w)
  /\ (forall (self : LimitOrderManager.LimitOrderManager) (s side : string)
             (p : float) (w : World),
         fst (LimitOrderManager.place_limit_order self s side S754_nan p w)
         = Ok None
         /\ submissions (snd (LimitOrderManager.place_limit_order
                                self s side S754_nan p w)) = submissions w).
Proof.
  split.
  - intros self s side w. split.
    + destruct (place_market_calls self s side S754_nan w)
        as (n & r & _ & Hr & _ & Hi).
      rewrite Hr. destruct r as [r|]; [|reflexivity].
      destruct (proj1 Hi) as [Hv _]; [discriminate|].
      now rewrite market_validated_nan in Hv.
    + rewrite market_submissions, market_validated_nan. apply app_nil_r.
  - intros self s side p w.
    assert (Hn : limit_validated
                   (BasicBot.client (LimitOrderManager.bot self)) (trace w)
                   s side S754_nan p = false)
      by (unfold limit_validated; now rewrite market_validated_nan).
    split.
    + destruct (place_limit_calls self s side S754_nan p w)
        as (n & r & _ & Hr & _ & Hi).
      rewrite Hr. destruct r as [r|]; [|reflexivity].
      destruct (proj1 Hi) as [Hv _]; [discriminate|].
      now rewrite Hn in Hv.
    + rewrite limit_submissions, Hn. apply app_nil_r.
Qed.

Lemma leb_infinity (m : float) :
  m <> S754_nan -> Float64.leb m (S754_infinity false) = true.
Proof.
  destruct m as [sm|sm| |sm mm em]; try (destruct sm); try reflexivity.
  intros H. now contradiction H.
Qed.

(** X9: values that are not numbers and pass the validation.  An infinite
    quantity passes the quantity check whenever the symbol's minimum is a
    number, so that, the symbol being a trading one and the side BUY or
    SELL, [place_market_order] submits an order of infinite quantity.  A
    NaN price passes the price check of a symbol without a PRICE_FILTER, so
    that [place_limit_order] submits an order whose price is a NaN. *)
Theorem non_numbers_that_are_submitted :
  (forall (self : MarketOrderManager.MarketOrderManager) (s side : string)
          (w : World) (ei : Api.ExchangeInfo) (f : Api.Filter) (m : float),
      (forall tr,
          futures_exchange_info
            (BasicBot.client (MarketOrderManager.bot self)) tr = Ok ei) ->
      In (upper s) (trading_symbols ei) ->
      In (upper side) ["BUY"; "SELL"]%string ->
      lot_size_of s ei = Some f ->
      Api.minQty f = Some (PyNum m) ->
      m <> S754_nan ->
      submissions (snd (MarketOrderManager.place_market_order
                          self s side (S754_infinity false) w)) =
      submissions w ++
      [CallCreateOrder (market_request s side (S754_infinity false))])
  /\ (forall (self : LimitOrderManager.LimitOrderManager) (s side : string)
             (q : float) (w : World) (ei : Api.ExchangeInfo)
             (info : Api.SymbolInfo),
         (forall tr,
             futures_exchange_info
               (BasicBot.client (LimitOrderManager.bot self)) tr = Ok ei) ->
         market_validated (BasicBot.client (LimitOrderManager.bot self))
                          (trace w) s side q = true ->
         metadata_of s ei = Some info ->
         filter_of_type "PRICE_FILTER" info = None ->
         submissions (snd (LimitOrderManager.place_limit_order
                             self s side q S754_nan w)) =
         submissions w ++
         [CallCreateOrder (limit_request s side q S754_nan)]).
Proof.
  split.
  - intros self s side w ei f m He Hs Hside Hl Hm Hnan.
    rewrite market_submissions.
    unfold market_validated, first_checks, symbol_checked, side_checked,
      quantity_checked, quantity_verdict.
    rewrite !He, Hl, Hm.
    apply str_in_In in Hs, Hside. rewrite Hs, Hside.
    change (Float64.geb (S754_infinity false) m)
      with (Float64.leb m (S754_infinity false)).
    rewrite (leb_infinity m Hnan). reflexivity.
  - intros self s side q w ei info He Hv Hi Hf.
    rewrite limit_submissions.
    unfold limit_validated, price_checked, price_verdict.
    rewrite Hv, He, Hi, Hf. reflexivity.
Qed.

Lemma non_numbers_that_are_submitted_witness :
  submissions (snd (MarketOrderManager.place_market_order
                      (market_of (mock_client tick_0_01)) "btcusdt" "buy"
                      (S754_infinity false) empty_world)) =
  [CallCreateOrder (market_request "btcusdt" "buy" (S754_infinity false))]
  /\ submissions (snd (LimitOrderManager.place_limit_order
                         (limit_of (metadata_client lot_only_exchange_info))
                         "btcusdt" "buy" (Float64.decimal 1 3) S754_nan
                         empty_world)) =
     [CallCreateOrder
        (limit_request "btcusdt" "buy" (Float64.decimal 1 3) S754_nan)].
Proof.
  split.
  - refine (proj1 non_numbers_that_are_submitted
                  (market_of (mock_client tick_0_01)) "btcusdt"%string
                  "buy"%string empty_world (mock_exchange_info tick_0_01)
                  {| Api.filterType := "LOT_SIZE";
                     Api.minQty := Some (PyNum (Float64.decimal 1 3));
                     Api.tickSize := None |}
                  (Float64.decimal 1 3) _ _ _ _ _ _).
    + reflexivity.
    + simpl. auto.
    + simpl. auto.
    + reflexivity.
    + reflexivity.
    + vm_compute. discriminate.
  - refine (proj2 non_numbers_that_are_submitted
                  (limit_of (metadata_client lot_only_exchange_info))
                  "btcusdt"%string "buy"%string (Float64.decimal 1 3)
                  empty_world lot_only_exchange_info
                  {| Api.symbol := "BTCUSDT"; Api.status := "TRADING";
                     Api.filters :=
                       [ {| Api.filterType := "LOT_SIZE";
                            Api.minQty := Some (PyNum (Float64.decimal 1 3));
                            Api.tickSize := None |} ] |}
                  _ _ _ _).
    + reflexivity.
    + vm_compute. reflexivity.
    + reflexivity.
    + reflexivity.
Defined.

(** ** An accepted order without an id *)

(** X10: when the gateway accepts a submission but its response has no
    [orderId], [place_market_order] and [place_limit_order] return [None]
    although the order has been submitted: the submission is the last client
    call (no status query follows), and the log ends with the two INFO
    records of the placement and one ERROR record carrying the
    [KeyError]. *)
Theorem accepted_order_without_id_is_reported_as_failed :
  (forall (self : MarketOrderManager.MarketOrderManager) (s side : string)
          (q : float) (w w1 : World) (order : Api.Order),
      MarketOrderManager._validate_market_order_inputs self s side q w
      = (Ok true, w1) ->
      futures_create_order
        (BasicBot.client (MarketOrderManager.bot self)) (trace w1)
        (market_request s side q) = Ok order ->
      Api.orderId order = None ->
      MarketOrderManager.place_market_order self s side q w =
      (Ok None,
       {| trace := trace w1 ++ [CallCreateOrder (market_request s side q)];
          log := log w1 ++
                 [(INFO, PlacingMarketOrder side q s);
                  (INFO, MarketOrderPlaced order);
                  (ERROR, FailedToPlaceMarketOrder (KeyError "orderId"))] |}))
  /\ (forall (self : LimitOrderManager.LimitOrderManager) (s side : string)
             (q p : float) (w w1 : World) (order : Api.Order),
         LimitOrderManager._validate_limit_order_inputs self s side q p w
         = (Ok true, w1) ->
         futures_create_order
           (BasicBot.client (LimitOrderManager.bot self)) (trace w1)
           (limit_request s side q p) = Ok order ->
         Api.orderId order = None ->
         LimitOrderManager.place_limit_order self s side q p w =
         (Ok None,
          {| trace := trace w1 ++
                      [CallCreateOrder (limit_request s side q p)];
             log := log w1 ++
                    [(INFO, PlacingLimitOrder side q s p);
                     (INFO, LimitOrderPlaced order);
                     (ERROR, FailedToPlaceLimitOrder
                               (KeyError "orderId"))] |})).
Proof.
  split.
  - intros self s side q w w1 order Hv Hc Hid.
    rewrite (place_market_run self s side q w w1 true Hv), Hc, Hid.
    reflexivity.
  - intros self s side q p w w1 order Hv Hc Hid.
    rewrite (place_limit_run self s side q p w w1 true Hv), Hc, Hid.
    reflexivity.
Qed.

Lemma accepted_order_without_id_is_reported_as_failed_witness :
  MarketOrderManager.place_market_order
    (market_of (no_id_client tick_0_01)) "BTCUSDT" "buy"
    (Float64.decimal 1 3) empty_world =
  (Ok None,
   {| trace := [CallExchangeInfo; CallExchangeInfo] ++
               [CallCreateOrder
                  (market_request "BTCUSDT" "buy" (Float64.decimal 1 3))];
      log := [(INFO, SymbolIsValid "BTCUSDT");
              (INFO, QuantityIsValid (Float64.decimal 1 3) "BTCUSDT")] ++
             [(INFO, PlacingMarketOrder "buy" (Float64.decimal 1 3)
                                        "BTCUSDT");
              (INFO, MarketOrderPlaced no_id_order);
              (ERROR, FailedToPlaceMarketOrder (KeyError "orderId"))] |}).
Proof.
  refine (proj1 accepted_order_without_id_is_reported_as_failed
                (market_of (no_id_client tick_0_01)) "BTCUSDT"%string
                "buy"%string (Float64.decimal 1 3) empty_world
                {| trace := [CallExchangeInfo; CallExchangeInfo];
                   log := [(INFO, SymbolIsValid "BTCUSDT");
                           (INFO, QuantityIsValid (Float64.decimal 1 3)
                                                  "BTCUSDT")] |}
                no_id_order _ _ _).
  - vm_compute. reflexivity.
  - reflexivity.
  - reflexivity.
Defined.

(** ** Building the bot *)

(** X11: [BasicBot.__init__] raises exactly when [logging.FileHandler]
    raises on [bot.log] or the client constructor raises.  When the log file
    cannot be opened, [__init__] raises that exception at once, whatever the
    constructor would do: nothing is logged and no client call is made.  When
    the file is opened and the constructor raises, [__init__] raises the
    constructor's exception, after one ERROR record and without any client
    call.  When the file is opened and the constructor returns a client,
    [__init__] returns a bot after exactly one client call, the account
    request of the connection test; the bot's client has the testnet address
    when [testnet] is set and the constructor's address otherwise; and when
    the account request succeeds, three INFO records are written. *)
Theorem init_raises_exactly_when_logging_or_the_constructor_does
        (FileHandler : string -> PyResult unit)
        (Client_ : string -> string -> bool -> PyResult Client)
        (key secret : string) (testnet : bool) (w : World) :
  (forall e,
      FileHandler "bot.log"%string = Raise e ->
      BasicBot.__init__ FileHandler Client_ key secret testnet w =
      (Raise e, w))
  /\ (FileHandler "bot.log"%string = Ok tt ->
      (forall e,
          Client_ key secret testnet = Raise e ->
          BasicBot.__init__ FileHandler Client_ key secret testnet w =
          (Raise e,
           {| trace := trace w;
              log := log w ++ [(ERROR, FailedToInitializeBot e)] |}))
      /\ (forall c,
             Client_ key secret testnet = Ok c ->
             exists self,
               fst (BasicBot.__init__ FileHandler Client_ key secret
                                      testnet w) = Ok self
               /\ API_URL (BasicBot.client self) =
                  (if testnet
                   then "https://testnet.binancefuture.com"%string
                   else API_URL c)
               /\ trace (snd (BasicBot.__init__ FileHandler Client_ key
                                                secret testnet w)) =
                  trace w ++ [CallAccount]
               /\ forall ai,
                   futures_account c (trace w) = Ok ai ->
                   log (snd (BasicBot.__init__ FileHandler Client_ key
                                               secret testnet w)) =
                   log w ++ [(INFO, BotInitialized testnet);
                             (INFO, ConnectionSuccessful);
                             (INFO, AccountBalanceUSDT
                                      (Api.totalWalletBalance ai))])).
Proof.
  unfold BasicBot.__init__, BasicBot._setup_logging.
  unfold bind at 1. unfold lift at 1.
  split; [intros e ->; reflexivity|].
  intros ->. split.
  - intros e He. run. rewrite He. reflexivity.
  - intros c Hc. unfold BasicBot._test_connection. run.
    rewrite Hc. simpl.
    assert (Ha : futures_account
                   (if testnet
                    then set_API_URL c "https://testnet.binancefuture.com"
                    else c) (trace w) = futures_account c (trace w))
      by (destruct testnet; reflexivity).
    rewrite Ha.
    destruct (futures_account c (trace w)) as [ai|e]; simpl;
      eexists; (split; [reflexivity|]); simpl;
      (split; [destruct testnet; reflexivity|]);
      (split; [reflexivity|]).
    + intros ai' H. injection H as <-. now rewrite <- !app_assoc.
    + discriminate.
Qed.

Lemma init_raises_exactly_when_logging_or_the_constructor_does_witness :
  BasicBot.__init__ read_only (fun _ _ _ => Ok (mock_client tick_0_01))
                    "key" "secret" true empty_world =
  (Raise (OSError "Permission denied"), empty_world)
  /\ BasicBot.__init__ writable
                       (fun _ _ _ => Raise (GatewayError "bad key"))
                       "key" "secret" true empty_world =
     (Raise (GatewayError "bad key"),
      {| trace := [];
         log := [(ERROR, FailedToInitializeBot (GatewayError "bad key"))] |})
  /\ exists self,
      fst (BasicBot.__init__ writable
                             (fun _ _ _ => Ok (mock_client tick_0_01))
                             "key" "secret" true empty_world) = Ok self
      /\ API_URL (BasicBot.client self) =
         "https://testnet.binancefuture.com"%string.
Proof.
  split; [|split].
  - exact (proj1 (init_raises_exactly_when_logging_or_the_constructor_does
                    read_only (fun _ _ _ => Ok (mock_client tick_0_01))
                    "key" "secret" true empty_world)
                 (OSError "Permission denied") eq_refl).
  - exact (proj1 (proj2
                    (init_raises_exactly_when_logging_or_the_constructor_does
                       writable (fun _ _ _ => Raise (GatewayError "bad key"))
                       "key" "secret" true empty_world) eq_refl)
                 (GatewayError "bad key") eq_refl).
  - destruct (proj2 (proj2
                       (init_raises_exactly_when_logging_or_the_constructor_does
                          writable (fun _ _ _ => Ok (mock_client tick_0_01))
                          "key" "secret" true empty_world) eq_refl)
                    (mock_client tick_0_01) eq_refl)
      as (self & H1 & H2 & _).
    exists self. split; assumption.
Defined.

(** ** Cancelling and listing orders *)

Ltac io_run :=
  unfold io_bind, io_try, io_ret, io_lift, sys_exit, print, more_logger,
    call_futures_cancel_order, call_futures_get_open_orders,
    call_futures_account_trades, record_more_call, outcome_of in *;
  simpl in *.

(** X12: [cancel_order] never raises: it returns [True] when the gateway
    accepts the cancellation and [False] when the gateway raises.  It makes
    exactly one client call, the cancellation for the upper-cased symbol and
    the given id, which is the symbol that a placement for the same argument
    submits; it neither validates the symbol nor looks the order up, and it
    prints nothing.  The case of the symbol does not matter. *)
Theorem cancel_order_outcome (self : LimitOrderManager.LimitOrderManager)
        (client : ClientRest) (s : string) (oid : Z) (st : Session) :
  (exists b,
      fst (cancel_order self client s oid st) = Returned b
      /\ (b = true <->
          exists result,
            futures_cancel_order client (trace (world st)) (more_calls st)
                                 (upper s) oid = Ok result)
      /\ more_calls (snd (cancel_order self client s oid st)) =
         more_calls st ++ [CallCancelOrder (upper s) oid]
      /\ world (snd (cancel_order self client s oid st)) = world st
      /\ stdout (snd (cancel_order self client s oid st)) = stdout st)
  /\ (forall side q p,
         more_calls (snd (cancel_order self client s oid st)) =
         more_calls st ++
         [CallCancelOrder (req_symbol (limit_request s side q p)) oid])
  /\ cancel_order self client (upper s) oid st =
     cancel_order self client s oid st.
Proof.
  split; [|split].
  - unfold cancel_order. io_run.
    destruct (futures_cancel_order client _ _ _ _) as [result|e]; simpl.
    + exists true. repeat split; eauto.
    + exists false. repeat split; auto; try discriminate.
      intros [result H]. discriminate.
  - intros side q p. unfold cancel_order. io_run.
    destruct (futures_cancel_order client _ _ _ _); reflexivity.
  - unfold cancel_order. now rewrite upper_idempotent.
Qed.

Lemma get_open_orders_run (self : LimitOrderManager.LimitOrderManager)
      (client : ClientRest) (symbol : option string) (st : Session) :
  get_open_orders self client symbol st =
  match futures_get_open_orders client (trace (world st)) (more_calls st)
                                (open_orders_query symbol) with
  | Ok orders =>
      (Returned orders,
       {| world := world st;
          more_calls :=
            more_calls st ++ [CallGetOpenOrders (open_orders_query symbol)];
          more_log :=
            more_log st ++
            [(INFO, RetrievedOpenOrders (List.length orders))];
          stdout := stdout st |})
  | Raise e =>
      (Returned [],
       {| world := world st;
          more_calls :=
            more_calls st ++ [CallGetOpenOrders (open_orders_query symbol)];
          more_log := more_log st ++ [(ERROR, FailedToGetOpenOrders e)];
          stdout := stdout st |})
  end.
Proof.
  unfold get_open_orders, open_orders_query. io_run.
  destruct (truthy symbol); simpl;
    destruct (futures_get_open_orders client _ _ _); reflexivity.
Qed.

(** X13: [get_open_orders] never raises.  It makes exactly one client call:
    for the upper-cased symbol when a non-empty symbol is given, and for all
    symbols otherwise, so that an empty symbol lists the orders of every
    symbol, as [None] does.  It returns the gateway's list unchanged, and the
    empty list when the gateway raises: a failure and an account without
    open orders give the same result. *)
Theorem get_open_orders_outcome (self : LimitOrderManager.LimitOrderManager)
        (client : ClientRest) (symbol : option string) (st : Session) :
  fst (get_open_orders self client symbol st) =
  Returned
    match futures_get_open_orders client (trace (world st)) (more_calls st)
                                  (open_orders_query symbol) with
    | Ok orders => orders
    | Raise _ => []
    end
  /\ more_calls (snd (get_open_orders self client symbol st)) =
     more_calls st ++ [CallGetOpenOrders (open_orders_query symbol)]
  /\ world (snd (get_open_orders self client symbol st)) = world st
  /\ get_open_orders self client (Some ""%string) st =
     get_open_orders self client None st
  /\ (forall s, s <> ""%string ->
                open_orders_query (Some s) = Some (upper s)).
Proof.
  rewrite !get_open_orders_run.
  split; [|split; [|split; [|split]]].
  - destruct (futures_get_open_orders client _ _ _); reflexivity.
  - destruct (futures_get_open_orders client _ _ _); reflexivity.
  - destruct (futures_get_open_orders client _ _ _); reflexivity.
  - reflexivity.
  - intros s Hs. unfold open_orders_query. simpl.
    apply String.eqb_neq in Hs. now rewrite Hs.
Qed.

Lemma get_open_orders_outcome_witness :
  open_orders_query (Some "btcusdt"%string) = Some (upper "btcusdt").
Proof.
  apply (get_open_orders_outcome (limit_of down_client) down_rest None
                                 empty_session).
  discriminate.
Defined.

(** X14: [get_recent_trades] never raises and never returns [None]: it
    returns the gateway's list unchanged, and the empty list when the gateway
    raises.  It makes exactly one client call, for the upper-cased symbol and
    the given limit, which is 10 when the argument is omitted.  The case of
    the symbol changes neither the call nor the result (it shows in the log
    record only). *)
Theorem get_recent_trades_outcome
        (self : MarketOrderManager.MarketOrderManager)
        (client : ClientRest) (s : string) (limit : option Z)
        (st : Session) :
  fst (get_recent_trades self client s limit st) =
  Returned
    match futures_account_trades client (trace (world st)) (more_calls st)
                                 (upper s)
                                 (match limit with Some n => n | None => 10 end)
    with
    | Ok trades => trades
    | Raise _ => []
    end
  /\ more_calls (snd (get_recent_trades self client s limit st)) =
     more_calls st ++
     [CallAccountTrades (upper s)
                        (match limit with Some n => n | None => 10 end)]
  /\ world (snd (get_recent_trades self client s limit st)) = world st
  /\ fst (get_recent_trades self client (upper s) limit st) =
     fst (get_recent_trades self client s limit st)
  /\ more_calls (snd (get_recent_trades self client (upper s) limit st)) =
     more_calls (snd (get_recent_trades self client s limit st))
  /\ get_recent_trades self client s None st =
     get_recent_trades self client s (Some 10) st.
Proof.
  unfold get_recent_trades. io_run. rewrite upper_idempotent.
  destruct (futures_account_trades client _ _ _ _); simpl; auto 7.
Qed.

(** ** The command line *)

Lemma print_lines_run (lines : list string) (st : Session) :
  Main.print_lines lines st =
  (Returned tt,
   {| world := world st; more_calls := more_calls st;
      more_log := more_log st;
      stdout := stdout st ++ map Line lines |}).
Proof.
  revert st. induction lines as [|l lines IH]; intros st; simpl.
  - unfold io_ret. rewrite app_nil_r. now destruct st.
  - unfold io_bind, print. rewrite IH. simpl.
    now rewrite <- app_assoc.
Qed.

Lemma get_credentials_run (getenv : string -> option string)
      (args : Main.Namespace) (st : Session) :
  Main.get_credentials getenv args st =
  if credentials_given getenv args
  then (Returned (str_of (effective_key getenv args),
                  str_of (effective_secret getenv args)), st)
  else (Exited 1,
        {| world := world st; more_calls := more_calls st;
           more_log := more_log st;
           stdout :=
             stdout st ++
             [Line "Error: API credentials required!";
              Line "Provide --api-key and --api-secret arguments";
              Line "Or set BINANCE_API_KEY and BINANCE_API_SECRET environment variables"] |}).
Proof.
  unfold Main.get_credentials, credentials_given, effective_key,
    effective_secret.
  destruct (truthy (py_or (Main.api_key args) _));
    destruct (truthy (py_or (Main.api_secret args) _)); simpl;
    try reflexivity; io_run; now rewrite <- !app_assoc.
Qed.

Lemma init_run (FileHandler : string -> PyResult unit)
      (Client_ : string -> string -> bool -> PyResult Client)
      (key secret : string) (testnet : bool) (w : World) :
  match FileHandler "bot.log"%string with
  | Ok _ =>
      match Client_ key secret testnet with
      | Ok c =>
          exists self w1,
            BasicBot.__init__ FileHandler Client_ key secret testnet w
            = (Ok self, w1)
            /\ trace w1 = trace w ++ [CallAccount]
      | Raise e =>
          BasicBot.__init__ FileHandler Client_ key secret testnet w =
          (Raise e,
           {| trace := trace w;
              log := log w ++ [(ERROR, FailedToInitializeBot e)] |})
      end
  | Raise e =>
      BasicBot.__init__ FileHandler Client_ key secret testnet w
      = (Raise e, w)
  end.
Proof.
  unfold BasicBot.__init__, BasicBot._setup_logging.
  unfold bind at 1. unfold lift at 1.
  destruct (FileHandler "bot.log"%string) as [[]|e']; [|reflexivity].
  unfold BasicBot._test_connection. run.
  destruct (Client_ key secret testnet) as [c|e]; simpl; [|reflexivity].
  destruct (futures_account _ (trace w)); simpl; eauto.
Qed.

Lemma get_account_balance_calls (self : BasicBot.BasicBot) (w : World) :
  (exists r, fst (BasicBot.get_account_balance self w) = Ok r)
  /\ trace (snd (BasicBot.get_account_balance self w)) =
     trace w ++ [CallAccount].
Proof.
  unfold BasicBot.get_account_balance. run.
  destruct (futures_account (BasicBot.client self) (trace w)) as [ai|e];
    simpl; [|eauto].
  destruct (BasicBot.float_get_or_0 (Api.totalWalletBalance ai)); simpl;
    [|eauto].
  destruct (BasicBot.float_get_or_0 (Api.totalUnrealizedPnL ai)); simpl;
    [|eauto].
  destruct (BasicBot.float_get_or_0 (Api.totalMarginBalance ai)); simpl;
    [|eauto].
  destruct (BasicBot.float_get_or_0 (Api.availableBalance ai)); simpl; eauto.
Qed.

Lemma handle_market_order_outcome (bot : BasicBot.BasicBot)
      (mm : MarketOrderManager.MarketOrderManager) (s side : string)
      (q : float) (st : Session) :
  fst (Main.handle_market_order bot mm s side q st) = Returned tt
  /\ world (snd (Main.handle_market_order bot mm s side q st)) =
     snd (MarketOrderManager.place_market_order mm s side q (world st))
  /\ more_calls (snd (Main.handle_market_order bot mm s side q st)) =
     more_calls st
  /\ (fst (MarketOrderManager.place_market_order mm s side q (world st))
      = Ok None ->
      stdout (snd (Main.handle_market_order bot mm s side q st)) =
      stdout st ++
      [PlacingMarketLine side q s;
       Line "❌ Failed to place market order. Check logs for details."]).
Proof.
  destruct (place_market_calls mm s side q (world st))
    as (n & r & _ & Hr & _).
  unfold Main.handle_market_order, run_bot. io_run.
  destruct (MarketOrderManager.place_market_order mm s side q (world st))
    as [r0 w1].
  simpl in Hr. subst r0. simpl.
  destruct r as [r|]; simpl; repeat split; auto; try discriminate.
  intros _. now rewrite <- app_assoc.
Qed.

Lemma handle_limit_order_outcome (bot : BasicBot.BasicBot)
      (lm : LimitOrderManager.LimitOrderManager) (s side : string)
      (q p : float) (st : Session) :
  fst (Main.handle_limit_order bot lm s side q p st) = Returned tt
  /\ world (snd (Main.handle_limit_order bot lm s side q p st)) =
     snd (LimitOrderManager.place_limit_order lm s side q p (world st))
  /\ more_calls (snd (Main.handle_limit_order bot lm s side q p st)) =
     more_calls st
  /\ (fst (LimitOrderManager.place_limit_order lm s side q p (world st))
      = Ok None ->
      stdout (snd (Main.handle_limit_order bot lm s side q p st)) =
      stdout st ++
      [PlacingLimitLine side q s p;
       Line "❌ Failed to place limit order. Check logs for details."]).
Proof.
  destruct (place_limit_calls lm s side q p (world st))
    as (n & r & _ & Hr & _).
  unfold Main.handle_limit_order, run_bot. io_run.
  destruct (LimitOrderManager.place_limit_order lm s side q p (world st))
    as [r0 w1].
  simpl in Hr. subst r0. simpl.
  destruct r as [r|]; simpl; repeat split; auto; try discriminate.
  intros _. now rewrite <- app_assoc.
Qed.

Lemma handle_balance_outcome (bot : BasicBot.BasicBot) (st : Session) :
  fst (Main.handle_balance bot st) = Returned tt
  /\ world (snd (Main.handle_balance bot st)) =
     snd (BasicBot.get_account_balance bot (world st))
  /\ more_calls (snd (Main.handle_balance bot st)) = more_calls st.
Proof.
  destruct (get_account_balance_calls bot (world st)) as [[r Hr] _].
  unfold Main.handle_balance, run_bot. io_run.
  destruct (BasicBot.get_account_balance bot (world st)) as [r0 w1].
  simpl in Hr. subst r0. simpl.
  destruct r as [r|]; simpl; auto.
Qed.

Lemma print_orders_cons (order : RawDict) (orders : list RawDict)
      (st : Session) :
  Main.print_orders (order :: orders) st =
  match dict_get "orderId" order with
  | None => (Raised (KeyError "orderId"), st)
  | Some order_id =>
  match dict_get "symbol" order with
  | None => (Raised (KeyError "symbol"), st)
  | Some sym =>
  match dict_get "side" order with
  | None => (Raised (KeyError "side"), st)
  | Some side =>
  match dict_get "origQty" order with
  | None => (Raised (KeyError "origQty"), st)
  | Some orig_qty =>
  match dict_get "price" order with
  | None => (Raised (KeyError "price"), st)
  | Some price =>
  match dict_get "status" order with
  | None => (Raised (KeyError "status"), st)
  | Some status =>
      Main.print_orders orders
        {| world := world st; more_calls := more_calls st;
           more_log := more_log st;
           stdout :=
             stdout st ++
             [OpenOrderLine order_id sym side orig_qty price status] |}
  end end end end end end.
Proof.
  cbn [Main.print_orders].
  unfold subscript, io_bind, io_lift, print.
  destruct (dict_get "orderId" order); [|reflexivity].
  destruct (dict_get "symbol" order); [|reflexivity].
  destruct (dict_get "side" order); [|reflexivity].
  destruct (dict_get "origQty" order); [|reflexivity].
  destruct (dict_get "price" order); [|reflexivity].
  destruct (dict_get "status" order); reflexivity.
Qed.

Lemma print_orders_outcome (orders : list RawDict) (st : Session) :
  world (snd (Main.print_orders orders st)) = world st
  /\ more_calls (snd (Main.print_orders orders st)) = more_calls st
  /\ more_log (snd (Main.print_orders orders st)) = more_log st
  /\ (forallb printable orders = true ->
      fst (Main.print_orders orders st) = Returned tt
      /\ List.length (stdout (snd (Main.print_orders orders st))) =
         (List.length (stdout st) + List.length orders)%nat)
  /\ (forallb printable orders = false ->
      exists key,
        In key printed_keys
        /\ fst (Main.print_orders orders st) = Raised (KeyError key)).
Proof.
  revert st. induction orders as [|order orders IH]; intros st.
  - simpl. unfold io_ret. simpl. repeat split; auto; try discriminate; lia.
  - rewrite print_orders_cons.
    unfold printable, printed_keys in *. cbn [forallb].
    destruct (dict_get "orderId" order);
      [|simpl; repeat split; auto; try discriminate; intros _;
        exists "orderId"%string; split; [simpl; tauto|reflexivity]].
    destruct (dict_get "symbol" order);
      [|simpl; repeat split; auto; try discriminate; intros _;
        exists "symbol"%string; split; [simpl; tauto|reflexivity]].
    destruct (dict_get "side" order);
      [|simpl; repeat split; auto; try discriminate; intros _;
        exists "side"%string; split; [simpl; tauto|reflexivity]].
    destruct (dict_get "origQty" order);
      [|simpl; repeat split; auto; try discriminate; intros _;
        exists "origQty"%string; split; [simpl; tauto|reflexivity]].
    destruct (dict_get "price" order);
      [|simpl; repeat split; auto; try discriminate; intros _;
        exists "price"%string; split; [simpl; tauto|reflexivity]].
    destruct (dict_get "status" order);
      [|simpl; repeat split; auto; try discriminate; intros _;
        exists "status"%string; split; [simpl; tauto|reflexivity]].
    cbn [andb].
    match goal with
    | |- context [Main.print_orders orders ?st1] =>
        destruct (IH st1) as (Hw & Hc & Hl & Hok & Hbad)
    end.
    cbn [world more_calls more_log stdout] in *.
    rewrite Hw, Hc, Hl. repeat (split; [reflexivity|]). split.
    + intros H. destruct (Hok H) as [H1 H2]. split; [exact H1|].
      rewrite H2, length_app. simpl. lia.
    + exact Hbad.
Qed.

Lemma handle_orders_run (lm : LimitOrderManager.LimitOrderManager)
      (client : ClientRest) (symbol : option string) (st : Session) :
  Main.handle_orders lm client symbol st =
  let line :=
    GettingOpenOrdersLine
      (if truthy symbol then String.append " for " (str_of symbol)
       else ""%string) in
  match futures_get_open_orders client (trace (world st)) (more_calls st)
                                (open_orders_query symbol) with
  | Ok (order :: orders) =>
      Main.print_orders (order :: orders)
        {| world := world st;
           more_calls :=
             more_calls st ++ [CallGetOpenOrders (open_orders_query symbol)];
           more_log :=
             more_log st ++
             [(INFO, RetrievedOpenOrders (S (List.length orders)))];
           stdout :=
             stdout st ++
             [line; FoundOpenOrdersLine (S (List.length orders))] |}
  | Ok [] =>
      (Returned tt,
       {| world := world st;
          more_calls :=
            more_calls st ++ [CallGetOpenOrders (open_orders_query symbol)];
          more_log := more_log st ++ [(INFO, RetrievedOpenOrders 0)];
          stdout := stdout st ++ [line; Line "No open orders found."] |})
  | Raise e =>
      (Returned tt,
       {| world := world st;
          more_calls :=
            more_calls st ++ [CallGetOpenOrders (open_orders_query symbol)];
          more_log := more_log st ++ [(ERROR, FailedToGetOpenOrders e)];
          stdout := stdout st ++ [line; Line "No open orders found."] |})
  end.
Proof.
  unfold Main.handle_orders.
  unfold io_bind at 1. unfold print at 1.
  unfold io_bind at 1. rewrite get_open_orders_run.
  cbn [world more_calls more_log stdout].
  destruct (futures_get_open_orders client _ _ _) as [[|order orders]|e];
    cbv zeta.
  - unfold print. cbn [world more_calls more_log stdout].
    now rewrite <- app_assoc.
  - unfold io_bind at 1. unfold print at 1.
    cbn [world more_calls more_log stdout List.length].
    now rewrite <- app_assoc.
  - unfold print. cbn [world more_calls more_log stdout].
    now rewrite <- app_assoc.
Qed.

Lemma handle_orders_cases (lm : LimitOrderManager.LimitOrderManager)
      (client : ClientRest) (symbol : option string) (st : Session) :
  match futures_get_open_orders client (trace (world st)) (more_calls st)
                                (open_orders_query symbol) with
  | Ok orders =>
      if forallb printable orders
      then fst (Main.handle_orders lm client symbol st) = Returned tt
      else exists key,
          In key printed_keys
          /\ fst (Main.handle_orders lm client symbol st) =
             Raised (KeyError key)
  | Raise _ => fst (Main.handle_orders lm client symbol st) = Returned tt
  end
  /\ more_calls (snd (Main.handle_orders lm client symbol st)) =
     more_calls st ++ [CallGetOpenOrders (open_orders_query symbol)]
  /\ world (snd (Main.handle_orders lm client symbol st)) = world st.
Proof.
  rewrite handle_orders_run. cbv zeta.
  destruct (futures_get_open_orders client _ _ _) as [[|order orders]|e];
    [simpl; auto| |simpl; auto].
  match goal with
  | |- context [Main.print_orders ?os ?st1] =>
      destruct (print_orders_outcome os st1) as (Hw & Hc & _ & Hok & Hbad)
  end.
  cbn [world more_calls] in Hw, Hc.
  split; [|auto].
  destruct (forallb printable (order :: orders)).
  - apply Hok. reflexivity.
  - apply Hbad. reflexivity.
Qed.



(** ** The entry point *)


Lemma main_help (FileHandler : string -> PyResult unit)
      (Client_ : string -> string -> bool -> PyResult Client)
      (rest : ClientRest) (getenv : string -> option string)
      (sub : option string) (st : Session) :
  Main.main (Main.HelpRequested sub) FileHandler Client_ rest getenv st =
  (Exited 0,
   {| world := world st; more_calls := more_calls st;
      more_log := more_log st;
      stdout := stdout st ++
                [match sub with
                 | None => HelpText
                 | Some name => SubcommandHelpText name
                 end] |}).
Proof. destruct sub; reflexivity. Qed.

Lemma main_without_command (FileHandler : string -> PyResult unit)
      (Client_ : string -> string -> bool -> PyResult Client)
      (rest : ClientRest) (getenv : string -> option string)
      (args : Main.Namespace) (st : Session) :
  Main.command args = None ->
  Main.main (Main.Parsed args) FileHandler Client_ rest getenv st =
  (Exited 1,
   {| world := world st; more_calls := more_calls st;
      more_log := more_log st; stdout := stdout st ++ [HelpText] |}).
Proof.
  intros H. unfold Main.main, Main.parse_args.
  unfold io_bind at 1. unfold io_ret at 1. rewrite H. reflexivity.
Qed.

Ltac main_parsed H :=
  unfold Main.main, Main.parse_args;
  unfold io_bind at 1; unfold io_ret at 1; rewrite H.

Lemma main_demo (FileHandler : string -> PyResult unit)
      (Client_ : string -> string -> bool -> PyResult Client)
      (rest : ClientRest) (getenv : string -> option string)
      (args : Main.Namespace) (st : Session) :
  Main.command args = Some Main.Demo ->
  Main.main (Main.Parsed args) FileHandler Client_ rest getenv st =
  (Returned tt,
   {| world := world st; more_calls := more_calls st;
      more_log := more_log st;
      stdout := stdout st ++ map Line Main.demo_lines |}).
Proof.
  intros H. main_parsed H.
  unfold io_try, Main.handle_demo. now rewrite print_lines_run.
Qed.

Lemma main_without_credentials
      (FileHandler : string -> PyResult unit)
      (Client_ : string -> string -> bool -> PyResult Client)
      (rest : ClientRest) (getenv : string -> option string)
      (args : Main.Namespace) (st : Session) (cmd : Main.Command) :
  Main.command args = Some cmd ->
  cmd <> Main.Demo ->
  credentials_given getenv args = false ->
  Main.main (Main.Parsed args) FileHandler Client_ rest getenv st =
  (Exited 1,
   {| world := world st; more_calls := more_calls st;
      more_log := more_log st;
      stdout :=
        stdout st ++
        [Line "Error: API credentials required!";
         Line "Provide --api-key and --api-secret arguments";
         Line "Or set BINANCE_API_KEY and BINANCE_API_SECRET environment variables"] |}).
Proof.
  intros H Hd Hc. main_parsed H.
  destruct cmd; try contradiction;
    unfold io_try, io_bind; rewrite get_credentials_run, Hc; reflexivity.
Qed.

Lemma main_run (FileHandler : string -> PyResult unit)
      (Client_ : string -> string -> bool -> PyResult Client)
      (rest : ClientRest) (getenv : string -> option string)
      (args : Main.Namespace) (st : Session) (cmd : Main.Command) :
  Main.command args = Some cmd ->
  cmd <> Main.Demo ->
  credentials_given getenv args = true ->
  Main.main (Main.Parsed args) FileHandler Client_ rest getenv st =
  match BasicBot.__init__ FileHandler Client_
                          (str_of (effective_key getenv args))
                          (str_of (effective_secret getenv args))
                          (Main.testnet args) (world st) with
  | (Ok bot, w1) =>
      io_try
        match cmd with
        | Main.Market symbol side quantity =>
            Main.handle_market_order bot {| MarketOrderManager.bot := bot |}
                                     symbol side quantity
        | Main.Limit symbol side quantity price =>
            Main.handle_limit_order bot {| LimitOrderManager.bot := bot |}
                                    symbol side quantity price
        | Main.Balance => Main.handle_balance bot
        | Main.Orders symbol =>
            Main.handle_orders {| LimitOrderManager.bot := bot |} rest symbol
        | Main.Demo => io_ret tt
        end
        (fun e => (print (ErrorLine e) ;;; sys_exit 1)%io)
        {| world := w1; more_calls := more_calls st;
           more_log := more_log st;
           stdout :=
             stdout st ++
             [Line "🤖 Initializing Binance Futures Trading Bot..."] |}
  | (Raise e, w1) =>
      (Exited 1,
       {| world := w1; more_calls := more_calls st;
          more_log := more_log st;
          stdout :=
            stdout st ++
            [Line "🤖 Initializing Binance Futures Trading Bot...";
             ErrorLine e] |})
  end.
Proof.
  intros H Hd Hc. main_parsed H.
  destruct cmd; try contradiction;
    unfold io_try at 1; unfold io_bind at 1;
    rewrite get_credentials_run, Hc;
    unfold io_bind at 1; unfold print at 1;
    unfold io_bind at 1; unfold run_bot at 1;
    cbn [world more_calls more_log stdout];
    destruct (BasicBot.__init__ _ _ _ _ _) as [[bot|e] w1];
    cbn [outcome_of];
    try reflexivity;
    unfold io_bind, print, sys_exit;
    cbn [world more_calls more_log stdout];
    now rewrite <- app_assoc.
Qed.





Lemma demo_or_not (cmd : Main.Command) :
  cmd = Main.Demo \/ cmd <> Main.Demo.
Proof. destruct cmd; auto; right; discriminate. Qed.

Lemma main_with_bot (FileHandler : string -> PyResult unit)
      (Client_ : string -> string -> bool -> PyResult Client)
      (rest : ClientRest) (getenv : string -> option string)
      (args : Main.Namespace) (st : Session) (cmd : Main.Command)
      (c : Client) :
  Main.command args = Some cmd ->
  cmd <> Main.Demo ->
  credentials_given getenv args = true ->
  FileHandler "bot.log"%string = Ok tt ->
  Client_ (str_of (effective_key getenv args))
          (str_of (effective_secret getenv args))
          (Main.testnet args) = Ok c ->
  exists bot w1,
    trace w1 = trace (world st) ++ [CallAccount]
    /\ Main.main (Main.Parsed args) FileHandler Client_ rest getenv st =
       io_try
         match cmd with
         | Main.Market symbol side quantity =>
             Main.handle_market_order bot {| MarketOrderManager.bot := bot |}
                                      symbol side quantity
         | Main.Limit symbol side quantity price =>
             Main.handle_limit_order bot {| LimitOrderManager.bot := bot |}
                                     symbol side quantity price
         | Main.Balance => Main.handle_balance bot
         | Main.Orders symbol =>
             Main.handle_orders {| LimitOrderManager.bot := bot |} rest symbol
         | Main.Demo => io_ret tt
         end
         (fun e => (print (ErrorLine e) ;;; sys_exit 1)%io)
         {| world := w1; more_calls := more_calls st;
            more_log := more_log st;
            stdout :=
              stdout st ++
              [Line "🤖 Initializing Binance Futures Trading Bot..."] |}.
Proof.
  intros H Hd Hc Hf Hk.
  rewrite (main_run FileHandler Client_ rest getenv args st cmd H Hd Hc).
  pose proof (init_run FileHandler Client_
                       (str_of (effective_key getenv args))
                       (str_of (effective_secret getenv args))
                       (Main.testnet args) (world st)) as Hi.
  rewrite Hf, Hk in Hi. destruct Hi as (bot & w1 & Hi & Ht).
  rewrite Hi. eauto.
Qed.

(** The status of [main] on a parsed command line whose subcommand is not
    [demo], when [__init__] raises. *)
Lemma main_init_raises (FileHandler : string -> PyResult unit)
      (Client_ : string -> string -> bool -> PyResult Client)
      (rest : ClientRest) (getenv : string -> option string)
      (args : Main.Namespace) (st : Session) (cmd : Main.Command)
      (e : Exc) (w1 : World) :
  Main.command args = Some cmd ->
  cmd <> Main.Demo ->
  credentials_given getenv args = true ->
  BasicBot.__init__ FileHandler Client_
                    (str_of (effective_key getenv args))
                    (str_of (effective_secret getenv args))
                    (Main.testnet args) (world st) = (Raise e, w1) ->
  fst (Main.main (Main.Parsed args) FileHandler Client_ rest getenv st)
  = Exited 1.
Proof.
  intros H Hd Hc Hi.
  rewrite (main_run FileHandler Client_ rest getenv args st cmd H Hd Hc), Hi.
  reflexivity.
Qed.

(** X18: the exit status of [main].  [main] never ends with an exception:
    it returns (status 0) or leaves with status 0, 1 or 2.  It leaves with
    status 2 exactly when the parser refuses the command line, and with
    status 0 exactly when the parser is asked for help; on a command line
    that is parsed it returns or leaves with status 1.  With credentials, a
    log file that is opened and a client, the [market], [limit] and
    [balance] commands always return, also when the order is rejected or
    fails and when the balance cannot be read: a failure is printed, and
    the status is 0; and the [orders] command leaves with status 1 exactly
    when the gateway lists an order that lacks one of the six printed keys.
    With credentials and a log file that cannot be opened, every command
    but [demo] leaves with status 1. *)
Theorem main_exit_status
        (argv : Main.Parse) (FileHandler : string -> PyResult unit)
        (Client_ : string -> string -> bool -> PyResult Client)
        (rest : ClientRest) (getenv : string -> option string)
        (st : Session) :
  match argv with
  | Main.UsageError =>
      fst (Main.main argv FileHandler Client_ rest getenv st) = Exited 2
  | Main.HelpRequested _ =>
      fst (Main.main argv FileHandler Client_ rest getenv st) = Exited 0
  | Main.Parsed args =>
      (fst (Main.main argv FileHandler Client_ rest getenv st) = Returned tt
       \/ fst (Main.main argv FileHandler Client_ rest getenv st) = Exited 1)
      /\ (forall cmd c,
             Main.command args = Some cmd ->
             credentials_given getenv args = true ->
             FileHandler "bot.log"%string = Ok tt ->
             Client_ (str_of (effective_key getenv args))
                     (str_of (effective_secret getenv args))
                     (Main.testnet args) = Ok c ->
             match cmd with
             | Main.Orders symbol =>
                 fst (Main.main argv FileHandler Client_ rest getenv st)
                 = Exited 1 <->
                 exists orders,
                   futures_get_open_orders
                     rest (trace (world st) ++ [CallAccount]) (more_calls st)
                     (open_orders_query symbol) = Ok orders
                   /\ forallb printable orders = false
             | _ =>
                 fst (Main.main argv FileHandler Client_ rest getenv st)
                 = Returned tt
             end)
      /\ (forall cmd e,
             Main.command args = Some cmd ->
             cmd <> Main.Demo ->
             credentials_given getenv args = true ->
             FileHandler "bot.log"%string = Raise e ->
             fst (Main.main argv FileHandler Client_ rest getenv st)
             = Exited 1)
  end.
Proof.
  destruct argv as [args| |sub];
    [|reflexivity|rewrite main_help; reflexivity].
  assert (Hcases :
            forall cmd c,
              Main.command args = Some cmd ->
              credentials_given getenv args = true ->
              FileHandler "bot.log"%string = Ok tt ->
              Client_ (str_of (effective_key getenv args))
                      (str_of (effective_secret getenv args))
                      (Main.testnet args) = Ok c ->
              (fst (Main.main (Main.Parsed args) FileHandler Client_ rest
                              getenv st) = Returned tt
               \/ fst (Main.main (Main.Parsed args) FileHandler Client_ rest
                                 getenv st) = Exited 1)
              /\ match cmd with
                 | Main.Orders symbol =>
                     fst (Main.main (Main.Parsed args) FileHandler Client_
                                    rest getenv st) = Exited 1
                     <->
                     exists orders,
                       futures_get_open_orders
                         rest (trace (world st) ++ [CallAccount])
                         (more_calls st) (open_orders_query symbol)
                       = Ok orders
                       /\ forallb printable orders = false
                 | _ =>
                     fst (Main.main (Main.Parsed args) FileHandler Client_
                                    rest getenv st) = Returned tt
                 end).
  { intros cmd c H Hc Hf Hk.
    destruct (demo_or_not cmd) as [->|Hd].
    - rewrite (main_demo FileHandler Client_ rest getenv args st H). auto.
    - destruct (main_with_bot FileHandler Client_ rest getenv args st cmd c
                              H Hd Hc Hf Hk)
        as (bot & w1 & Ht & ->).
      unfold io_try.
      destruct cmd as [s side q|s side q p| |symbol|]; try contradiction.
      + match goal with
        | |- context [Main.handle_market_order ?b ?m ?s ?sd ?q ?st1] =>
            destruct (handle_market_order_outcome b m s sd q st1) as [Hr _];
            destruct (Main.handle_market_order b m s sd q st1) as [r st2]
        end.
        simpl in Hr. subst r. simpl. auto.
      + match goal with
        | |- context [Main.handle_limit_order ?b ?m ?s ?sd ?q ?p ?st1] =>
            destruct (handle_limit_order_outcome b m s sd q p st1)
              as [Hr _];
            destruct (Main.handle_limit_order b m s sd q p st1) as [r st2]
        end.
        simpl in Hr. subst r. simpl. auto.
      + match goal with
        | |- context [Main.handle_balance ?b ?st1] =>
            destruct (handle_balance_outcome b st1) as [Hr _];
            destruct (Main.handle_balance b st1) as [r st2]
        end.
        simpl in Hr. subst r. simpl. auto.
      + match goal with
        | |- context [Main.handle_orders ?m ?r ?sy ?st1] =>
            destruct (handle_orders_cases m r sy st1) as (Hf' & _);
            destruct (Main.handle_orders m r sy st1) as [r0 st2]
        end.
        cbn [world more_calls fst] in Hf'.
        rewrite Ht in *.
        destruct (futures_get_open_orders rest _ _ _) as [orders|e].
        * destruct (forallb printable orders) eqn:Hp.
          -- subst r0. simpl. split; [auto|]. split; [discriminate|].
             intros (os & Ho & Hp'). injection Ho as <-. congruence.
          -- destruct Hf' as (key & _ & ->). simpl.
             split; [auto|]. split; [|reflexivity].
             intros _. eauto.
        * subst r0. simpl. split; [auto|]. split; [discriminate|].
          intros (os & Ho & _). discriminate. }
  split; [|split].
  - destruct (Main.command args) as [cmd|] eqn:H.
    + destruct (demo_or_not cmd) as [->|Hd].
      * rewrite (main_demo FileHandler Client_ rest getenv args st H). auto.
      * destruct (credentials_given getenv args) eqn:Hc.
        -- pose proof (init_run FileHandler Client_
                         (str_of (effective_key getenv args))
                         (str_of (effective_secret getenv args))
                         (Main.testnet args) (world st)) as Hi.
           destruct (FileHandler "bot.log"%string) as [[]|e] eqn:Hf.
           ++ destruct (Client_ (str_of (effective_key getenv args))
                                (str_of (effective_secret getenv args))
                                (Main.testnet args)) as [c|e] eqn:Hk.
              ** exact (proj1 (Hcases cmd c eq_refl eq_refl eq_refl
                                      eq_refl)).
              ** right.
                 exact (main_init_raises FileHandler Client_ rest getenv
                          args st cmd e _ H Hd Hc Hi).
           ++ right.
              exact (main_init_raises FileHandler Client_ rest getenv
                       args st cmd e _ H Hd Hc Hi).
        -- rewrite (main_without_credentials FileHandler Client_ rest getenv
                                             args st cmd H Hd Hc). auto.
    + rewrite (main_without_command FileHandler Client_ rest getenv args st
                                    H). auto.
  - intros cmd c H Hc Hf Hk. exact (proj2 (Hcases cmd c H Hc Hf Hk)).
  - intros cmd e H Hd Hc Hf.
    pose proof (init_run FileHandler Client_
                         (str_of (effective_key getenv args))
                         (str_of (effective_secret getenv args))
                         (Main.testnet args) (world st)) as Hi.
    rewrite Hf in Hi.
    exact (main_init_raises FileHandler Client_ rest getenv args st cmd e _
                            H Hd Hc Hi).
Qed.

Lemma main_exit_status_witness :
  fst (Main.main (Main.Parsed
                    (args_of (Main.Market "BTCUSDT" "buy"
                                          (Float64.decimal 1 3))))
                 writable (fun _ _ _ => Ok (reject_client tick_0_01))
                 (mock_rest []) mock_environment empty_session)
  = Returned tt
  /\ (fst (Main.main (Main.Parsed (args_of (Main.Orders None))) writable
                     (fun _ _ _ => Ok (mock_client tick_0_01))
                     (mock_rest [mock_open_order; priceless_open_order])
                     mock_environment empty_session) = Exited 1 <->
      exists orders,
        futures_get_open_orders
          (mock_rest [mock_open_order; priceless_open_order])
          ([] ++ [CallAccount]) [] (open_orders_query None) = Ok orders
        /\ forallb printable orders = false)
  /\ fst (Main.main (Main.Parsed (args_of Main.Balance)) read_only
                    (fun _ _ _ => Ok (mock_client tick_0_01))
                    (mock_rest []) mock_environment empty_session)
     = Exited 1
  /\ fst (Main.main Main.UsageError writable
                    (fun _ _ _ => Ok (mock_client tick_0_01))
                    (mock_rest []) mock_environment empty_session)
     = Exited 2
  /\ fst (Main.main (Main.HelpRequested None) writable
                    (fun _ _ _ => Ok (mock_client tick_0_01))
                    (mock_rest []) mock_environment empty_session)
     = Exited 0.
Proof.
  split; [|split; [|split; [|split]]].
  - exact (proj1 (proj2 (main_exit_status
                    (Main.Parsed
                       (args_of (Main.Market "BTCUSDT" "buy"
                                             (Float64.decimal 1 3))))
                    writable (fun _ _ _ => Ok (reject_client tick_0_01))
                    (mock_rest []) mock_environment empty_session))
                 (Main.Market "BTCUSDT" "buy" (Float64.decimal 1 3))
                 (reject_client tick_0_01) eq_refl eq_refl eq_refl eq_refl).
  - exact (proj1 (proj2 (main_exit_status
                    (Main.Parsed (args_of (Main.Orders None))) writable
                    (fun _ _ _ => Ok (mock_client tick_0_01))
                    (mock_rest [mock_open_order; priceless_open_order])
                    mock_environment empty_session))
                 (Main.Orders None) (mock_client tick_0_01)
                 eq_refl eq_refl eq_refl eq_refl).
  - refine (proj2 (proj2 (main_exit_status
                    (Main.Parsed (args_of Main.Balance)) read_only
                    (fun _ _ _ => Ok (mock_client tick_0_01))
                    (mock_rest []) mock_environment empty_session))
                  Main.Balance (OSError "Permission denied") eq_refl _
                  eq_refl eq_refl).
    discriminate.
  - exact (main_exit_status
             Main.UsageError writable
             (fun _ _ _ => Ok (mock_client tick_0_01))
             (mock_rest []) mock_environment empty_session).
  - exact (main_exit_status
             (Main.HelpRequested None) writable
             (fun _ _ _ => Ok (mock_client tick_0_01))
             (mock_rest []) mock_environment empty_session).
Defined.




